(** * library-backend: the [import_books] management command

    A shallow embedding of [library/management/commands/import_books.py]
    and of the two models of [library/models.py] it reads and writes.

    - Python values are modelled as they occur in the command: strings as
      [string], the unbounded [int] as [Z], [None] as [option].  Strings
      are ASCII: white space and digits outside ASCII, which [str.strip]
      and [int] also accept, are not represented.  [int] is the one of
      CPython 3.11 and later, which rejects a literal of more than 4300
      digits.
    - A file is what the command finds under its path: [open] fails, or
      [csv.reader] yields records and then ends, at the end of the file or
      with an error.  [csv.DictReader] makes the rows from the records: the
      first record is the header, every row has the names of the header as
      its keys, and a cell is [None] when the line was shorter than the
      header (the reader's [restval]).
    - The two tables are lists of records in primary-key order.  The ORM
      calls are modelled by what they do to the tables: [get_or_create] and
      [update_or_create] look a row up by its unique column and insert or
      overwrite.  A write is checked against the limits [models.py]
      declares for its columns: [PositiveIntegerField] puts a check
      [>= 0] on the column, [max_length] bounds a [CharField].  A value
      outside them raises a database error, which [handle] does not catch.
      (A database that does not enforce [max_length] stores a longer
      string; every statement below that a write succeeds is made for
      values within the limits, where all databases agree.)
    - Everything the command threads through its loops is explicit: the
      catalog, the text written to [stdout] (as structured events), the
      exception that ends a computation early.  Nothing is rolled back
      when an exception is raised: the command runs in autocommit. *)

From Stdlib Require Import String Ascii List ZArith Bool Arith Lia.
Import ListNotations.

Local Open Scope string_scope.
Local Open Scope list_scope.

(* ===================================================================== *)
(** ** Python built-ins used by the command *)
(* ===================================================================== *)

Module Py.

(** [str.isspace] on one ASCII character: tab, line feed, vertical tab,
    form feed, carriage return, the four separators 0x1c-0x1f and space. *)
Definition isspace (c : ascii) : bool :=
  let n := nat_of_ascii c in
  (((9 <=? n) && (n <=? 13)) || ((28 <=? n) && (n <=? 32)))%nat.

Fixpoint lstrip (s : string) : string :=
  match s with
  | EmptyString => EmptyString
  | String c s' => if isspace c then lstrip s' else s
  end.

Fixpoint rstrip (s : string) : string :=
  match s with
  | EmptyString => EmptyString
  | String c s' =>
      match rstrip s' with
      | EmptyString => if isspace c then EmptyString else String c EmptyString
      | r => String c r
      end
  end.

(** [s.strip()] *)
Definition strip (s : string) : string := rstrip (lstrip s).

Definition digit (c : ascii) : option Z :=
  let n := nat_of_ascii c in
  if ((48 <=? n) && (n <=? 57))%nat then Some (Z.of_nat (n - 48)) else None.

(** The digits of a decimal literal: at least one digit, single
    underscores allowed between two digits.  [after_digit] tells whether the
    previous character was a digit. *)
Fixpoint digits (acc : Z) (after_digit : bool) (s : string) : option Z :=
  match s with
  | EmptyString => if after_digit then Some acc else None
  | String c s' =>
      match digit c with
      | Some d => digits (10 * acc + d)%Z true s'
      | None =>
          if Ascii.eqb c "_" && after_digit then digits acc false s' else None
      end
  end.

(** The number of digits in a string. *)
Fixpoint count_digits (s : string) : N :=
  match s with
  | EmptyString => 0%N
  | String c s' =>
      match digit c with
      | Some _ => N.succ (count_digits s')
      | None => count_digits s'
      end
  end.

(** [int(s)] for a [str] argument; [None] stands for [ValueError], which
    is also what a literal of more than 4300 digits raises
    ([sys.int_max_str_digits]). *)
Definition int (s : string) : option Z :=
  let t := strip s in
  if (4300 <? count_digits t)%N then None
  else
    match t with
    | String "+" r => digits 0%Z false r
    | String "-" r => option_map Z.opp (digits 0%Z false r)
    | _ => digits 0%Z false t
    end.

End Py.

(* ===================================================================== *)
(** ** Exceptions and the command's monad *)
(* ===================================================================== *)

(** The exceptions that can arise while the command runs.  [OSError]
    stands for the subclasses of [OSError] other than [FileNotFoundError]
    ([IsADirectoryError], [PermissionError], ...); [csv_Error] is
    [csv.Error]; [DatabaseError] covers [IntegrityError] and [DataError];
    [DoesNotExist] is raised by the access to a related object that is not
    there. *)
Inductive exn : Type :=
| KeyError (key : string)
| AttributeError
| FileNotFoundError
| OSError
| UnicodeDecodeError
| csv_Error
| DatabaseError
| DoesNotExist.

Inductive outcome (A : Type) : Type :=
| Returned (a : A)
| Raised (e : exn).

Arguments Returned {A} a.
Arguments Raised {A} e.

(** Pure code that may raise. *)
Definition obind {A B : Type} (m : outcome A) (k : A -> outcome B) : outcome B :=
  match m with
  | Returned a => k a
  | Raised e => Raised e
  end.

(* ===================================================================== *)
(** ** library/models.py *)
(* ===================================================================== *)

(** [class Category(models.Model)]: [name = CharField(max_length=100, unique=True)] *)
Record Category : Type := {
  category_id : nat;
  name : string
}.

(** [class Book(models.Model)]; [category] holds the primary key of the
    referenced [Category] row. *)
Record Book : Type := {
  book_id : nat;
  category : nat;
  book_code : string;
  title : string;
  authors : option string;
  number_of_copies : Z
}.

(** [Book.__str__]: [f"{self.book_code} ({self.title})"] *)
Definition Book_str (b : Book) : string :=
  (book_code b ++ " (" ++ title b ++ ")")%string.

(** [Book.available] *)
Definition available (b : Book) : bool := (0 <? number_of_copies b)%Z.

(** The persistent catalog: both tables, each ordered by primary key. *)
Record Catalog : Type := {
  categories : list Category;
  books : list Book
}.

Definition empty_catalog : Catalog := {| categories := []; books := [] |}.

(** Column limits declared by the model fields. *)
Definition CharField (max_length : nat) (s : string) : bool :=
  (String.length s <=? max_length)%nat.

(** [PositiveIntegerField]: a check [>= 0] on the column; 2147483647 is the
    largest value every supported database stores. *)
Definition PositiveIntegerField (n : Z) : bool :=
  ((0 <=? n) && (n <=? 2147483647))%Z.

Definition Category_fits (c : Category) : bool := CharField 100 (name c).

Definition Book_fits (b : Book) : bool :=
  CharField 50 (book_code b)
  && CharField 255 (title b)
  && match authors b with
     | None => true
     | Some a => CharField 255 a
     end
  && PositiveIntegerField (number_of_copies b).

(** The primary key given to a new row: one more than the largest in use. *)
Definition next_id (ids : list nat) : nat := S (list_max ids).

Definition find_category (nm : string) (db : Catalog) : option Category :=
  find (fun c => String.eqb (name c) nm) (categories db).

Definition find_category_by_id (i : nat) (db : Catalog) : option Category :=
  find (fun c => Nat.eqb (category_id c) i) (categories db).

Definition find_book (code : string) (db : Catalog) : option Book :=
  find (fun b => String.eqb (book_code b) code) (books db).

(** [UPDATE ... WHERE book_code = code] *)
Definition replace_book (b' : Book) (bs : list Book) : list Book :=
  map (fun b => if String.eqb (book_code b) (book_code b') then b' else b) bs.

(* ===================================================================== *)
(** ** Rows, files, counters and output *)
(* ===================================================================== *)

(** One row of [csv.DictReader]: a dictionary from the names of the header
    to the cells of a line, in the order the names were first inserted.  A
    cell is [None] when the line is shorter than the header. *)
Definition Row : Type := list (string * option string).

(** [d[key] = v] *)
Fixpoint dict_set (key : string) (v : option string) (d : Row) : Row :=
  match d with
  | [] => [(key, v)]
  | (k, v') :: d' =>
      if String.eqb k key then (k, v) :: d' else (k, v') :: dict_set key v d'
  end.

(** [DictReader.__next__] on one record: [dict(zip(fieldnames, record))],
    then [restval], which is [None], under the names the record is too short
    for.  The cells a longer record has left go under the key [None]
    ([restkey]); no lookup of the command names that key, and they are left
    out here. *)
Fixpoint zip_dict (fieldnames record : list string) (d : Row) : Row :=
  match fieldnames with
  | [] => d
  | key :: fieldnames' =>
      match record with
      | [] => zip_dict fieldnames' [] (dict_set key None d)
      | cell :: record' =>
          zip_dict fieldnames' record' (dict_set key (Some cell) d)
      end
  end.

Definition dict_row (fieldnames record : list string) : Row :=
  zip_dict fieldnames record [].

(** [csv.DictReader(f)], given the records [csv.reader] yields for [f]: the
    first record is the header, the empty records after it are skipped. *)
Definition DictReader (records : list (list string)) : list Row :=
  match records with
  | [] => []
  | fieldnames :: records' =>
      map (dict_row fieldnames)
          (filter (fun record => match record with
                                 | [] => false
                                 | _ :: _ => true
                                 end) records')
  end.

(** How [open] and [os.listdir] fail: with [FileNotFoundError], or with
    another [OSError]. *)
Inductive OpenError : Type :=
| NotFound
| OtherOSError.

(** How reading fails once the file is open: bytes that are not UTF-8, a
    line the [csv] module rejects, an error of the operating system. *)
Inductive ReadError : Type :=
| NotUtf8
| NotCsv
| ReadFails.

Definition open_error (e : OpenError) : exn :=
  match e with
  | NotFound => FileNotFoundError
  | OtherOSError => OSError
  end.

Definition read_error (e : ReadError) : exn :=
  match e with
  | NotUtf8 => UnicodeDecodeError
  | NotCsv => csv_Error
  | ReadFails => OSError
  end.

(** What the command finds under a path: [open] fails; or the file is read,
    [records] being the records [csv.reader] yields, in order, and [stop]
    how the iteration ends: at the end of the file ([None]) or with an
    error. *)
Inductive Opened : Type :=
| OpenFails (e : OpenError)
| Reads (records : list (list string)) (stop : option ReadError).

(** A path given to the command and what is found there. *)
Record File : Type := {
  path : string;
  opened : Opened
}.

(** The [--folder] argument: not given (or empty); not a directory; a
    directory [os.listdir] fails on; a directory and its [.csv] entries. *)
Inductive Folder : Type :=
| NoFolder
| NotADirectory (folder_path : string)
| Unlistable (folder_path : string) (e : OpenError)
| Directory (folder_path : string) (folder_csvs : list File).

(** The five counters of the loops: [added, updated, skipped],
    [updated_books] and [skipped_rows] (and the [total_] ones). *)
Record Counts : Type := {
  added : nat;
  updated : nat;
  skipped : nat;
  updated_books : list string;
  skipped_rows : list (string * string)
}.

Definition no_counts : Counts :=
  {| added := 0; updated := 0; skipped := 0;
     updated_books := []; skipped_rows := [] |}.

(** The differences listed by a dry run: old and new value. *)
Inductive Change : Type :=
| TitleChange (old new : string)
| AuthorsChange (old new : option string)
| CategoryChange (old new : string)
| CopiesChange (old new : Z).

(** What the command writes to [stdout], one constructor per message. *)
Inductive Event : Type :=
| FolderNotFound (folder_path : string)
| NoCsvFiles
| ProcessingFile (csv_file : string)
| SkippingRow (row : Row)
| WouldUpdate (code : string) (changes : list Change)
| WouldSkip (code : string)
| WouldAdd (code ttl : string) (auth : option string) (copies : Z) (cat : string)
| AddedNewBook (obj : string)
| UpdatedExistingBook (obj : string)
| FileNotFound (csv_file : string)
| MissingColumn (key csv_file : string)
| FileSummary (csv_file : string) (c : Counts)
| FinalSummary (total : Counts).

(** A computation of the command: it reads and writes the catalog, writes
    to [stdout], and returns or raises.  The catalog and the output are kept
    when it raises: nothing is rolled back. *)
Definition M (A : Type) : Type := Catalog -> outcome A * Catalog * list Event.

Definition ret {A : Type} (a : A) : M A := fun db => (Returned a, db, []).

Definition raise {A : Type} (e : exn) : M A := fun db => (Raised e, db, []).

Definition bind {A B : Type} (m : M A) (k : A -> M B) : M B :=
  fun db =>
    match m db with
    | (Returned a, db1, o1) =>
        let '(r, db2, o2) := k a db1 in (r, db2, o1 ++ o2)
    | (Raised e, db1, o1) => (Raised e, db1, o1)
    end.

(** [try: m], handing the outcome to the [except] clauses. *)
Definition try {A : Type} (m : M A) : M (outcome A) :=
  fun db => let '(r, db1, o1) := m db in (Returned r, db1, o1).

Definition lift {A : Type} (r : outcome A) : M A :=
  fun db => (r, db, []).

(** [self.stdout.write(...)] *)
Definition write (ev : Event) : M unit := fun db => (Returned tt, db, [ev]).

Declare Scope cmd_scope.
Delimit Scope cmd_scope with cmd.
Notation "x <- m ;; k" := (bind m (fun x => k))
  (at level 61, m at next level, right associativity) : cmd_scope.
Notation "m ;;; k" := (bind m (fun _ => k))
  (at level 61, right associativity) : cmd_scope.
Local Open Scope cmd_scope.

(* ===================================================================== *)
(** ** The ORM calls *)
(* ===================================================================== *)

(** [Category.objects.get_or_create(name=nm)] *)
Definition get_or_create (nm : string) : M (Category * bool) :=
  fun db =>
    match find_category nm db with
    | Some c => (Returned (c, false), db, [])
    | None =>
        let c := {| category_id := next_id (map category_id (categories db));
                    name := nm |} in
        if Category_fits c
        then (Returned (c, true),
              {| categories := categories db ++ [c]; books := books db |}, [])
        else (Raised DatabaseError, db, [])
    end.

(** [Book.objects.get(book_code=code)], [None] for [Book.DoesNotExist]. *)
Definition get (code : string) : M (option Book) :=
  fun db => (Returned (find_book code db), db, []).

(** [existing.category]: the related row. *)
Definition related_category (b : Book) : M Category :=
  fun db =>
    match find_category_by_id (category b) db with
    | Some c => (Returned c, db, [])
    | None => (Raised DoesNotExist, db, [])
    end.

(** [Book.objects.update_or_create(book_code=code, defaults={...})] *)
Definition update_or_create (code : string) (cat : Category) (ttl : string)
    (auth : option string) (copies : Z) : M (Book * bool) :=
  fun db =>
    match find_book code db with
    | Some b =>
        let obj := {| book_id := book_id b; category := category_id cat;
                      book_code := book_code b; title := ttl;
                      authors := auth; number_of_copies := copies |} in
        if Book_fits obj
        then (Returned (obj, false),
              {| categories := categories db;
                 books := replace_book obj (books db) |}, [])
        else (Raised DatabaseError, db, [])
    | None =>
        let obj := {| book_id := next_id (map book_id (books db));
                      category := category_id cat;
                      book_code := code; title := ttl;
                      authors := auth; number_of_copies := copies |} in
        if Book_fits obj
        then (Returned (obj, true),
              {| categories := categories db; books := books db ++ [obj] |}, [])
        else (Raised DatabaseError, db, [])
    end.

(* ===================================================================== *)
(** ** Command.handle *)
(* ===================================================================== *)

(** [row[key]] *)
Fixpoint getitem (row : Row) (key : string) : outcome (option string) :=
  match row with
  | [] => Raised (KeyError key)
  | (k, v) :: row' => if String.eqb k key then Returned v else getitem row' key
  end.

(** [cell.strip()]; the cell of a short line is [None], which has no
    [strip]. *)
Definition strip (cell : option string) : outcome string :=
  match cell with
  | Some s => Returned (Py.strip s)
  | None => Raised AttributeError
  end.

(** The local variables set at the head of the loop body. *)
Record Locals : Type := {
  row_category_name : string;
  row_book_code : string;
  row_title : string;
  row_authors : option string;
  row_number_of_copies : string
}.

(** Lines 73-77, in the order Python evaluates them. *)
Definition read_row (row : Row) : outcome Locals :=
  obind (obind (getitem row "CATEGORY") strip) (fun category_name =>
  obind (obind (getitem row "BOOK CODE") strip) (fun code =>
  obind (obind (getitem row "BOOK TITLE") strip) (fun ttl =>
  obind (getitem row "BOOK AUTHOR") (fun a =>
  let auth := match a with
              | Some (String c s) => Some (Py.strip (String c s))
              | _ => None
              end in
  obind (obind (getitem row "NO. OF COPIES") strip) (fun n =>
  Returned {| row_category_name := category_name;
              row_book_code := code;
              row_title := ttl;
              row_authors := auth;
              row_number_of_copies := n |}))))).

(** Lines 90-93: [int(number_of_copies)], 1 on [ValueError]. *)
Definition parse_copies (number_of_copies : string) : Z :=
  match Py.int number_of_copies with
  | Some n => n
  | None => 1%Z
  end.

Definition option_string_eqb (a b : option string) : bool :=
  match a, b with
  | None, None => true
  | Some x, Some y => String.eqb x y
  | _, _ => false
  end.

(** Lines 98-106: the list [changes] of a dry run. *)
Definition changes_of (existing : Book) (existing_category : Category)
    (ttl : string) (auth : option string) (cat : Category) (copies : Z)
    : list Change :=
  (if String.eqb (title existing) ttl then []
   else [TitleChange (title existing) ttl])
  ++ (if option_string_eqb (authors existing) auth then []
      else [AuthorsChange (authors existing) auth])
  ++ (if String.eqb (name existing_category) (name cat) then []
      else [CategoryChange (name existing_category) (name cat)])
  ++ (if Z.eqb (number_of_copies existing) copies then []
      else [CopiesChange (number_of_copies existing) copies]).

Definition count_added (c : Counts) : Counts :=
  {| added := S (added c); updated := updated c; skipped := skipped c;
     updated_books := updated_books c; skipped_rows := skipped_rows c |}.

Definition count_updated (label : string) (c : Counts) : Counts :=
  {| added := added c; updated := S (updated c); skipped := skipped c;
     updated_books := updated_books c ++ [label];
     skipped_rows := skipped_rows c |}.

Definition count_skipped (c : Counts) : Counts :=
  {| added := added c; updated := updated c; skipped := S (skipped c);
     updated_books := updated_books c; skipped_rows := skipped_rows c |}.

Definition count_skipped_row (cat code : string) (c : Counts) : Counts :=
  {| added := added c; updated := updated c; skipped := S (skipped c);
     updated_books := updated_books c;
     skipped_rows := skipped_rows c ++ [(cat, code)] |}.

(** Lines 95-127: the body of [if dry_run:]. *)
Definition dry_run_row (l : Locals) (cat : Category) (copies : Z) (c : Counts)
    : M Counts :=
  found <- get (row_book_code l) ;;
  match found with
  | Some existing =>
      existing_category <- related_category existing ;;
      let changes :=
        changes_of existing existing_category (row_title l) (row_authors l)
                   cat copies in
      match changes with
      | _ :: _ =>
          write (WouldUpdate (row_book_code l) changes) ;;;
          ret (count_updated (row_book_code l) c)
      | [] =>
          write (WouldSkip (row_book_code l)) ;;;
          ret (count_skipped c)
      end
  | None =>
      write (WouldAdd (row_book_code l) (row_title l) (row_authors l) copies
                      (name cat)) ;;;
      ret (count_added c)
  end.

(** Lines 129-146: insert or update. *)
Definition apply_row (l : Locals) (cat : Category) (copies : Z) (c : Counts)
    : M Counts :=
  r <- update_or_create (row_book_code l) cat (row_title l) (row_authors l)
                        copies ;;
  let '(obj, created) := r in
  if created : bool
  then write (AddedNewBook (Book_str obj)) ;;; ret (count_added c)
  else write (UpdatedExistingBook (Book_str obj)) ;;;
       ret (count_updated (Book_str obj) c).

(** Lines 73-146: the body of [for row in reader:]. *)
Definition process_row (dry_run : bool) (row : Row) (c : Counts) : M Counts :=
  l <- lift (read_row row) ;;
  if String.eqb (row_title l) ""
  then
    write (SkippingRow row) ;;;
    ret (count_skipped_row (row_category_name l) (row_book_code l) c)
  else
    r <- get_or_create (row_category_name l) ;;
    let cat := fst r in
    let copies := parse_copies (row_number_of_copies l) in
    if dry_run then dry_run_row l cat copies c else apply_row l cat copies c.

(** [for row in reader:] *)
Fixpoint process_rows (dry_run : bool) (rows : list Row) (c : Counts)
    : M Counts :=
  match rows with
  | [] => ret c
  | row :: rows' =>
      c' <- process_row dry_run row c ;;
      process_rows dry_run rows' c'
  end.

(** Lines 69-146: [with open(csv_file, ...) as f:] and the loop over the
    rows of its reader, starting from the counters of lines 64-66.  The
    reader is lazy: an error of the reader is raised after the rows before
    it have been processed. *)
Definition read_file (dry_run : bool) (f : File) : M Counts :=
  match opened f with
  | OpenFails e => raise (open_error e)
  | Reads records stop =>
      c <- process_rows dry_run (DictReader records) no_counts ;;
      match stop with
      | None => ret c
      | Some e => raise (read_error e)
      end
  end.

(** Lines 170-174. *)
Definition accumulate (total c : Counts) : Counts :=
  {| added := added total + added c;
     updated := updated total + updated c;
     skipped := skipped total + skipped c;
     updated_books := updated_books total ++ updated_books c;
     skipped_rows := skipped_rows total ++ skipped_rows c |}.

(** Lines 61-174: [for csv_file in csv_files:]. *)
Fixpoint process_files (dry_run : bool) (csv_files : list File)
    (total : Counts) : M Counts :=
  match csv_files with
  | [] => ret total
  | f :: rest =>
      write (ProcessingFile (path f)) ;;;
      r <- try (read_file dry_run f) ;;
      match r with
      | Returned c =>
          write (FileSummary (path f) c) ;;;
          process_files dry_run rest (accumulate total c)
      | Raised FileNotFoundError =>
          write (FileNotFound (path f)) ;;;
          process_files dry_run rest total
      | Raised (KeyError key) =>
          write (MissingColumn key (path f)) ;;;
          process_files dry_run rest total
      | Raised e => raise e
      end
  end.

(** [Command.handle] *)
Definition handle (dry_run : bool) (folder : Folder) (csv_files : list File)
    : M unit :=
  match folder with
  | NotADirectory p => write (FolderNotFound p)
  | Unlistable _ e => raise (open_error e)
  | _ =>
      let csv_files :=
        match folder with
        | Directory _ folder_csvs => csv_files ++ folder_csvs
        | _ => csv_files
        end in
      match csv_files with
      | [] => write NoCsvFiles
      | _ :: _ =>
          total <- process_files dry_run csv_files no_counts ;;
          write (FinalSummary total)
      end
  end.

(* ===================================================================== *)
(** ** Reading the result of a computation *)
(* ===================================================================== *)

Definition result_of {A : Type} (r : outcome A * Catalog * list Event)
    : outcome A := fst (fst r).

Definition catalog_of {A : Type} (r : outcome A * Catalog * list Event)
    : Catalog := snd (fst r).

Definition output_of {A : Type} (r : outcome A * Catalog * list Event)
    : list Event := snd r.

(** The same result, after [o] has been written. *)
Definition after_output {A : Type} (o : list Event)
    (r : outcome A * Catalog * list Event) : outcome A * Catalog * list Event :=
  (result_of r, catalog_of r, o ++ output_of r).

(** A string of white space only (possibly empty). *)
Fixpoint blank (s : string) : bool :=
  match s with
  | EmptyString => true
  | String c s' => Py.isspace c && blank s'
  end.

(** The [FileSummary] messages of an output, in order. *)
Fixpoint file_summaries (o : list Event) : list Counts :=
  match o with
  | [] => []
  | FileSummary _ c :: o' => c :: file_summaries o'
  | _ :: o' => file_summaries o'
  end.

(** The [FinalSummary] messages of an output. *)
Fixpoint final_summaries (o : list Event) : list Counts :=
  match o with
  | [] => []
  | FinalSummary t :: o' => t :: final_summaries o'
  | _ :: o' => final_summaries o'
  end.

(** The files announced by [Processing file], in order. *)
Fixpoint files_started (o : list Event) : list string :=
  match o with
  | [] => []
  | ProcessingFile p :: o' => p :: files_started o'
  | _ :: o' => files_started o'
  end.

(** Every stored number of copies is non-negative. *)
Definition copies_nonnegative (db : Catalog) : bool :=
  forallb (fun b => (0 <=? number_of_copies b)%Z) (books db).

(** The values of a row fit the columns they are written to. *)
Definition row_fits (l : Locals) : bool :=
  CharField 100 (row_category_name l)
  && CharField 50 (row_book_code l)
  && CharField 255 (row_title l)
  && match row_authors l with
     | None => true
     | Some a => CharField 255 a
     end
  && PositiveIntegerField (parse_copies (row_number_of_copies l)).

(** The [Book] row written for the local variables [l]. *)
Definition book_of_row (i : nat) (cat : Category) (l : Locals) : Book :=
  {| book_id := i;
     category := category_id cat;
     book_code := row_book_code l;
     title := row_title l;
     authors := row_authors l;
     number_of_copies := parse_copies (row_number_of_copies l) |}.

(** [P] holds of the catalog [m] leaves whenever it held before, whether
    [m] returns or raises. *)
Definition preserves {A : Type} (P : Catalog -> Prop) (m : M A) : Prop :=
  forall db, P db -> P (catalog_of (m db)).

(** Everything [m] writes satisfies [Q]. *)
Definition writes {A : Type} (Q : Event -> bool) (m : M A) : Prop :=
  forall db, forallb Q (output_of (m db)) = true.

(** The messages written while the rows of a file are processed. *)
Definition is_row_event (ev : Event) : bool :=
  match ev with
  | SkippingRow _ | WouldUpdate _ _ | WouldSkip _ | WouldAdd _ _ _ _ _
  | AddedNewBook _ | UpdatedExistingBook _ => true
  | _ => false
  end.

(** Neither of the two exceptions [handle] catches for a file. *)
Definition uncaught (e : exn) : bool :=
  match e with
  | KeyError _ | FileNotFoundError => false
  | _ => true
  end.

(* ===================================================================== *)
(** ** Sample data *)
(* ===================================================================== *)

(** A row of a file with the five expected columns. *)
Definition csv_row (cat code ttl : option string) (auth copies : option string)
    : Row :=
  [("CATEGORY", cat); ("BOOK CODE", code); ("BOOK TITLE", ttl);
   ("BOOK AUTHOR", auth); ("NO. OF COPIES", copies)].

Definition dune (copies : option string) : Row :=
  csv_row (Some "Fiction") (Some "F001") (Some "Dune") (Some "Herbert") copies.

Definition fiction : Category := {| category_id := 1; name := "Fiction" |}.

Definition dune_book (copies : Z) : Book :=
  {| book_id := 1; category := 1; book_code := "F001"; title := "Dune";
     authors := Some "Herbert"; number_of_copies := copies |}.

(** The catalog after [dune (Some "3")] has been imported into an empty one. *)
Definition dune_catalog : Catalog :=
  {| categories := [fiction]; books := [dune_book 3] |}.

(** A row whose title is white space only. *)
Definition untitled : Row :=
  csv_row (Some "Poetry") (Some "P001") (Some "   ") (Some "") (Some "2").

(** A row of a file whose header lacks [NO. OF COPIES]. *)
Definition no_copies_column : Row :=
  [("CATEGORY", Some "Fiction"); ("BOOK CODE", Some "F002");
   ("BOOK TITLE", Some "Emma"); ("BOOK AUTHOR", Some "Austen")].

(** The header with the five expected columns. *)
Definition header : list string :=
  ["CATEGORY"; "BOOK CODE"; "BOOK TITLE"; "BOOK AUTHOR"; "NO. OF COPIES"].

(** The line of a row: its cells, up to the first one the line is too short
    for. *)
Fixpoint cells (values : list (option string)) : list string :=
  match values with
  | Some v :: values' => v :: cells values'
  | _ => []
  end.

Definition record (row : Row) : list string := cells (map snd row).

Definition emma : Row :=
  csv_row (Some "Fiction") (Some "F002") (Some "Emma") (Some "Austen")
          (Some "abc").

(** A file that is read to its end: the header with the five expected
    columns, then the lines of [rows]. *)
Definition file (p : string) (rows : list Row) : File :=
  {| path := p; opened := Reads (header :: map record rows) None |}.

Definition missing_file (p : string) : File :=
  {| path := p; opened := OpenFails NotFound |}.

(** A directory among the paths: [open] raises [IsADirectoryError]. *)
Definition directory_file (p : string) : File :=
  {| path := p; opened := OpenFails OtherOSError |}.

(** A file with the lines of [rows] whose bytes after them are not UTF-8. *)
Definition undecodable_file (p : string) (rows : list Row) : File :=
  {| path := p; opened := Reads (header :: map record rows) (Some NotUtf8) |}.

(** Four paths given in one run; the third one does not exist. *)
Definition four_files : list File :=
  [file "a.csv" [dune (Some "3"); untitled];
   file "b.csv" [dune (Some "4")];
   missing_file "c.csv";
   file "d.csv" [untitled; emma]].

(** The totals of the run over [four_files], started on an empty catalog. *)
Definition four_files_total : Counts :=
  {| added := 2; updated := 1; skipped := 2;
     updated_books := ["F001 (Dune)"];
     skipped_rows := [("Poetry", "P001"); ("Poetry", "P001")] |}.

(** A file whose header lacks [NO. OF COPIES]. *)
Definition broken_file : File :=
  {| path := "broken.csv";
     opened := Reads [["CATEGORY"; "BOOK CODE"; "BOOK TITLE"; "BOOK AUTHOR"];
                      ["Fiction"; "F001"; "Dune"; "Herbert"];
                      ["Fiction"; "F002"; "Emma"; "Austen"]] None |}.

(* ===================================================================== *)
(** ** The Category table as a function of the rows *)
(* ===================================================================== *)

(** What a successful [get_or_create] does to the Category table. *)
Definition ensure (nm : string) (cs : list Category) : list Category :=
  match find (fun c => String.eqb (name c) nm) cs with
  | Some _ => cs
  | None =>
      cs ++ [{| category_id := next_id (map category_id cs); name := nm |}]
  end.

Definition ensure_all (names : list string) (cs : list Category)
    : list Category :=
  fold_left (fun cs nm => ensure nm cs) names cs.

(** The category names of the rows that have a title, up to the first row
    that cannot be read. *)
Fixpoint category_names (rows : list Row) : list string :=
  match rows with
  | [] => []
  | row :: rows' =>
      match read_row row with
      | Returned l =>
          if String.eqb (row_title l) "" then category_names rows'
          else row_category_name l :: category_names rows'
      | Raised _ => []
      end
  end.

(** The rows the reader of a file yields; none when [open] fails. *)
Definition rows_of (f : File) : list Row :=
  match opened f with
  | OpenFails _ => []
  | Reads records _ => DictReader records
  end.

Definition file_category_names (f : File) : list string :=
  category_names (rows_of f).

(** The catalog [db] with the Category table [cs]. *)
Definition with_categories (cs : list Category) (db : Catalog) : Catalog :=
  {| categories := cs; books := books db |}.

(** The loop over the rows, or over the files, goes on after this outcome:
    a value, or an exception [handle] catches. *)
Definition goes_on {A : Type} (r : outcome A) : bool :=
  match r with
  | Returned _ => true
  | Raised e => negb (uncaught e)
  end.

(* ===================================================================== *)
(** ** pluralize *)
(* ===================================================================== *)

(** [s.endswith(suffix)] *)
Fixpoint endswith (s suffix : string) : bool :=
  String.eqb s suffix
  || match s with
     | EmptyString => false
     | String _ s' => endswith s' suffix
     end.

(** [s[:-1]] *)
Fixpoint but_last (s : string) : string :=
  match s with
  | EmptyString => EmptyString
  | String c s' =>
      match s' with
      | EmptyString => EmptyString
      | String _ _ => String c (but_last s')
      end
  end.

(** [pluralize(word, count)], lines 7-12. *)
Definition pluralize (word : string) (count : Z) : string :=
  if Z.eqb count 1 then word
  else if endswith word "y" then (but_last word ++ "ies")%string
  else (word ++ "s")%string.

(* ===================================================================== *)
(** ** The files of [--folder] *)
(* ===================================================================== *)

(** [s.lower()] on ASCII letters. *)
Definition lower_char (c : ascii) : ascii :=
  let n := nat_of_ascii c in
  if ((65 <=? n) && (n <=? 90))%nat then ascii_of_nat (n + 32) else c.

Fixpoint lower (s : string) : string :=
  match s with
  | EmptyString => EmptyString
  | String c s' => String (lower_char c) (lower s')
  end.

(** [os.path.join(a, b)] of [posixpath]. *)
Definition path_join (a b : string) : string :=
  match b with
  | String "/" _ => b
  | _ =>
      if String.eqb a "" || endswith a "/" then (a ++ b)%string
      else (a ++ "/" ++ b)%string
  end.

(** The test of line 48: [f.lower().endswith(".csv")]. *)
Definition is_csv (f : string) : bool := endswith (lower f) ".csv".

(** What is found under the path of the folder: [os.path.isdir] is false;
    [os.listdir] fails; or the names [os.listdir] returns, each with what
    the command finds under it. *)
Inductive Listing : Type :=
| NotDir
| ListFails (e : OpenError)
| Lists (entries : list (string * Opened)).

(** Lines 41-50.  [folder_path] is empty when the option is not given. *)
Definition collect_folder (folder_path : string) (listdir : Listing)
    : Folder :=
  if String.eqb folder_path "" then NoFolder
  else
    match listdir with
    | NotDir => NotADirectory folder_path
    | ListFails e => Unlistable folder_path e
    | Lists entries =>
        Directory folder_path
          (map (fun e => {| path := path_join folder_path (fst e);
                            opened := snd e |})
               (filter (fun e => is_csv (fst e)) entries))
    end.

(** The files [handle] loops over: those given, then those of the folder. *)
Definition files_of (folder : Folder) (csv_files : list File) : list File :=
  match folder with
  | Directory _ folder_csvs => csv_files ++ folder_csvs
  | _ => csv_files
  end.

(* ===================================================================== *)
(** ** Well-formed catalogs and rows that can be processed *)
(* ===================================================================== *)

Fixpoint distinct {A : Type} (eqb : A -> A -> bool) (l : list A) : bool :=
  match l with
  | [] => true
  | x :: l' => negb (existsb (eqb x) l') && distinct eqb l'
  end.

(** Every Book refers to a Category of the catalog. *)
Definition references_ok (db : Catalog) : bool :=
  forallb (fun b => match find_category_by_id (category b) db with
                    | Some _ => true
                    | None => false
                    end) (books db).

(** What the database guarantees of the two tables: primary keys and the
    [unique=True] columns are unique, the foreign key of a Book refers to a
    Category, the values are within the limits of the columns. *)
Definition well_formed (db : Catalog) : bool :=
  distinct Nat.eqb (map category_id (categories db))
  && distinct String.eqb (map name (categories db))
  && distinct Nat.eqb (map book_id (books db))
  && distinct String.eqb (map book_code (books db))
  && references_ok db
  && forallb Category_fits (categories db)
  && forallb Book_fits (books db).

(** The same without the limits of the columns: keys and unique columns
    are unique, every Book refers to a Category. *)
Definition consistent (db : Catalog) : bool :=
  distinct Nat.eqb (map category_id (categories db))
  && distinct String.eqb (map name (categories db))
  && distinct Nat.eqb (map book_id (books db))
  && distinct String.eqb (map book_code (books db))
  && references_ok db.




(** A file whose reading ends without an error [handle] does not catch,
    once its rows have been processed: there is no such file, or the reader
    gets to the end of the file. *)
Definition ends_quietly (f : File) : bool :=
  match opened f with
  | OpenFails NotFound => true
  | OpenFails OtherOSError => false
  | Reads _ None => true
  | Reads _ (Some _) => false
  end.

(** The first of the five expected columns, in the order the command looks
    them up, that a header lacks. *)
Definition missing_column (fieldnames : list string) : option string :=
  find (fun key => negb (existsb (String.eqb key) fieldnames)) header.


(** The sum of the three counters. *)
Definition rows_counted (c : Counts) : nat := added c + updated c + skipped c.

(** The lists of a [Counts] agree with its counters: one entry per update;
    at most one skipped row per skip. *)
Definition lists_agree (c : Counts) : Prop :=
  List.length (updated_books c) = updated c
  /\ List.length (skipped_rows c) <= skipped c.

(** The last row of [rows] that has a title and the code [code], when every
    row of [rows] can be read. *)
Fixpoint last_with_code (code : string) (rows : list Row) : option Locals :=
  match rows with
  | [] => None
  | row :: rows' =>
      match last_with_code code rows' with
      | Some l => Some l
      | None =>
          match read_row row with
          | Returned l =>
              if negb (String.eqb (row_title l) "")
                 && String.eqb (row_book_code l) code
              then Some l else None
          | Raised _ => None
          end
      end
  end.

(** The Book [b] of the catalog [db] after the rows [rows] have been
    imported into it once more: its fields are those of the last row that
    has its code, if there is one. *)
Definition rewritten (db : Catalog) (rows : list Row) (b : Book) : Book :=
  match last_with_code (book_code b) rows with
  | Some l =>
      match find_category (row_category_name l) db with
      | Some cat => book_of_row (book_id b) cat l
      | None => b
      end
  | None => b
  end.

(** The rows of a file up to the first one that cannot be read. *)
Fixpoint readable_rows (rows : list Row) : list Row :=
  match rows with
  | [] => []
  | row :: rows' =>
      match read_row row with
      | Returned _ => row :: readable_rows rows'
      | Raised _ => []
      end
  end.

(** The rows a run gets to, over all its files. *)
Definition rows_of_files (csv_files : list File) : list Row :=
  flat_map (fun f => readable_rows (rows_of f)) csv_files.

(** The catalog [db] after the rows [rows] have been imported into it once
    more. *)
Definition reimported (db : Catalog) (rows : list Row) : Catalog :=
  {| categories := categories db;
     books := map (rewritten db rows) (books db) |}.

(** The rows can all be read, or the first that cannot raises an exception
    [handle] catches. *)
Fixpoint stops_quietly (rows : list Row) : bool :=
  match rows with
  | [] => true
  | row :: rows' =>
      match read_row row with
      | Returned _ => stops_quietly rows'
      | Raised e => negb (uncaught e)
      end
  end.
(* ===================================================================== *)
(** ** Strings *)
(* ===================================================================== *)

Lemma lstrip_blank (s : string) : blank s = true -> Py.lstrip s = "".
Proof.
  induction s as [|c s IH]; simpl; [reflexivity|].
  intros H. apply andb_prop in H as [Hc Hs].
  rewrite Hc. now apply IH.
Qed.

Lemma rstrip_lstrip_empty (s : string) :
  Py.rstrip (Py.lstrip s) = "" -> blank s = true.
Proof.
  induction s as [|c s IH]; simpl; [reflexivity|].
  destruct (Py.isspace c) eqn:Hc.
  - intros H. now rewrite IH.
  - simpl. rewrite Hc. destruct (Py.rstrip s); discriminate.
Qed.

(** [s.strip()] is empty exactly when [s] is empty or white space only. *)
Lemma strip_empty_iff (s : string) : Py.strip s = "" <-> blank s = true.
Proof.
  unfold Py.strip. split.
  - apply rstrip_lstrip_empty.
  - intros H. now rewrite (lstrip_blank s H).
Qed.

(** A string that [int] rejects is replaced by 1. *)
Lemma parse_copies_default (s : string) :
  Py.int s = None -> parse_copies s = 1%Z.
Proof. unfold parse_copies. now intros ->. Qed.

Example parse_copies_examples :
  map parse_copies [""; "abc"; "3"; " 12"; "-5"; "1_000"; "3.0"; "1__0"]
  = [1; 1; 3; 12; -5; 1000; 1; 1]%Z.
Proof. reflexivity. Qed.

(* ===================================================================== *)
(** ** Rows *)
(* ===================================================================== *)

(** [read_row] returns the stripped title cell. *)
Lemma read_row_title (row : Row) (l : Locals) :
  read_row row = Returned l ->
  exists t, getitem row "BOOK TITLE" = Returned (Some t)
            /\ row_title l = Py.strip t.
Proof.
  unfold read_row. intros H.
  destruct (obind (getitem row "CATEGORY") strip); simpl in H; [|discriminate].
  destruct (obind (getitem row "BOOK CODE") strip); simpl in H; [|discriminate].
  destruct (getitem row "BOOK TITLE") as [[t|]|] eqn:Ht; simpl in H;
    try discriminate.
  destruct (getitem row "BOOK AUTHOR"); simpl in H; [|discriminate].
  destruct (obind (getitem row "NO. OF COPIES") strip); simpl in H;
    [|discriminate].
  exists t. split; [reflexivity|]. now inversion H.
Qed.

(** A row without a title is skipped before anything else is done. *)
Lemma process_row_no_title (dry_run : bool) (row : Row) (l : Locals)
    (c : Counts) (db : Catalog) :
  read_row row = Returned l ->
  row_title l = "" ->
  process_row dry_run row c db
  = (Returned (count_skipped_row (row_category_name l) (row_book_code l) c),
     db, [SkippingRow row]).
Proof.
  intros Hl Ht. unfold process_row, bind, lift. rewrite Hl, Ht. reflexivity.
Qed.

(* ===================================================================== *)
(** ** The monad *)
(* ===================================================================== *)

Lemma after_output_nil {A : Type} (r : outcome A * Catalog * list Event) :
  after_output [] r = r.
Proof. now destruct r as [[x db] o]. Qed.

Lemma after_output_app {A : Type} (o1 o2 : list Event)
    (r : outcome A * Catalog * list Event) :
  after_output o1 (after_output o2 r) = after_output (o1 ++ o2) r.
Proof.
  destruct r as [[x db] o]. unfold after_output. simpl.
  now rewrite app_assoc.
Qed.

Lemma bind_returned {A B : Type} (m : M A) (k : A -> M B) (db db1 : Catalog)
    (a : A) (o1 : list Event) :
  m db = (Returned a, db1, o1) ->
  bind m k db = after_output o1 (k a db1).
Proof.
  intros H. unfold bind. rewrite H.
  now destruct (k a db1) as [[x db2] o2].
Qed.

Lemma bind_raised {A B : Type} (m : M A) (k : A -> M B) (db db1 : Catalog)
    (e : exn) (o1 : list Event) :
  m db = (Raised e, db1, o1) ->
  bind m k db = (Raised e, db1, o1).
Proof. intros H. unfold bind. now rewrite H. Qed.

Section Rules.
Context {A B : Type} (P : Catalog -> Prop) (Q : Event -> bool).

Lemma preserves_ret (a : A) : preserves P (ret a).
Proof. now intros db H. Qed.

Lemma preserves_raise (e : exn) : preserves P (@raise A e).
Proof. now intros db H. Qed.

Lemma preserves_lift (r : outcome A) : preserves P (lift r).
Proof. now intros db H. Qed.

Lemma preserves_write (ev : Event) : preserves P (write ev).
Proof. now intros db H. Qed.

Lemma preserves_try (m : M A) : preserves P m -> preserves P (try m).
Proof.
  intros Hm db H. specialize (Hm db H). unfold try.
  now destruct (m db) as [[x db1] o1].
Qed.

Lemma preserves_bind (m : M A) (k : A -> M B) :
  preserves P m -> (forall a, preserves P (k a)) -> preserves P (bind m k).
Proof.
  intros Hm Hk db H. specialize (Hm db H). unfold bind.
  destruct (m db) as [[[a|e] db1] o1]; simpl in *; [|assumption].
  specialize (Hk a db1 Hm).
  now destruct (k a db1) as [[x db2] o2].
Qed.

Lemma writes_ret (a : A) : writes Q (ret a).
Proof. now intros db. Qed.

Lemma writes_lift (r : outcome A) : writes Q (lift r).
Proof. now intros db. Qed.

Lemma writes_write (ev : Event) : Q ev = true -> writes Q (write ev).
Proof. intros H db. simpl. now rewrite H. Qed.

Lemma writes_bind (m : M A) (k : A -> M B) :
  writes Q m -> (forall a, writes Q (k a)) -> writes Q (bind m k).
Proof.
  intros Hm Hk db. specialize (Hm db). unfold bind.
  destruct (m db) as [[[a|e] db1] o1]; simpl in *; [|assumption].
  specialize (Hk a db1).
  destruct (k a db1) as [[x db2] o2]. simpl in *.
  rewrite forallb_app. now rewrite Hm, Hk.
Qed.
End Rules.

(* ===================================================================== *)
(** ** The ORM calls *)
(* ===================================================================== *)

Lemma find_app_new {A : Type} (f : A -> bool) (l : list A) (x : A) :
  find f l = None -> f x = true -> find f (l ++ [x]) = Some x.
Proof.
  intros Hl Hx. induction l as [|a l IH]; simpl in *.
  - now rewrite Hx.
  - destruct (f a); [discriminate|]. now apply IH.
Qed.

Lemma find_app_old {A : Type} (f : A -> bool) (l l' : list A) (x : A) :
  find f l = Some x -> find f (l ++ l') = Some x.
Proof.
  intros Hl. induction l as [|a l IH]; simpl in *; [discriminate|].
  destruct (f a); [assumption|]. now apply IH.
Qed.

Lemma Book_fits_nonnegative (b : Book) :
  Book_fits b = true -> (0 <=? number_of_copies b)%Z = true.
Proof.
  unfold Book_fits, PositiveIntegerField. intros H.
  apply andb_prop in H as [_ H]. now apply andb_prop in H as [H _].
Qed.

Lemma get_or_create_books (nm : string) (db : Catalog) :
  books (catalog_of (get_or_create nm db)) = books db.
Proof.
  unfold get_or_create.
  destruct (find_category nm db); [reflexivity|].
  now destruct (Category_fits _).
Qed.

(** What [get_or_create] returns is the row the catalog then holds under
    that name. *)
Lemma get_or_create_returned (nm : string) (db db1 : Catalog) (cat : Category)
    (created : bool) (o : list Event) :
  get_or_create nm db = (Returned (cat, created), db1, o) ->
  find_category nm db1 = Some cat /\ name cat = nm /\ o = []
  /\ books db1 = books db.
Proof.
  unfold get_or_create.
  destruct (find_category nm db) as [c|] eqn:Hf.
  - intros H. inversion H; subst. repeat split; try assumption.
    unfold find_category in Hf. apply find_some in Hf as [_ Hf].
    now apply String.eqb_eq in Hf.
  - destruct (Category_fits _); [|discriminate].
    intros H. inversion H; subst. repeat split.
    unfold find_category in *. simpl.
    apply find_app_new; [assumption|]. simpl. apply String.eqb_refl.
Qed.

(** A name within the column's limit is always looked up or created. *)
Lemma get_or_create_fits (nm : string) (db : Catalog) :
  CharField 100 nm = true ->
  exists cat created db1,
    get_or_create nm db = (Returned (cat, created), db1, []).
Proof.
  intros H. unfold get_or_create.
  destruct (find_category nm db) as [c|]; [now eauto|].
  unfold Category_fits. simpl. rewrite H. now eauto.
Qed.

Lemma replace_book_nonnegative (obj : Book) (bs : list Book) :
  (0 <=? number_of_copies obj)%Z = true ->
  forallb (fun b => (0 <=? number_of_copies b)%Z) bs = true ->
  forallb (fun b => (0 <=? number_of_copies b)%Z) (replace_book obj bs) = true.
Proof.
  intros Hobj. induction bs as [|b bs IH]; simpl; [reflexivity|].
  intros H. apply andb_prop in H as [Hb Hbs].
  rewrite (IH Hbs), andb_true_r.
  now destruct (String.eqb (book_code b) (book_code obj)).
Qed.

Lemma update_or_create_nonnegative (code : string) (cat : Category)
    (ttl : string) (auth : option string) (copies : Z) :
  preserves (fun db => copies_nonnegative db = true)
            (update_or_create code cat ttl auth copies).
Proof.
  intros db H. unfold update_or_create, copies_nonnegative in *.
  destruct (find_book code db) as [b|].
  - destruct (Book_fits _) eqn:Hfits; [|assumption]. simpl.
    apply replace_book_nonnegative; [|assumption].
    now apply Book_fits_nonnegative in Hfits.
  - destruct (Book_fits _) eqn:Hfits; [|assumption]. simpl.
    rewrite forallb_app, H. simpl.
    apply Book_fits_nonnegative in Hfits. simpl in Hfits. now rewrite Hfits.
Qed.

Lemma get_or_create_preserves_books (Pb : list Book -> Prop) (nm : string) :
  preserves (fun db => Pb (books db)) (get_or_create nm).
Proof. intros db H. now rewrite get_or_create_books. Qed.

Lemma get_preserves (P : Catalog -> Prop) (code : string) :
  preserves P (get code).
Proof. now intros db H. Qed.

Lemma related_category_preserves (P : Catalog -> Prop) (b : Book) :
  preserves P (related_category b).
Proof.
  intros db H. unfold related_category.
  now destruct (find_category_by_id (category b) db).
Qed.

(* ===================================================================== *)
(** ** Invariants of the loops *)
(* ===================================================================== *)

Ltac preserves_step :=
  first
    [ apply preserves_ret | apply preserves_raise | apply preserves_lift
    | apply preserves_write | apply get_preserves
    | apply related_category_preserves
    | apply preserves_try
    | apply preserves_bind; [|intros ?] ].

Ltac writes_step :=
  first
    [ apply writes_ret | apply writes_lift
    | apply writes_write; reflexivity
    | apply writes_bind; [|intros ?] ].

Section Invariant.
Variable P : Catalog -> Prop.
Variable dry_run : bool.
Hypothesis P_get_or_create : forall nm, preserves P (get_or_create nm).
Hypothesis P_update_or_create :
  dry_run = false ->
  forall code cat ttl auth copies,
    preserves P (update_or_create code cat ttl auth copies).

Lemma process_row_preserves (row : Row) (c : Counts) :
  preserves P (process_row dry_run row c).
Proof.
  unfold process_row. preserves_step; [preserves_step|].
  destruct (String.eqb (row_title a) ""); [repeat preserves_step|].
  preserves_step; [apply P_get_or_create|].
  destruct dry_run eqn:Hmode.
  - unfold dry_run_row. preserves_step; [preserves_step|].
    destruct a1 as [existing|]; [|repeat preserves_step].
    preserves_step; [preserves_step|].
    destruct (changes_of _ _ _ _ _ _); repeat preserves_step.
  - unfold apply_row. preserves_step; [now apply P_update_or_create|].
    destruct a1 as [obj [|]]; repeat preserves_step.
Qed.

Lemma process_rows_preserves (rows : list Row) (c : Counts) :
  preserves P (process_rows dry_run rows c).
Proof.
  revert c. induction rows as [|row rows IH]; intros c; simpl.
  - preserves_step.
  - preserves_step; [apply process_row_preserves|apply IH].
Qed.

Lemma read_file_preserves (f : File) : preserves P (read_file dry_run f).
Proof.
  unfold read_file. destruct (opened f) as [e|records stop].
  - preserves_step.
  - preserves_step; [apply process_rows_preserves|].
    destruct stop; preserves_step.
Qed.

Lemma process_files_preserves (csv_files : list File) (total : Counts) :
  preserves P (process_files dry_run csv_files total).
Proof.
  revert total. induction csv_files as [|f rest IH]; intros total; simpl.
  - preserves_step.
  - preserves_step; [preserves_step|].
    preserves_step; [preserves_step; apply read_file_preserves|].
    destruct a0 as [c|[]]; repeat preserves_step; apply IH.
Qed.

Lemma handle_preserves (folder : Folder) (csv_files : list File) :
  preserves P (handle dry_run folder csv_files).
Proof.
  unfold handle.
  destruct folder as [|p|p e|p folder_csvs];
    [|preserves_step|preserves_step|].
  - destruct csv_files; [preserves_step|].
    preserves_step; [apply process_files_preserves|preserves_step].
  - destruct (csv_files ++ folder_csvs); [preserves_step|].
    preserves_step; [apply process_files_preserves|preserves_step].
Qed.
End Invariant.

(** A dry run never writes to the [Book] table. *)
Lemma dry_run_keeps_books (folder : Folder) (csv_files : list File)
    (db : Catalog) :
  books (catalog_of (handle true folder csv_files db)) = books db.
Proof.
  apply (handle_preserves (fun d => books d = books db) true); try reflexivity.
  - intros nm. apply (get_or_create_preserves_books (fun bs => bs = books db)).
  - discriminate.
Qed.

(** While the rows of a file are processed only row messages are written. *)
Lemma process_row_writes (dry_run : bool) (row : Row) (c : Counts) :
  writes is_row_event (process_row dry_run row c).
Proof.
  unfold process_row. writes_step; [writes_step|].
  destruct (String.eqb (row_title a) ""); [repeat writes_step|].
  writes_step.
  { intros db. unfold get_or_create.
    destruct (find_category _ db); [reflexivity|].
    now destruct (Category_fits _). }
  destruct dry_run.
  - unfold dry_run_row. writes_step; [now intros db|].
    destruct a1 as [existing|]; [|repeat writes_step].
    writes_step.
    { intros db. unfold related_category.
      now destruct (find_category_by_id _ db). }
    destruct (changes_of _ _ _ _ _ _); repeat writes_step.
  - unfold apply_row. writes_step.
    { intros db. unfold update_or_create.
      destruct (find_book _ db); now destruct (Book_fits _). }
    destruct a1 as [obj [|]]; repeat writes_step.
Qed.

Lemma process_rows_writes (dry_run : bool) (rows : list Row) (c : Counts) :
  writes is_row_event (process_rows dry_run rows c).
Proof.
  revert c. induction rows as [|row rows IH]; intros c; simpl.
  - writes_step.
  - writes_step; [apply process_row_writes|apply IH].
Qed.

Lemma read_file_writes (dry_run : bool) (f : File) :
  writes is_row_event (read_file dry_run f).
Proof.
  unfold read_file. destruct (opened f) as [e|records stop].
  - now intros db.
  - writes_step; [apply process_rows_writes|].
    destruct stop; [now intros db|writes_step].
Qed.

Lemma row_events_no_summary (o : list Event) :
  forallb is_row_event o = true ->
  file_summaries o = [] /\ final_summaries o = [] /\ files_started o = [].
Proof.
  induction o as [|ev o IH]; simpl; [now auto|].
  intros H. apply andb_prop in H as [Hev Ho].
  destruct ev; try discriminate; now apply IH.
Qed.

Lemma file_summaries_app (o1 o2 : list Event) :
  file_summaries (o1 ++ o2) = file_summaries o1 ++ file_summaries o2.
Proof.
  induction o1 as [|ev o1 IH]; simpl; [reflexivity|].
  destruct ev; simpl; now rewrite ?IH.
Qed.

Lemma final_summaries_app (o1 o2 : list Event) :
  final_summaries (o1 ++ o2) = final_summaries o1 ++ final_summaries o2.
Proof.
  induction o1 as [|ev o1 IH]; simpl; [reflexivity|].
  destruct ev; simpl; now rewrite ?IH.
Qed.

Lemma files_started_app (o1 o2 : list Event) :
  files_started (o1 ++ o2) = files_started o1 ++ files_started o2.
Proof.
  induction o1 as [|ev o1 IH]; simpl; [reflexivity|].
  destruct ev; simpl; now rewrite ?IH.
Qed.

(* ===================================================================== *)
(** ** One step of each loop *)
(* ===================================================================== *)

Lemma process_rows_cons (dry_run : bool) (row : Row) (rows : list Row)
    (c : Counts) (db : Catalog) :
  process_rows dry_run (row :: rows) c db
  = match process_row dry_run row c db with
    | (Returned c1, db1, o1) =>
        after_output o1 (process_rows dry_run rows c1 db1)
    | (Raised e, db1, o1) => (Raised e, db1, o1)
    end.
Proof.
  simpl. destruct (process_row dry_run row c db) as [[[c1|e] db1] o1] eqn:H.
  - now apply bind_returned.
  - now apply bind_raised.
Qed.

Lemma process_rows_app (dry_run : bool) (pre post : list Row) (c : Counts)
    (db : Catalog) :
  process_rows dry_run (pre ++ post) c db
  = match process_rows dry_run pre c db with
    | (Returned c1, db1, o1) =>
        after_output o1 (process_rows dry_run post c1 db1)
    | (Raised e, db1, o1) => (Raised e, db1, o1)
    end.
Proof.
  revert c db. induction pre as [|row pre IH]; intros c db.
  - simpl. now rewrite after_output_nil.
  - rewrite <- app_comm_cons, !process_rows_cons.
    destruct (process_row dry_run row c db) as [[[c1|e] db1] o1];
      [|reflexivity].
    rewrite IH.
    destruct (process_rows dry_run pre c1 db1) as [[[c2|e] db2] o2];
      [|reflexivity].
    unfold after_output at 3. simpl. now rewrite after_output_app.
Qed.

(** One iteration of [for csv_file in csv_files:], by what the [try] block
    does. *)
Lemma process_files_cons (dry_run : bool) (f : File) (rest : list File)
    (total : Counts) (db : Catalog) :
  process_files dry_run (f :: rest) total db
  = match read_file dry_run f db with
    | (Returned c, db1, o1) =>
        after_output (ProcessingFile (path f) :: o1 ++ [FileSummary (path f) c])
          (process_files dry_run rest (accumulate total c) db1)
    | (Raised FileNotFoundError, db1, o1) =>
        after_output (ProcessingFile (path f) :: o1 ++ [FileNotFound (path f)])
          (process_files dry_run rest total db1)
    | (Raised (KeyError key), db1, o1) =>
        after_output
          (ProcessingFile (path f) :: o1 ++ [MissingColumn key (path f)])
          (process_files dry_run rest total db1)
    | (Raised e, db1, o1) => (Raised e, db1, ProcessingFile (path f) :: o1)
    end.
Proof.
  simpl. unfold bind at 1. simpl. unfold bind at 1. unfold try at 1.
  destruct (read_file dry_run f db) as [[[c|e] db1] o1].
  - unfold bind, write.
    destruct (process_files dry_run rest (accumulate total c) db1)
      as [[x db2] o2].
    unfold after_output. simpl. now rewrite <- app_assoc.
  - destruct e; unfold bind, write, raise;
      try (simpl; now rewrite app_nil_r);
      destruct (process_files dry_run rest total db1) as [[x db2] o2];
      unfold after_output; simpl; now rewrite <- app_assoc.
Qed.

(** A file that is not there: [open] raises before anything is read. *)
Lemma read_file_missing (dry_run : bool) (f : File) (db : Catalog) :
  opened f = OpenFails NotFound ->
  read_file dry_run f db = (Raised FileNotFoundError, db, []).
Proof. unfold read_file. now intros ->. Qed.

(** What [read_file] does with a file that opens: its rows, then the error
    of the reader, if there is one. *)
Lemma read_file_reads (dry_run : bool) (f : File)
    (records : list (list string)) (stop : option ReadError) (db : Catalog) :
  opened f = Reads records stop ->
  read_file dry_run f db
  = match process_rows dry_run (DictReader records) no_counts db with
    | (Returned c, db1, o1) =>
        match stop with
        | None => (Returned c, db1, o1)
        | Some e => (Raised (read_error e), db1, o1)
        end
    | (Raised e, db1, o1) => (Raised e, db1, o1)
    end.
Proof.
  unfold read_file. intros ->. unfold bind.
  destruct (process_rows dry_run (DictReader records) no_counts db)
    as [[[c|e] db1] o1]; [|reflexivity].
  destruct stop; unfold raise, ret; now rewrite app_nil_r.
Qed.


(** The same, by the rows of the file and the way its reading ends. *)
Lemma read_file_rows_of (dry_run : bool) (f : File) (db : Catalog) :
  read_file dry_run f db
  = match process_rows dry_run (rows_of f) no_counts db with
    | (Returned c, db1, o1) =>
        match opened f with
        | OpenFails e => (Raised (open_error e), db1, o1)
        | Reads _ (Some e) => (Raised (read_error e), db1, o1)
        | Reads _ None => (Returned c, db1, o1)
        end
    | (Raised e, db1, o1) => (Raised e, db1, o1)
    end.
Proof.
  unfold rows_of. destruct (opened f) as [e|records stop] eqn:H.
  - unfold read_file. now rewrite H.
  - rewrite (read_file_reads _ _ _ _ _ H).
    now destruct (process_rows dry_run (DictReader records) no_counts db)
      as [[[c|e] db1] o1].
Qed.

(** [process_files] lets through only what it does not catch. *)
Lemma process_files_raises (dry_run : bool) (csv_files : list File)
    (total : Counts) (db : Catalog) (e : exn) :
  result_of (process_files dry_run csv_files total db) = Raised e ->
  uncaught e = true.
Proof.
  revert total db. induction csv_files as [|f rest IH]; intros total db.
  - discriminate.
  - rewrite process_files_cons.
    destruct (read_file dry_run f db) as [[[c|e0] db1] o1].
    + apply IH.
    + destruct e0; try apply IH; intros H; now inversion H.
Qed.

(** The totals returned are the totals at entry plus, in order, the counts
    of every [FileSummary] written; no [FinalSummary] is written, and every
    file reached is announced. *)
Lemma process_files_totals (dry_run : bool) (csv_files : list File)
    (total : Counts) (db : Catalog) :
  let r := process_files dry_run csv_files total db in
  final_summaries (output_of r) = []
  /\ forall total', result_of r = Returned total' ->
       total' = fold_left accumulate (file_summaries (output_of r)) total
       /\ files_started (output_of r) = map path csv_files.
Proof.
  revert total db. induction csv_files as [|f rest IH]; intros total db.
  - simpl. split; [reflexivity|]. intros total' H. now inversion H.
  - cbv zeta. rewrite process_files_cons.
    pose proof (read_file_writes dry_run f db) as Hw.
    destruct (read_file dry_run f db) as [[[c|e] db1] o1]; simpl in Hw;
      apply row_events_no_summary in Hw as (Hfs & Hfin & Hst).
    + specialize (IH (accumulate total c) db1). cbv zeta in IH.
      destruct IH as [IHfin IH].
      unfold after_output, result_of, output_of in *. simpl.
      rewrite !final_summaries_app, !file_summaries_app, !files_started_app.
      rewrite Hfin, Hfs, Hst. simpl. split; [assumption|].
      intros total' H. destruct (IH total' H) as [-> ->]. now split.
    + destruct e;
        try (simpl; split; [assumption|discriminate]);
        specialize (IH total db1); cbv zeta in IH; destruct IH as [IHfin IH];
        unfold after_output, result_of, output_of in *; simpl;
        rewrite !final_summaries_app, !file_summaries_app, !files_started_app;
        rewrite Hfin, Hfs, Hst; simpl; (split; [assumption|]);
        intros total' H; destruct (IH total' H) as [-> ->]; now split.
Qed.

Lemma fold_accumulate (cs : list Counts) (total : Counts) :
  let t := fold_left accumulate cs total in
  added t = added total + list_sum (map added cs)
  /\ updated t = updated total + list_sum (map updated cs)
  /\ skipped t = skipped total + list_sum (map skipped cs)
  /\ updated_books t = updated_books total ++ concat (map updated_books cs)
  /\ skipped_rows t = skipped_rows total ++ concat (map skipped_rows cs).
Proof.
  revert total. induction cs as [|c cs IH]; intros total; simpl.
  - rewrite !Nat.add_0_r, !app_nil_r. now repeat split.
  - destruct (IH (accumulate total c)) as (Ha & Hu & Hs & Hub & Hsr).
    simpl in *. rewrite Ha, Hu, Hs, Hub, Hsr, <- !app_assoc.
    repeat split; lia.
Qed.

(* ===================================================================== *)
(** ** The scenarios of the import, run *)
(* ===================================================================== *)

Example scenario_add :
  handle false NoFolder [file "books.csv" [dune (Some "3")]] empty_catalog
  = (Returned tt, dune_catalog,
     [ProcessingFile "books.csv"; AddedNewBook "F001 (Dune)";
      FileSummary "books.csv" (count_added no_counts);
      FinalSummary (count_added no_counts)]).
Proof. reflexivity. Qed.

Example scenario_update :
  handle false NoFolder [file "books.csv" [dune (Some "5")]] dune_catalog
  = (Returned tt, {| categories := [fiction]; books := [dune_book 5] |},
     [ProcessingFile "books.csv"; UpdatedExistingBook "F001 (Dune)";
      FileSummary "books.csv" (count_updated "F001 (Dune)" no_counts);
      FinalSummary (count_updated "F001 (Dune)" no_counts)]).
Proof. reflexivity. Qed.

Example scenario_no_title :
  process_row false untitled no_counts dune_catalog
  = (Returned (count_skipped_row "Poetry" "P001" no_counts), dune_catalog,
     [SkippingRow untitled]).
Proof. reflexivity. Qed.

(* ===================================================================== *)
(** ** Rows of the catalog that are imported again *)
(* ===================================================================== *)

(** C1.  A row equal to the stored Book, imported without [--dry-run], is
    counted as updated and listed among the updated entries; its skip
    counter stays where it was.  The dry run of the same row announces a
    skip.  The catalog is the same after both. *)
Theorem unchanged_row_counted_as_updated :
  process_row false (dune (Some "3")) no_counts dune_catalog
  = (Returned {| added := 0; updated := 1; skipped := 0;
                 updated_books := ["F001 (Dune)"]; skipped_rows := [] |},
     dune_catalog, [UpdatedExistingBook "F001 (Dune)"])
  /\ process_row true (dune (Some "3")) no_counts dune_catalog
     = (Returned {| added := 0; updated := 0; skipped := 1;
                    updated_books := []; skipped_rows := [] |},
        dune_catalog, [WouldSkip "F001"]).
Proof. split; reflexivity. Qed.

(** C2.  A dry run over one new row of a new category leaves the row of
    that category in the catalog (and no Book). *)
Theorem dry_run_creates_category :
  catalog_of
    (handle true NoFolder [file "books.csv" [dune (Some "3")]] empty_catalog)
  = {| categories := [fiction]; books := [] |}.
Proof. reflexivity. Qed.

(** The same root shows when a run ends on an error: the dry run has
    already created the categories of the rows after the one that cannot be
    stored, so a dry run followed by an import leaves more than the import
    alone. *)
Example dry_run_then_import_differs :
  let files := [file "books.csv" [dune (Some "-5"); untitled;
                  csv_row (Some "Poetry") (Some "P002") (Some "Odes")
                          (Some "Keats") (Some "1")]] in
  catalog_of (handle false NoFolder files empty_catalog)
  = {| categories := [fiction]; books := [] |}
  /\ catalog_of
       (handle false NoFolder files
          (catalog_of (handle true NoFolder files empty_catalog)))
     = {| categories := [fiction; {| category_id := 2; name := "Poetry" |}];
          books := [] |}.
Proof. split; reflexivity. Qed.

(** C9.  A line that ends before the [NO. OF COPIES] column gives a row
    whose cell is [None]; [strip] is called on it before [int], the
    [AttributeError] is not caught, and the run ends there: no Book is
    stored, the files after it are not read. *)
Theorem missing_copies_cell_raises :
  handle false NoFolder
         [file "books.csv" [dune None]; file "more.csv" [emma]] empty_catalog
  = (Raised AttributeError, empty_catalog, [ProcessingFile "books.csv"]).
Proof. reflexivity. Qed.

(* ===================================================================== *)
(** ** A row with a title, imported without [--dry-run] *)
(* ===================================================================== *)

Lemma row_fits_book (l : Locals) (i : nat) (cat : Category) :
  row_fits l = true -> Book_fits (book_of_row i cat l) = true.
Proof.
  unfold row_fits, Book_fits. simpl. intros H.
  repeat (apply andb_prop in H as [H ?]).
  repeat match goal with E : _ = true |- _ => rewrite E; clear E end.
  reflexivity.
Qed.

Lemma row_fits_category (l : Locals) :
  row_fits l = true -> CharField 100 (row_category_name l) = true.
Proof.
  unfold row_fits. intros H.
  now repeat (apply andb_prop in H as [H ?]).
Qed.

(** A row whose code is not in the catalog is inserted. *)
Lemma apply_new_row (row : Row) (l : Locals) (c : Counts) (db : Catalog) :
  read_row row = Returned l ->
  row_title l <> "" ->
  row_fits l = true ->
  find_book (row_book_code l) db = None ->
  exists cat db1,
    find_category (row_category_name l) db1 = Some cat
    /\ name cat = row_category_name l
    /\ categories db1 = categories (catalog_of
                          (get_or_create (row_category_name l) db))
    /\ let b := book_of_row (next_id (map book_id (books db))) cat l in
       process_row false row c db
       = (Returned (count_added c),
          {| categories := categories db1; books := books db ++ [b] |},
          [AddedNewBook (Book_str b)]).
Proof.
  intros Hl Ht Hfits Hnew.
  destruct (get_or_create_fits _ db (row_fits_category l Hfits))
    as (cat & created & db1 & Hcat).
  destruct (get_or_create_returned _ _ _ _ _ _ Hcat) as (Hf & Hn & _ & Hb).
  exists cat, db1. repeat split; try assumption.
  { now rewrite Hcat. }
  cbv zeta. unfold process_row, bind, lift. rewrite Hl.
  destruct (String.eqb (row_title l) "") eqn:E;
    [now apply String.eqb_eq in E|].
  rewrite Hcat. simpl. unfold apply_row, bind, update_or_create.
  unfold find_book in *. rewrite Hb, Hnew.
  fold (book_of_row (next_id (map book_id (books db))) cat l).
  now rewrite (row_fits_book l _ cat Hfits).
Qed.

(** A row whose code is in the catalog overwrites the four fields of the
    Book stored under that code. *)
Lemma apply_existing_row (row : Row) (l : Locals) (c : Counts) (db : Catalog)
    (existing : Book) :
  read_row row = Returned l ->
  row_title l <> "" ->
  row_fits l = true ->
  find_book (row_book_code l) db = Some existing ->
  exists cat db1,
    find_category (row_category_name l) db1 = Some cat
    /\ name cat = row_category_name l
    /\ categories db1 = categories (catalog_of
                          (get_or_create (row_category_name l) db))
    /\ let b := book_of_row (book_id existing) cat l in
       process_row false row c db
       = (Returned (count_updated (Book_str b) c),
          {| categories := categories db1;
             books := replace_book b (books db) |},
          [UpdatedExistingBook (Book_str b)]).
Proof.
  intros Hl Ht Hfits Hold.
  destruct (get_or_create_fits _ db (row_fits_category l Hfits))
    as (cat & created & db1 & Hcat).
  destruct (get_or_create_returned _ _ _ _ _ _ Hcat) as (Hf & Hn & _ & Hb).
  exists cat, db1. repeat split; try assumption.
  { now rewrite Hcat. }
  cbv zeta. unfold process_row, bind, lift. rewrite Hl.
  destruct (String.eqb (row_title l) "") eqn:E;
    [now apply String.eqb_eq in E|].
  rewrite Hcat. simpl. unfold apply_row, bind, update_or_create.
  unfold find_book in *. rewrite Hb, Hold.
  assert (Hcode : book_code existing = row_book_code l).
  { apply find_some in Hold as [_ Hold]. now apply String.eqb_eq in Hold. }
  rewrite Hcode.
  fold (book_of_row (book_id existing) cat l).
  now rewrite (row_fits_book l _ cat Hfits).
Qed.


(** Overwriting a Book by itself changes nothing when codes are unique. *)
Lemma replace_book_same (b : Book) (bs : list Book) :
  NoDup (map book_code bs) ->
  find (fun x => String.eqb (book_code x) (book_code b)) bs = Some b ->
  replace_book b bs = bs.
Proof.
  intros Hnd. induction bs as [|x bs IH]; simpl; [reflexivity|].
  inversion Hnd as [|? ? Hx Hbs]; subst.
  destruct (String.eqb (book_code x) (book_code b)) eqn:E.
  - intros H. inversion H; subst. f_equal.
    unfold replace_book. rewrite <- (map_id bs) at 2.
    apply map_ext_in. intros y Hy.
    destruct (String.eqb (book_code y) (book_code b)) eqn:Ey; [|reflexivity].
    apply String.eqb_eq in Ey. exfalso. apply Hx. rewrite <- Ey.
    now apply in_map.
  - intros H. f_equal. now apply IH.
Qed.

(** In general: a row equal in its four fields to the stored Book leaves
    the catalog as it is and is counted as updated. *)
Lemma apply_unchanged_row (row : Row) (l : Locals) (c : Counts) (db : Catalog)
    (existing : Book) (cat : Category) :
  NoDup (map book_code (books db)) ->
  read_row row = Returned l ->
  row_title l <> "" ->
  row_fits l = true ->
  find_book (row_book_code l) db = Some existing ->
  find_category (row_category_name l) db = Some cat ->
  category existing = category_id cat ->
  title existing = row_title l ->
  authors existing = row_authors l ->
  number_of_copies existing = parse_copies (row_number_of_copies l) ->
  process_row false row c db
  = (Returned (count_updated (Book_str existing) c), db,
     [UpdatedExistingBook (Book_str existing)]).
Proof.
  intros Hnd Hl Ht Hfits Hold Hcat Hc Hti Ha Hn.
  destruct (apply_existing_row row l c db existing Hl Ht Hfits Hold)
    as (cat' & db1 & Hf & _ & Hcs & Hrun).
  cbv zeta in Hrun. rewrite Hrun. clear Hrun.
  unfold get_or_create in Hcs. rewrite Hcat in Hcs.
  change (categories db1 = categories db) in Hcs.
  assert (Hcat' : cat' = cat).
  { unfold find_category in *. rewrite Hcs, Hcat in Hf. now inversion Hf. }
  subst cat'.
  assert (Hcode : book_code existing = row_book_code l).
  { unfold find_book in Hold. apply find_some in Hold as [_ Hold].
    now apply String.eqb_eq in Hold. }
  assert (Hb : book_of_row (book_id existing) cat l = existing).
  { unfold book_of_row. rewrite <- Hc, <- Hti, <- Ha, <- Hn, <- Hcode.
    now destruct existing. }
  rewrite Hb, Hcs. rewrite replace_book_same; [now destruct db|assumption|].
  unfold find_book in Hold. now rewrite Hcode.
Qed.

(* ===================================================================== *)
(** ** Rows without a title *)
(* ===================================================================== *)

(** C5 (as amended).  The title is tested before the Category is looked up:
    a row whose BOOK TITLE strips to the empty string is skipped with the
    catalog exactly as it was, in both modes; in particular a category name
    that was absent is still absent. *)
Theorem no_title_leaves_catalog (dry_run : bool) (row : Row) (l : Locals)
    (c : Counts) (db : Catalog) :
  read_row row = Returned l ->
  row_title l = "" ->
  catalog_of (process_row dry_run row c db) = db
  /\ find_category (row_category_name l)
       (catalog_of (process_row dry_run row c db))
     = find_category (row_category_name l) db.
Proof.
  intros Hl Ht. now rewrite (process_row_no_title dry_run row l c db Hl Ht).
Qed.

Lemma no_title_leaves_catalog_witness :
  catalog_of (process_row true untitled no_counts empty_catalog)
  = empty_catalog
  /\ find_category "Poetry"
       (catalog_of (process_row true untitled no_counts empty_catalog))
     = find_category "Poetry" empty_catalog.
Proof.
  apply (no_title_leaves_catalog true untitled
           {| row_category_name := "Poetry"; row_book_code := "P001";
              row_title := ""; row_authors := None;
              row_number_of_copies := "2" |});
    reflexivity.
Defined.

(** C5 (as stated) fails: no row without a title leaves a Category behind
    that was not there before. *)
Lemma no_title_creates_no_category :
  ~ exists (dry_run : bool) (row : Row) (l : Locals) (c : Counts)
           (db : Catalog),
      read_row row = Returned l
      /\ row_title l = ""
      /\ categories (catalog_of (process_row dry_run row c db))
         <> categories db.
Proof.
  intros (dry_run & row & l & c & db & Hl & Ht & Hneq).
  apply Hneq. now rewrite (process_row_no_title dry_run row l c db Hl Ht).
Qed.

(** What [read_row] gives for a row that has its cells. *)
Lemma read_row_cells (row : Row) (cat code ttl copies : string)
    (auth : option string) :
  getitem row "CATEGORY" = Returned (Some cat) ->
  getitem row "BOOK CODE" = Returned (Some code) ->
  getitem row "BOOK TITLE" = Returned (Some ttl) ->
  getitem row "BOOK AUTHOR" = Returned auth ->
  getitem row "NO. OF COPIES" = Returned (Some copies) ->
  read_row row
  = Returned {| row_category_name := Py.strip cat;
                row_book_code := Py.strip code;
                row_title := Py.strip ttl;
                row_authors := match auth with
                               | Some (String a s) =>
                                   Some (Py.strip (String a s))
                               | _ => None
                               end;
                row_number_of_copies := Py.strip copies |}.
Proof.
  intros Hcat Hcode Httl Hauth Hcopies. unfold read_row.
  rewrite Hcat, Hcode, Httl, Hauth, Hcopies. reflexivity.
Qed.

(** Where the skip works: a row that has a cell under CATEGORY, BOOK CODE,
    BOOK TITLE and NO. OF COPIES, and whose BOOK TITLE is empty or white
    space only, is skipped in both modes: the catalog is untouched, the skip
    counter goes up by one and the pair (category name, book code), both
    stripped, is appended to the skipped rows; nothing else is counted. *)
Lemma row_without_title_is_skipped (dry_run : bool) (row : Row)
    (cat code ttl copies : string) (auth : option string) (c : Counts)
    (db : Catalog) :
  getitem row "CATEGORY" = Returned (Some cat) ->
  getitem row "BOOK CODE" = Returned (Some code) ->
  getitem row "BOOK TITLE" = Returned (Some ttl) ->
  getitem row "BOOK AUTHOR" = Returned auth ->
  getitem row "NO. OF COPIES" = Returned (Some copies) ->
  blank ttl = true ->
  exists c',
    process_row dry_run row c db = (Returned c', db, [SkippingRow row])
    /\ skipped c' = S (skipped c)
    /\ skipped_rows c' = skipped_rows c ++ [(Py.strip cat, Py.strip code)]
    /\ added c' = added c /\ updated c' = updated c
    /\ updated_books c' = updated_books c.
Proof.
  intros Hcat Hcode Httl Hauth Hcopies Hblank.
  pose proof (read_row_cells row cat code ttl copies auth
                Hcat Hcode Httl Hauth Hcopies) as Hl.
  apply strip_empty_iff in Hblank.
  eexists. split.
  - apply (process_row_no_title dry_run row _ c db Hl). exact Hblank.
  - now repeat split.
Qed.

Example row_without_title_is_skipped_for_untitled :
  exists c',
    process_row false untitled no_counts dune_catalog
    = (Returned c', dune_catalog, [SkippingRow untitled])
    /\ skipped c' = 1
    /\ skipped_rows c' = [("Poetry", "P001")]
    /\ added c' = 0 /\ updated c' = 0 /\ updated_books c' = [].
Proof.
  apply (row_without_title_is_skipped false untitled "Poetry" "P001" "   "
           "2" (Some "") no_counts dune_catalog);
    reflexivity.
Qed.

(** C6.  A row without a title is not skipped when its line ends before the
    last column (the line [Poetry,P001,,] under the five-column header): its
    NO. OF COPIES cell is [None], [strip] is called on it before the title
    is tested, and the [AttributeError] ends the run in both modes, whatever
    the catalog holds; no skip is counted or listed and the files after it
    are not opened. *)
Theorem short_line_without_title_is_not_skipped :
  let row := dict_row header ["Poetry"; "P001"; ""; ""] in
  getitem row "BOOK TITLE" = Returned (Some "")
  /\ blank "" = true
  /\ forall (dry_run : bool) (c : Counts) (db : Catalog),
       process_row dry_run row c db = (Raised AttributeError, db, [])
       /\ handle dry_run NoFolder
                 [file "books.csv" [row]; file "more.csv" [emma]] db
          = (Raised AttributeError, db, [ProcessingFile "books.csv"]).
Proof.
  cbv zeta. split; [reflexivity|]. split; [reflexivity|].
  intros dry_run c db. split; reflexivity.
Qed.

(* ===================================================================== *)
(** ** What a row stores *)
(* ===================================================================== *)

Lemma find_replace_book (obj b : Book) (bs : list Book) :
  find (fun x => String.eqb (book_code x) (book_code obj)) bs = Some b ->
  find (fun x => String.eqb (book_code x) (book_code obj))
       (replace_book obj bs) = Some obj.
Proof.
  induction bs as [|x bs IH]; simpl; [discriminate|].
  destruct (String.eqb (book_code x) (book_code obj)) eqn:E.
  - intros _. now rewrite String.eqb_refl.
  - intros H. rewrite E. now apply IH.
Qed.

(** What [update_or_create] returns is the Book then stored under the
    code, with the values it was given, all within the column limits. *)
Lemma update_or_create_returned (code : string) (cat : Category)
    (ttl : string) (auth : option string) (copies : Z) (db db1 : Catalog)
    (obj : Book) (created : bool) (o : list Event) :
  update_or_create code cat ttl auth copies db
  = (Returned (obj, created), db1, o) ->
  find_book code db1 = Some obj
  /\ Book_fits obj = true
  /\ book_code obj = code /\ category obj = category_id cat
  /\ title obj = ttl /\ authors obj = auth /\ number_of_copies obj = copies
  /\ categories db1 = categories db.
Proof.
  unfold update_or_create, find_book.
  destruct (find _ (books db)) as [b|] eqn:Hf.
  - match goal with |- context [Book_fits ?x] => set (new := x) end.
    destruct (Book_fits new) eqn:Hfits; [|discriminate].
    intros H. inversion H; subst obj created db1 o. clear H.
    assert (Hcode : book_code b = code).
    { apply find_some in Hf as [_ Hf]. now apply String.eqb_eq in Hf. }
    repeat split; try assumption. simpl. subst code.
    change (book_code b) with (book_code new) in Hf |- *.
    now apply (find_replace_book new b).
  - match goal with |- context [Book_fits ?x] => set (new := x) end.
    destruct (Book_fits new) eqn:Hfits; [|discriminate].
    intros H. inversion H; subst obj created db1 o. clear H.
    repeat split; try assumption. simpl.
    apply find_app_new; [assumption|]. simpl. apply String.eqb_refl.
Qed.

(** The row-level reading of the storage invariant: when a row with a title
    has been imported, the Book stored under its code carries the parsed
    number of copies, and that number is within the column's range. *)
Lemma row_stores_parsed_copies (row : Row) (l : Locals) (c c' : Counts)
    (db db' : Catalog) (o : list Event) :
  read_row row = Returned l ->
  row_title l <> "" ->
  process_row false row c db = (Returned c', db', o) ->
  exists b,
    find_book (row_book_code l) db' = Some b
    /\ number_of_copies b = parse_copies (row_number_of_copies l)
    /\ (0 <= number_of_copies b <= 2147483647)%Z.
Proof.
  intros Hl Ht. unfold process_row, bind, lift. rewrite Hl.
  destruct (String.eqb (row_title l) "") eqn:E;
    [now apply String.eqb_eq in E|].
  destruct (get_or_create (row_category_name l) db)
    as [[[[cat created]|e] db1] o1]; [|discriminate].
  simpl. unfold apply_row, bind.
  destruct (update_or_create _ _ _ _ _ db1) as [[[[obj cr]|e] db2] o2] eqn:Hu;
    [|discriminate].
  destruct (update_or_create_returned _ _ _ _ _ _ _ _ _ _ Hu)
    as (Hfind & Hfits & _ & _ & _ & _ & Hn & _).
  assert (Hdb : db' = db2 -> exists b,
             find_book (row_book_code l) db' = Some b
             /\ number_of_copies b = parse_copies (row_number_of_copies l)
             /\ (0 <= number_of_copies b <= 2147483647)%Z).
  { intros ->. exists obj. repeat split; try assumption.
    - unfold Book_fits, PositiveIntegerField in Hfits.
      apply andb_prop in Hfits as [_ Hfits].
      apply andb_prop in Hfits as [Hfits _]. now apply Z.leb_le in Hfits.
    - unfold Book_fits, PositiveIntegerField in Hfits.
      apply andb_prop in Hfits as [_ Hfits].
      apply andb_prop in Hfits as [_ Hfits]. now apply Z.leb_le in Hfits. }
  destruct cr; simpl; intros H; apply Hdb; now inversion H.
Qed.

(** A row with a title whose values fit the columns is always stored. *)
Lemma apply_row_stores (row : Row) (l : Locals) (c : Counts) (db : Catalog) :
  read_row row = Returned l ->
  row_title l <> "" ->
  row_fits l = true ->
  exists c' db' o i cat,
    process_row false row c db = (Returned c', db', o)
    /\ find_category (row_category_name l) db' = Some cat
    /\ find_book (row_book_code l) db' = Some (book_of_row i cat l).
Proof.
  intros Hl Ht Hfits.
  destruct (find_book (row_book_code l) db) as [existing|] eqn:Hf.
  - destruct (apply_existing_row row l c db existing Hl Ht Hfits Hf)
      as (cat & db1 & Hcat & _ & _ & Hrun).
    cbv zeta in Hrun. rewrite Hrun.
    do 3 eexists. exists (book_id existing), cat.
    split; [reflexivity|]. split; [exact Hcat|].
    unfold find_book in *. simpl.
    change (row_book_code l)
      with (book_code (book_of_row (book_id existing) cat l)) in Hf |- * at 1.
    now apply (find_replace_book _ existing).
  - destruct (apply_new_row row l c db Hl Ht Hfits Hf)
      as (cat & db1 & Hcat & _ & _ & Hrun).
    cbv zeta in Hrun. rewrite Hrun.
    do 3 eexists. exists (next_id (map book_id (books db))), cat.
    split; [reflexivity|]. split; [exact Hcat|].
    unfold find_book in *. simpl.
    apply find_app_new; [assumption|]. simpl. apply String.eqb_refl.
Qed.

(** For a cell that holds a string, the default applies: a string [int]
    rejects (the empty one, ["abc"]) is stored as 1 and the row is
    imported. *)
Lemma unparsable_copies_stored_as_one (row : Row) (l : Locals) (c : Counts)
    (db : Catalog) :
  read_row row = Returned l ->
  row_title l <> "" ->
  row_fits l = true ->
  Py.int (row_number_of_copies l) = None ->
  exists c' db' o b,
    process_row false row c db = (Returned c', db', o)
    /\ find_book (row_book_code l) db' = Some b
    /\ number_of_copies b = 1%Z.
Proof.
  intros Hl Ht Hfits Hint.
  destruct (apply_row_stores row l c db Hl Ht Hfits)
    as (c' & db' & o & i & cat & Hrun & _ & Hb).
  exists c', db', o, (book_of_row i cat l).
  repeat split; try assumption.
  simpl. now apply parse_copies_default.
Qed.

(* ===================================================================== *)
(** ** Invariants of the Book table *)
(* ===================================================================== *)

(** C3.  Whatever the files contain and however the run ends, in either
    mode, a catalog whose Books all have a non-negative number of copies
    still has only such Books afterwards: a value [int] reads as negative
    never reaches the table.  And for every row with a title that has been
    imported, the Book stored under its code carries the number parsed from
    NO. OF COPIES, which is not negative. *)
Theorem stored_copies_nonnegative (dry_run : bool) (folder : Folder)
    (csv_files : list File) (db : Catalog) :
  copies_nonnegative db = true ->
  copies_nonnegative (catalog_of (handle dry_run folder csv_files db)) = true
  /\ forall (row : Row) (l : Locals) (c c' : Counts) (d d' : Catalog)
            (o : list Event),
       read_row row = Returned l ->
       row_title l <> "" ->
       process_row false row c d = (Returned c', d', o) ->
       exists b,
         find_book (row_book_code l) d' = Some b
         /\ number_of_copies b = parse_copies (row_number_of_copies l)
         /\ (0 <= number_of_copies b)%Z.
Proof.
  intros Hdb. split.
  - revert Hdb.
    apply (handle_preserves (fun d => copies_nonnegative d = true)).
    + intros nm.
      apply (get_or_create_preserves_books
               (fun bs => forallb (fun b => (0 <=? number_of_copies b)%Z) bs
                          = true)).
    + intros _. apply update_or_create_nonnegative.
  - intros row l c c' d d' o Hl Ht Hrun.
    destruct (row_stores_parsed_copies row l c c' d d' o Hl Ht Hrun)
      as (b & Hb & Hn & Hrange).
    exists b. repeat split; try assumption. lia.
Qed.

Lemma stored_copies_nonnegative_witness :
  copies_nonnegative
    (catalog_of
       (handle false NoFolder
          [file "books.csv" [emma; dune (Some "-5"); dune (Some "7")]]
          dune_catalog))
  = true
  /\ forall (row : Row) (l : Locals) (c c' : Counts) (d d' : Catalog)
            (o : list Event),
       read_row row = Returned l ->
       row_title l <> "" ->
       process_row false row c d = (Returned c', d', o) ->
       exists b,
         find_book (row_book_code l) d' = Some b
         /\ number_of_copies b = parse_copies (row_number_of_copies l)
         /\ (0 <= number_of_copies b)%Z.
Proof.
  apply (stored_copies_nonnegative false NoFolder
           [file "books.csv" [emma; dune (Some "-5"); dune (Some "7")]]
           dune_catalog).
  reflexivity.
Defined.

(** A negative number of copies is not replaced by a default: the write is
    refused by the column and the error ends the run, the rows and files
    after it unread. *)
Example negative_copies_end_the_run :
  handle false NoFolder
         [file "books.csv" [emma; dune (Some "-5"); dune (Some "7")];
          file "more.csv" [untitled]] dune_catalog
  = (Raised DatabaseError,
     {| categories := [fiction];
        books := [dune_book 3;
                  {| book_id := 2; category := 1; book_code := "F002";
                     title := "Emma"; authors := Some "Austen";
                     number_of_copies := 1 |}] |},
     [ProcessingFile "books.csv"; AddedNewBook "F002 (Emma)"]).
Proof. reflexivity. Qed.

Lemma replace_book_codes (obj : Book) (bs : list Book) :
  map book_code (replace_book obj bs) = map book_code bs.
Proof.
  induction bs as [|x bs IH]; simpl; [reflexivity|].
  rewrite IH. f_equal.
  destruct (String.eqb (book_code x) (book_code obj)) eqn:E; [|reflexivity].
  now apply String.eqb_eq in E.
Qed.

Lemma find_none_not_in (code : string) (bs : list Book) :
  find (fun x => String.eqb (book_code x) code) bs = None ->
  ~ In code (map book_code bs).
Proof.
  induction bs as [|x bs IH]; simpl; [now auto|].
  destruct (String.eqb (book_code x) code) eqn:E; [discriminate|].
  intros H [Hx|Hin]; [|now apply IH].
  apply String.eqb_neq in E. now apply E.
Qed.

(** [book_code] identifies at most one Book, before and after any run. *)
Lemma book_codes_stay_unique (dry_run : bool) (folder : Folder)
    (csv_files : list File) (db : Catalog) :
  NoDup (map book_code (books db)) ->
  NoDup (map book_code
           (books (catalog_of (handle dry_run folder csv_files db)))).
Proof.
  apply (handle_preserves (fun d => NoDup (map book_code (books d)))).
  - intros nm.
    apply (get_or_create_preserves_books (fun bs => NoDup (map book_code bs))).
  - intros _ code cat ttl auth copies d Hd.
    unfold update_or_create, find_book.
    destruct (find _ (books d)) as [b|] eqn:Hf.
    + destruct (Book_fits _); [|assumption]. simpl.
      now rewrite replace_book_codes.
    + destruct (Book_fits _); [|assumption]. simpl.
      rewrite map_app. simpl.
      apply NoDup_app; [assumption| |].
      * constructor; [now auto|constructor].
      * intros x Hx [<-|[]]. now apply (find_none_not_in _ _ Hf).
Qed.

(* ===================================================================== *)
(** ** New rows *)
(* ===================================================================== *)

Lemma next_id_fresh (ids : list nat) : ~ In (next_id ids) ids.
Proof.
  unfold next_id. intros Hin.
  assert (H : Forall (fun k => k <= list_max ids) ids)
    by now apply list_max_le.
  rewrite Forall_forall in H. specialize (H _ Hin). lia.
Qed.




(* ===================================================================== *)
(** ** Errors and the files after them *)
(* ===================================================================== *)

(** A file whose rows raise [KeyError]: the message is written, no summary
    is, and the loop goes on with the next file from the totals it had. *)
Lemma missing_column_continues (dry_run : bool) (f : File) (rest : list File)
    (total : Counts) (db db1 : Catalog) (key : string) (o1 : list Event) :
  read_file dry_run f db = (Raised (KeyError key), db1, o1) ->
  process_files dry_run (f :: rest) total db
  = after_output (ProcessingFile (path f) :: o1 ++ [MissingColumn key (path f)])
      (process_files dry_run rest total db1).
Proof. intros H. now rewrite process_files_cons, H. Qed.

(** A file that is not there: the same, with nothing read. *)
Lemma missing_file_continues (dry_run : bool) (f : File) (rest : list File)
    (total : Counts) (db : Catalog) :
  opened f = OpenFails NotFound ->
  process_files dry_run (f :: rest) total db
  = after_output [ProcessingFile (path f); FileNotFound (path f)]
      (process_files dry_run rest total db).
Proof.
  intros H. now rewrite process_files_cons, (read_file_missing _ _ _ H).
Qed.

(** A row without a title: the loop goes on with the next row. *)
Lemma no_title_continues (dry_run : bool) (row : Row) (rows : list Row)
    (l : Locals) (c : Counts) (db : Catalog) :
  read_row row = Returned l ->
  row_title l = "" ->
  process_rows dry_run (row :: rows) c db
  = after_output [SkippingRow row]
      (process_rows dry_run rows
         (count_skipped_row (row_category_name l) (row_book_code l) c) db).
Proof.
  intros Hl Ht.
  now rewrite process_rows_cons, (process_row_no_title _ _ _ _ _ Hl Ht).
Qed.

(** A row that lacks a column raises [KeyError] before anything is done. *)
Lemma process_row_KeyError (dry_run : bool) (row : Row) (c : Counts)
    (db : Catalog) (e : exn) :
  read_row row = Raised e ->
  process_row dry_run row c db = (Raised e, db, []).
Proof. intros H. unfold process_row, bind, lift. now rewrite H. Qed.

(** A row with a title whose number of copies reads as negative is
    refused by the column: the import raises, and the Book table is as it
    was. *)
Lemma negative_copies_refused (row : Row) (l : Locals) (c : Counts)
    (db : Catalog) :
  read_row row = Returned l ->
  row_title l <> "" ->
  (parse_copies (row_number_of_copies l) < 0)%Z ->
  exists db',
    process_row false row c db = (Raised DatabaseError, db', [])
    /\ books db' = books db.
Proof.
  intros Hl Ht Hneg. unfold process_row, bind, lift. rewrite Hl.
  destruct (String.eqb (row_title l) "") eqn:E;
    [now apply String.eqb_eq in E|].
  destruct (get_or_create (row_category_name l) db)
    as [[[[cat created]|e] d1] og] eqn:Hg.
  - destruct (get_or_create_returned _ _ _ _ _ _ Hg) as (_ & _ & -> & Hb).
    simpl. unfold apply_row, bind, update_or_create.
    assert (Hfits : forall b,
               number_of_copies b = parse_copies (row_number_of_copies l) ->
               Book_fits b = false).
    { intros b Hn. unfold Book_fits, PositiveIntegerField. rewrite Hn.
      assert (H0 : (0 <=? parse_copies (row_number_of_copies l))%Z = false)
        by now apply Z.leb_gt.
      rewrite H0. simpl. now rewrite !andb_false_r. }
    exists d1. split; [|exact Hb].
    destruct (find_book (row_book_code l) d1);
      now rewrite Hfits by reflexivity.
  - exists d1. revert Hg. unfold get_or_create.
    destruct (find_category _ db); [discriminate|].
    destruct (Category_fits _); [discriminate|].
    intros H. now inversion H.
Qed.

(** A run over files given on the command line whose first row raises an
    exception [handle] does not catch. *)
Lemma first_row_ends_the_run (dry_run : bool) (f : File) (rest : list File)
    (records : list (list string)) (stop : option ReadError)
    (row : Row) (rows : list Row) (e : exn) (db db1 : Catalog) :
  opened f = Reads records stop ->
  DictReader records = row :: rows ->
  process_row dry_run row no_counts db = (Raised e, db1, []) ->
  uncaught e = true ->
  handle dry_run NoFolder (f :: rest) db
  = (Raised e, db1, [ProcessingFile (path f)]).
Proof.
  intros Hf Hrows Hrow He. unfold handle.
  unfold bind at 1. rewrite process_files_cons.
  rewrite (read_file_reads _ _ _ _ _ Hf), Hrows, process_rows_cons, Hrow.
  now destruct e.
Qed.

(** C7.  An invalid field in a row can end the whole run.  Without
    [--dry-run], a row whose number of copies is negative is refused by the
    column; in both modes, a row on a line that ends before the last cell
    raises [AttributeError].  Neither is caught: the rows after it are not
    processed, no summary is written for the file or for the run, and the
    files after it are not opened, whatever they are and whatever the
    catalog holds. *)
Theorem invalid_field_ends_the_run (rest : list File) (db : Catalog) :
  (let run := handle false NoFolder
                     (file "a.csv" [dune (Some "-5"); emma] :: rest) db in
   result_of run = Raised DatabaseError
   /\ output_of run = [ProcessingFile "a.csv"]
   /\ books (catalog_of run) = books db)
  /\ forall dry_run : bool,
       handle dry_run NoFolder (file "a.csv" [dune None; emma] :: rest) db
       = (Raised AttributeError, db, [ProcessingFile "a.csv"]).
Proof.
  split.
  - cbv zeta.
    destruct (negative_copies_refused (dune (Some "-5"))
                {| row_category_name := "Fiction"; row_book_code := "F001";
                   row_title := "Dune"; row_authors := Some "Herbert";
                   row_number_of_copies := "-5" |} no_counts db)
      as (db1 & Hrow & Hbooks); [reflexivity|discriminate|reflexivity|].
    rewrite (first_row_ends_the_run false
               (file "a.csv" [dune (Some "-5"); emma]) rest
               (header :: map record [dune (Some "-5"); emma]) None
               (dune (Some "-5")) [emma] DatabaseError db db1);
      try reflexivity; [|exact Hrow].
    now repeat split.
  - intros dry_run.
    apply (first_row_ends_the_run dry_run
             (file "a.csv" [dune None; emma]) rest
             (header :: map record [dune None; emma]) None
             (dune None) [emma] AttributeError db db); reflexivity.
Qed.

(* ===================================================================== *)
(** ** Totals *)
(* ===================================================================== *)

Lemma in_final_summaries (total : Counts) (o : list Event) :
  In (FinalSummary total) o -> In total (final_summaries o).
Proof.
  induction o as [|ev o IH]; simpl; [now auto|].
  intros [->|H]; [now left|].
  destruct ev; simpl; auto.
Qed.

(** What [handle] writes when the loop over the files has returned. *)
Lemma handle_loop_summary (dry_run : bool) (fs : list File) (db : Catalog)
    (total : Counts) :
  let r := bind (process_files dry_run fs no_counts)
                (fun t => write (FinalSummary t)) db in
  In (FinalSummary total) (output_of r) ->
  total = fold_left accumulate (file_summaries (output_of r)) no_counts.
Proof.
  cbv zeta. unfold bind, write.
  destruct (process_files_totals dry_run fs no_counts db) as [Hfin Htot].
  destruct (process_files dry_run fs no_counts db) as [[[t|e] d] o];
    unfold output_of, result_of in *; simpl in *.
  - destruct (Htot t eq_refl) as [Ht _].
    intros H. apply in_final_summaries in H.
    rewrite final_summaries_app, Hfin in H. simpl in H.
    destruct H as [<-|[]].
    rewrite file_summaries_app. simpl. now rewrite app_nil_r.
  - intros H. apply in_final_summaries in H. now rewrite Hfin in H.
Qed.

(** C8.  The totals of the final summary are the sums of the counts of the
    file summaries written before it, and its two lists are the lists of
    those summaries one after the other, in the order of the files. *)
Theorem totals_are_sums_of_file_counts (dry_run : bool) (folder : Folder)
    (csv_files : list File) (db : Catalog) (total : Counts) :
  let o := output_of (handle dry_run folder csv_files db) in
  In (FinalSummary total) o ->
  added total = list_sum (map added (file_summaries o))
  /\ updated total = list_sum (map updated (file_summaries o))
  /\ skipped total = list_sum (map skipped (file_summaries o))
  /\ updated_books total = concat (map updated_books (file_summaries o))
  /\ skipped_rows total = concat (map skipped_rows (file_summaries o)).
Proof.
  cbv zeta. intros H.
  assert (Ht : total
               = fold_left accumulate
                   (file_summaries
                      (output_of (handle dry_run folder csv_files db)))
                   no_counts).
  { unfold handle in *.
    destruct folder as [|p|p e|p folder_csvs].
    - destruct csv_files as [|f fs];
        [simpl in H; now destruct H as [H|[]]|].
      now apply handle_loop_summary.
    - simpl in H. now destruct H as [H|[]].
    - now simpl in H.
    - destruct (csv_files ++ folder_csvs) as [|f fs];
        [simpl in H; now destruct H as [H|[]]|].
      now apply handle_loop_summary. }
  pose proof (fold_accumulate
                (file_summaries
                   (output_of (handle dry_run folder csv_files db)))
                no_counts) as Hsum.
  cbv zeta in Hsum. rewrite <- Ht in Hsum. exact Hsum.
Qed.

Lemma totals_are_sums_of_file_counts_witness :
  let o := output_of (handle false NoFolder four_files empty_catalog) in
  In (FinalSummary four_files_total) o
  /\ added four_files_total = list_sum (map added (file_summaries o))
  /\ updated four_files_total = list_sum (map updated (file_summaries o))
  /\ skipped four_files_total = list_sum (map skipped (file_summaries o))
  /\ updated_books four_files_total
     = concat (map updated_books (file_summaries o))
  /\ skipped_rows four_files_total
     = concat (map skipped_rows (file_summaries o)).
Proof.
  assert (H : In (FinalSummary four_files_total)
                 (output_of (handle false NoFolder four_files empty_catalog))).
  { vm_compute. repeat (first [left; reflexivity | right]). }
  split; [exact H|].
  exact (totals_are_sums_of_file_counts false NoFolder four_files empty_catalog
           four_files_total H).
Defined.

(** A run that returns over at least one file ends with a final summary,
    and has announced every file. *)
Lemma handle_returns_summary (dry_run : bool) (f : File)
    (csv_files : list File) (db : Catalog) :
  result_of (handle dry_run NoFolder (f :: csv_files) db) = Returned tt ->
  exists o total,
    output_of (handle dry_run NoFolder (f :: csv_files) db)
    = o ++ [FinalSummary total]
    /\ files_started o = map path (f :: csv_files).
Proof.
  unfold handle, bind, write.
  destruct (process_files_totals dry_run (f :: csv_files) no_counts db)
    as [_ Htot].
  destruct (process_files dry_run (f :: csv_files) no_counts db)
    as [[[t|e] d] o]; unfold result_of, output_of in *; simpl in *;
    [|discriminate].
  intros _. exists o, t. split; [reflexivity|].
  now destruct (Htot t eq_refl).
Qed.

(* ===================================================================== *)
(** ** Nothing is deleted *)
(* ===================================================================== *)

Lemma find_replace_book_some (code : string) (obj : Book) (bs : list Book) :
  find (fun x => String.eqb (book_code x) code) bs <> None ->
  find (fun x => String.eqb (book_code x) code) (replace_book obj bs) <> None.
Proof.
  induction bs as [|x bs IH]; simpl; [now auto|].
  destruct (String.eqb (book_code x) code) eqn:E.
  - intros _.
    destruct (String.eqb (book_code x) (book_code obj)) eqn:E'.
    + apply String.eqb_eq in E, E'. rewrite <- E', E, String.eqb_refl.
      discriminate.
    + rewrite E. discriminate.
  - intros H.
    destruct (String.eqb (book_code x) (book_code obj)) eqn:E'.
    + apply String.eqb_eq in E'. rewrite <- E', E. now apply IH.
    + rewrite E. now apply IH.
Qed.

Lemma update_or_create_keeps_codes (code0 code : string) (cat : Category)
    (ttl : string) (auth : option string) (copies : Z) :
  preserves (fun d => find_book code0 d <> None)
            (update_or_create code cat ttl auth copies).
Proof.
  intros d Hd. unfold update_or_create.
  destruct (find_book code d) as [b|].
  - destruct (Book_fits _); [|assumption].
    unfold find_book in *. simpl. now apply find_replace_book_some.
  - destruct (Book_fits _); [|assumption].
    unfold find_book in *. simpl.
    destruct (find _ (books d)) as [b0|] eqn:Hf; [|now elim Hd].
    now rewrite (find_app_old _ _ _ _ Hf).
Qed.

(** A code the catalog holds is still held after the remaining files have
    been processed, however that ends. *)
Lemma process_files_keeps_codes (dry_run : bool) (csv_files : list File)
    (total : Counts) (code : string) (db : Catalog) :
  find_book code db <> None ->
  find_book code (catalog_of (process_files dry_run csv_files total db))
  <> None.
Proof.
  apply (process_files_preserves (fun d => find_book code d <> None)).
  - intros nm.
    apply (get_or_create_preserves_books
             (fun bs => find (fun x => String.eqb (book_code x) code) bs
                        <> None)).
  - intros _ code' cat ttl auth copies. apply update_or_create_keeps_codes.
Qed.

(* ===================================================================== *)
(** ** A dry run followed by an import *)
(* ===================================================================== *)

Lemma with_categories_same (db : Catalog) :
  with_categories (categories db) db = db.
Proof. now destruct db. Qed.

Lemma ensure_extends (nm : string) (cs : list Category) :
  exists ext, ensure nm cs = cs ++ ext.
Proof.
  unfold ensure. destruct (find _ cs).
  - exists []. now rewrite app_nil_r.
  - now eexists.
Qed.

Lemma ensure_all_extends (names : list string) (cs : list Category) :
  exists ext, ensure_all names cs = cs ++ ext.
Proof.
  revert cs. induction names as [|nm names IH]; intros cs; simpl.
  - exists []. now rewrite app_nil_r.
  - destruct (ensure_extends nm cs) as [e1 ->].
    destruct (IH (cs ++ e1)) as [e2 ->].
    exists (e1 ++ e2). now rewrite app_assoc.
Qed.

(** A category that is in the table is found as the same row after more
    names have been ensured. *)
Lemma find_ensure_all (nm : string) (names : list string)
    (cs : list Category) (cat : Category) :
  find (fun c => String.eqb (name c) nm) cs = Some cat ->
  find (fun c => String.eqb (name c) nm) (ensure_all names cs) = Some cat.
Proof.
  intros H. destruct (ensure_all_extends names cs) as [ext ->].
  now apply find_app_old.
Qed.

(** [get_or_create], by what it does to the Category table. *)
Lemma get_or_create_ensure (nm : string) (db db1 : Catalog) (cat : Category)
    (created : bool) (o : list Event) :
  get_or_create nm db = (Returned (cat, created), db1, o) ->
  db1 = with_categories (ensure nm (categories db)) db
  /\ find (fun c => String.eqb (name c) nm) (categories db1) = Some cat
  /\ o = [].
Proof.
  intros H.
  destruct (get_or_create_returned _ _ _ _ _ _ H) as (Hf & _ & Ho & _).
  split; [|now split].
  revert H. unfold get_or_create, ensure, find_category, with_categories.
  destruct (find _ (categories db)).
  - intros H. inversion H; subst. now destruct db1.
  - destruct (Category_fits _); [|discriminate].
    intros H. now inversion H.
Qed.

Lemma get_or_create_raised (nm : string) (db db1 : Catalog) (e : exn)
    (o : list Event) :
  get_or_create nm db = (Raised e, db1, o) ->
  db1 = db /\ o = [] /\ uncaught e = true.
Proof.
  unfold get_or_create. destruct (find_category nm db); [discriminate|].
  destruct (Category_fits _); [discriminate|].
  intros H. now inversion H.
Qed.

Lemma get_or_create_present (nm : string) (db : Catalog) (cat : Category) :
  find_category nm db = Some cat ->
  get_or_create nm db = (Returned (cat, false), db, []).
Proof. unfold get_or_create. now intros ->. Qed.

(** [update_or_create] reads and writes the Book table only. *)
Lemma update_or_create_with_categories (code : string) (cat : Category)
    (ttl : string) (auth : option string) (copies : Z) (cs : list Category)
    (db : Catalog) :
  update_or_create code cat ttl auth copies (with_categories cs db)
  = (result_of (update_or_create code cat ttl auth copies db),
     with_categories cs
       (catalog_of (update_or_create code cat ttl auth copies db)),
     output_of (update_or_create code cat ttl auth copies db)).
Proof.
  unfold update_or_create, find_book, with_categories. simpl.
  destruct (find _ (books db)); destruct (Book_fits _); reflexivity.
Qed.

(** A row that cannot be read raises, whatever the mode and the catalog. *)
Lemma process_row_unread (dry_run : bool) (row : Row) (c : Counts)
    (db : Catalog) (e : exn) :
  read_row row = Raised e ->
  process_row dry_run row c db = (Raised e, db, []).
Proof. apply process_row_KeyError. Qed.

(** An import of a row with a title that raises ends the run. *)
Lemma import_row_raised (row : Row) (l : Locals) (c : Counts)
    (db db1 : Catalog) (e : exn) (o : list Event) :
  read_row row = Returned l ->
  row_title l <> "" ->
  process_row false row c db = (Raised e, db1, o) ->
  uncaught e = true.
Proof.
  intros Hl Ht. unfold process_row, bind, lift. rewrite Hl.
  destruct (String.eqb (row_title l) "") eqn:E;
    [now apply String.eqb_eq in E|].
  destruct (get_or_create (row_category_name l) db)
    as [[[[cat cr]|e0] d1] og] eqn:Hg.
  - simpl. unfold apply_row, bind, update_or_create.
    destruct (find_book _ d1); destruct (Book_fits _); simpl;
      intros H; now inversion H.
  - apply get_or_create_raised in Hg as (_ & _ & Hg).
    intros H. now inversion H; subst.
Qed.

(** The import of a row with a title, started with a Category table that
    already holds the category of the row and, after it, those of [ns]: the
    same Book is written, the same is counted and written to the output, and
    the table is not touched. *)
Lemma import_row_ahead (row : Row) (l : Locals) (c c1 : Counts)
    (dA d2 : Catalog) (o1 : list Event) (ns : list string) :
  read_row row = Returned l ->
  row_title l <> "" ->
  process_row false row c dA = (Returned c1, d2, o1) ->
  categories d2 = ensure (row_category_name l) (categories dA)
  /\ process_row false row c
       (with_categories
          (ensure_all ns (ensure (row_category_name l) (categories dA))) dA)
     = (Returned c1, with_categories (ensure_all ns (categories d2)) d2, o1).
Proof.
  intros Hl Ht. unfold process_row, bind, lift. rewrite Hl.
  destruct (String.eqb (row_title l) "") eqn:E;
    [now apply String.eqb_eq in E|].
  destruct (get_or_create (row_category_name l) dA)
    as [[[[cat cr]|e0] d1] og] eqn:Hg; [|discriminate].
  destruct (get_or_create_ensure _ _ _ _ _ _ Hg) as (Hd1 & Hfind & ->).
  set (cB := ensure_all ns (ensure (row_category_name l) (categories dA))).
  assert (HgB : get_or_create (row_category_name l) (with_categories cB dA)
                = (Returned (cat, false), with_categories cB dA, [])).
  { apply get_or_create_present. unfold find_category. simpl.
    apply find_ensure_all. now rewrite Hd1 in Hfind. }
  rewrite HgB. simpl. unfold apply_row, bind.
  assert (HdB : with_categories cB dA = with_categories cB d1)
    by now rewrite Hd1.
  rewrite HdB, update_or_create_with_categories.
  destruct (update_or_create (row_book_code l) cat (row_title l)
              (row_authors l) (parse_copies (row_number_of_copies l)) d1)
    as [[[[obj created]|e0] d2'] ou] eqn:Hu; [|discriminate].
  destruct (update_or_create_returned _ _ _ _ _ _ _ _ _ _ Hu)
    as (_ & _ & _ & _ & _ & _ & _ & Hcs).
  assert (Hcats : categories d2'
                  = ensure (row_category_name l) (categories dA))
    by now rewrite Hcs, Hd1.
  unfold result_of, catalog_of, output_of. simpl.
  destruct created; simpl; intros H; inversion H; subst c1 d2 o1;
    (split; [exact Hcats|]); unfold cB; now rewrite Hcats.
Qed.

(** The rows of a file, imported from a Category table that is ahead by the
    categories [names'] of the rows to come: the rows behave as from the
    table that is not ahead, and the table ends ahead by what is left of
    [names'] after the rows. *)
Lemma import_rows_ahead (rows : list Row) :
  forall (c : Counts) (dA dA' : Catalog) (rA : outcome Counts)
         (o : list Event),
    process_rows false rows c dA = (rA, dA', o) ->
    goes_on rA = true ->
    forall names' rest fut,
      names' ++ rest = category_names rows ++ fut ->
      exists names'' rest'',
        names'' ++ rest'' = fut
        /\ process_rows false rows c
             (with_categories (ensure_all names' (categories dA)) dA)
           = (rA, with_categories (ensure_all names'' (categories dA')) dA',
              o).
Proof.
  induction rows as [|row rows IH]; intros c dA dA' rA o Hrun Hgo names' rest
                                            fut Hnames.
  - simpl in *. inversion Hrun; subst. now exists names', rest.
  - rewrite process_rows_cons in Hrun. rewrite process_rows_cons.
    simpl in Hnames.
    destruct (read_row row) as [l|e] eqn:Hl.
    + destruct (String.eqb (row_title l) "") eqn:E.
      * apply String.eqb_eq in E.
        rewrite (process_row_no_title _ _ _ _ _ Hl E) in Hrun.
        rewrite (process_row_no_title _ _ _ _ _ Hl E).
        destruct (process_rows false rows _ dA) as [[r2 d2] o2] eqn:H2.
        unfold after_output, result_of, catalog_of, output_of in Hrun.
        simpl in Hrun. inversion Hrun; subst r2 d2 o. clear Hrun.
        destruct (IH _ _ _ _ _ H2 Hgo names' rest fut Hnames)
          as (names'' & rest'' & Hfut & HB).
        exists names'', rest''. split; [assumption|]. now rewrite HB.
      * assert (Ht : row_title l <> "") by now apply String.eqb_neq.
        destruct (process_row false row c dA) as [[[c1|e] d1] o1] eqn:Hrow.
        -- destruct (process_rows false rows c1 d1) as [[r2 d2] o2] eqn:H2.
           unfold after_output, result_of, catalog_of, output_of in Hrun.
           simpl in Hrun. inversion Hrun; subst r2 d2 o. clear Hrun.
           destruct names' as [|nm ns].
           ++ simpl in *. rewrite with_categories_same, Hrow.
              destruct (IH _ _ _ _ _ H2 Hgo [] (category_names rows ++ fut)
                           fut eq_refl)
                as (names'' & rest'' & Hfut & HB).
              simpl in HB. rewrite with_categories_same in HB.
              exists names'', rest''. split; [assumption|]. now rewrite HB.
           ++ simpl in Hnames. inversion Hnames as [[Hnm Hns]]. subst nm.
              destruct (import_row_ahead row l c c1 dA d1 o1 ns Hl Ht Hrow)
                as [_ HrowB].
              simpl. rewrite HrowB.
              destruct (IH _ _ _ _ _ H2 Hgo ns rest fut Hns)
                as (names'' & rest'' & Hfut & HB).
              exists names'', rest''. split; [assumption|]. now rewrite HB.
        -- inversion Hrun; subst rA dA' o. simpl in Hgo.
           rewrite (import_row_raised _ _ _ _ _ _ _ Hl Ht Hrow) in Hgo.
           discriminate.
    + rewrite (process_row_unread _ _ _ _ _ Hl) in Hrun.
      rewrite (process_row_unread _ _ _ _ _ Hl).
      inversion Hrun; subst rA dA' o. now exists names', rest.
Qed.

Lemma read_file_ahead (f : File) (dA d1 : Catalog) (r1 : outcome Counts)
    (o1 : list Event) :
  read_file false f dA = (r1, d1, o1) ->
  goes_on r1 = true ->
  forall names' rest fut,
    names' ++ rest = file_category_names f ++ fut ->
    exists names'' rest'',
      names'' ++ rest'' = fut
      /\ read_file false f
           (with_categories (ensure_all names' (categories dA)) dA)
         = (r1, with_categories (ensure_all names'' (categories d1)) d1, o1).
Proof.
  unfold file_category_names. rewrite read_file_rows_of.
  destruct (process_rows false (rows_of f) no_counts dA) as [[rA dA'] oA]
    eqn:HA.
  intros H Hgo names' rest fut Hnames.
  assert (HgoA : goes_on rA = true).
  { destruct rA as [c|e]; [reflexivity|]. now inversion H; subst. }
  destruct (import_rows_ahead _ _ _ _ _ _ HA HgoA names' rest fut Hnames)
    as (names'' & rest'' & Hfut & HB).
  exists names'', rest''. split; [assumption|].
  rewrite read_file_rows_of, HB.
  destruct rA as [c|e].
  - destruct (opened f) as [e|records [e|]]; now inversion H; subst.
  - now inversion H; subst.
Qed.

(** The same for the loop over the files, when it returns. *)
Lemma import_files_ahead (csv_files : list File) :
  forall (total total' : Counts) (dA dA' : Catalog) (o : list Event),
    process_files false csv_files total dA = (Returned total', dA', o) ->
    forall names' rest fut,
      names' ++ rest = flat_map file_category_names csv_files ++ fut ->
      exists names'' rest'',
        names'' ++ rest'' = fut
        /\ process_files false csv_files total
             (with_categories (ensure_all names' (categories dA)) dA)
           = (Returned total',
              with_categories (ensure_all names'' (categories dA')) dA', o).
Proof.
  induction csv_files as [|f fs IH];
    intros total total' dA dA' o Hrun names' rest fut Hnames.
  - simpl in *. inversion Hrun; subst. now exists names', rest.
  - rewrite process_files_cons in Hrun. rewrite process_files_cons.
    simpl in Hnames. rewrite <- app_assoc in Hnames.
    destruct (read_file false f dA) as [[r1 d1] o1] eqn:H1.
    assert (Hgo : goes_on r1 = true).
    { destruct r1 as [c|[]]; try reflexivity; discriminate. }
    destruct (read_file_ahead f dA d1 r1 o1 H1 Hgo names' rest _ Hnames)
      as (names1 & rest1 & Hnames1 & HB1).
    rewrite HB1.
    destruct r1 as [c|[]]; try discriminate;
      match type of Hrun with
      | after_output _ (process_files false fs ?t d1) = _ =>
          destruct (process_files false fs t d1) as [[r2 d2] o2] eqn:H2
      end;
      unfold after_output, result_of, catalog_of, output_of in Hrun;
      simpl in Hrun; inversion Hrun; subst r2 d2 o; clear Hrun;
      destruct (IH _ _ _ _ _ H2 names1 rest1 fut Hnames1)
        as (names'' & rest'' & Hfut & HB);
      exists names'', rest''; (split; [assumption|]); now rewrite HB.
Qed.

(** What the dry run of a row with a title does to the catalog: it ensures
    the category of the row, unless that very step raises; whatever it
    raises ends the run. *)
Lemma dry_run_row_effect (row : Row) (l : Locals) (c : Counts) (db : Catalog) :
  read_row row = Returned l ->
  row_title l <> "" ->
  let r := process_row true row c db in
  (forall e, result_of r = Raised e -> uncaught e = true)
  /\ (catalog_of r
      = with_categories (ensure (row_category_name l) (categories db)) db
      \/ (catalog_of r = db /\ exists e, result_of r = Raised e)).
Proof.
  intros Hl Ht. cbv zeta. unfold process_row, bind, lift. rewrite Hl.
  destruct (String.eqb (row_title l) "") eqn:E;
    [now apply String.eqb_eq in E|].
  destruct (get_or_create (row_category_name l) db)
    as [[[[cat cr]|e0] d1] og] eqn:Hg.
  - destruct (get_or_create_ensure _ _ _ _ _ _ Hg) as (Hd1 & _ & _).
    simpl. unfold dry_run_row, bind, get, related_category, write, ret.
    destruct (find_book (row_book_code l) d1) as [existing|].
    + destruct (find_category_by_id (category existing) d1) as [ec|].
      * destruct (changes_of _ _ _ _ _ _); unfold result_of, catalog_of;
          simpl; (split; [discriminate|now left]).
      * unfold result_of, catalog_of. simpl. split; [|now left].
        intros e H. now inversion H.
    + unfold result_of, catalog_of. simpl. split; [discriminate|now left].
  - apply get_or_create_raised in Hg as (-> & _ & Hu).
    unfold result_of, catalog_of. simpl. split.
    + intros e H. now inversion H; subst.
    + right. split; [reflexivity|now eexists].
Qed.

(** A dry run over the rows of a file leaves the Book table alone and
    ensures, in order, the categories of the rows it gets through: all of
    them when the loop goes on after the file. *)
Lemma dry_run_rows_effect (rows : list Row) :
  forall (c : Counts) (db : Catalog),
    exists names' rest,
      names' ++ rest = category_names rows
      /\ catalog_of (process_rows true rows c db)
         = with_categories (ensure_all names' (categories db)) db
      /\ (goes_on (result_of (process_rows true rows c db)) = true ->
          rest = []).
Proof.
  induction rows as [|row rows IH]; intros c db.
  - exists [], []. simpl. unfold catalog_of. simpl.
    now rewrite with_categories_same.
  - rewrite process_rows_cons. simpl.
    destruct (read_row row) as [l|e] eqn:Hl.
    + destruct (String.eqb (row_title l) "") eqn:E.
      * apply String.eqb_eq in E.
        rewrite (process_row_no_title _ _ _ _ _ Hl E).
        destruct (IH (count_skipped_row (row_category_name l)
                        (row_book_code l) c) db)
          as (names' & rest & Hn & Hc & Hgo).
        exists names', rest. now repeat split.
      * assert (Ht : row_title l <> "") by now apply String.eqb_neq.
        destruct (dry_run_row_effect row l c db Hl Ht) as [Hraise Hcat].
        cbv zeta in Hraise, Hcat.
        destruct (process_row true row c db) as [[[c1|e] d1] o1].
        -- unfold catalog_of, result_of in Hcat. simpl in Hcat.
           destruct Hcat as [->|[_ [e He]]]; [|discriminate].
           destruct (IH c1 (with_categories
                              (ensure (row_category_name l) (categories db))
                              db))
             as (names' & rest & Hn & Hc & Hgo).
           exists (row_category_name l :: names'), rest.
           split; [simpl; now rewrite Hn|].
           split; [|exact Hgo].
           unfold after_output, catalog_of in *. simpl in *. exact Hc.
        -- unfold catalog_of, result_of in *. simpl in *.
           specialize (Hraise e eq_refl).
           destruct Hcat as [->|[-> _]].
           ++ exists [row_category_name l], (category_names rows).
              repeat split. now rewrite Hraise.
           ++ exists [], (row_category_name l :: category_names rows).
              simpl. rewrite with_categories_same.
              repeat split. now rewrite Hraise.
    + rewrite (process_row_unread _ _ _ _ _ Hl).
      exists [], []. unfold catalog_of. simpl.
      now rewrite with_categories_same.
Qed.

Lemma ensure_all_app (n1 n2 : list string) (cs : list Category) :
  ensure_all (n1 ++ n2) cs = ensure_all n2 (ensure_all n1 cs).
Proof. apply fold_left_app. Qed.

(** The same for the loop over the files. *)
Lemma dry_run_files_effect (csv_files : list File) :
  forall (total : Counts) (db : Catalog),
    exists names' rest,
      names' ++ rest = flat_map file_category_names csv_files
      /\ catalog_of (process_files true csv_files total db)
         = with_categories (ensure_all names' (categories db)) db.
Proof.
  induction csv_files as [|f fs IH]; intros total db.
  - exists [], []. unfold catalog_of. simpl.
    now rewrite with_categories_same.
  - rewrite process_files_cons. simpl.
    assert (Hfile : exists names1 rest1,
               names1 ++ rest1 = file_category_names f
               /\ catalog_of (read_file true f db)
                  = with_categories (ensure_all names1 (categories db)) db
               /\ (goes_on (result_of (read_file true f db)) = true ->
                   rest1 = [])).
    { unfold file_category_names. rewrite read_file_rows_of.
      destruct (dry_run_rows_effect (rows_of f) no_counts db)
        as (names1 & rest1 & Hn1 & Hc1 & Hgo1).
      exists names1, rest1. split; [assumption|].
      destruct (process_rows true (rows_of f) no_counts db)
        as [[[c|e] d1] o1].
      - split.
        + now destruct (opened f) as [e|records [e|]].
        + intros _. now apply Hgo1.
      - now split. }
    destruct Hfile as (names1 & rest1 & Hn1 & Hc1 & Hgo1).
    destruct (read_file true f db) as [[r1 d1] o1].
    unfold catalog_of, result_of in Hc1, Hgo1. simpl in Hc1, Hgo1.
    assert (Hnext : forall t,
               goes_on r1 = true ->
               exists names' rest,
                 names' ++ rest
                 = file_category_names f ++ flat_map file_category_names fs
                 /\ catalog_of (process_files true fs t d1)
                    = with_categories (ensure_all names' (categories db)) db).
    { intros t Hgo. specialize (Hgo1 Hgo). subst rest1.
      rewrite app_nil_r in Hn1. subst names1.
      destruct (IH t d1) as (names2 & rest2 & Hn2 & Hc2).
      exists (file_category_names f ++ names2), rest2.
      split; [now rewrite <- app_assoc, Hn2|].
      rewrite Hc2, Hc1, ensure_all_app. reflexivity. }
    destruct r1 as [c|[]];
      try (match goal with
           | |- context [process_files true fs ?t d1] =>
               destruct (Hnext t eq_refl) as (names' & rest & Hn & Hc)
           end;
           exists names', rest; split; [exact Hn|];
           unfold after_output, catalog_of in *; simpl in *; exact Hc);
      exists names1, (rest1 ++ flat_map file_category_names fs);
      (split; [now rewrite app_assoc, Hn1|]);
      unfold catalog_of; simpl; exact Hc1.
Qed.

Lemma dry_run_then_import_loop (fs : list File) (db : Catalog) :
  let import := bind (process_files false fs no_counts)
                     (fun total => write (FinalSummary total)) in
  let preview := bind (process_files true fs no_counts)
                      (fun total => write (FinalSummary total)) in
  result_of (import db) = Returned tt ->
  import (catalog_of (preview db)) = import db.
Proof.
  cbv zeta. intros Hret.
  assert (Hprev : catalog_of
                    (bind (process_files true fs no_counts)
                          (fun total => write (FinalSummary total)) db)
                  = catalog_of (process_files true fs no_counts db)).
  { unfold bind, write.
    now destruct (process_files true fs no_counts db) as [[[t|e] d] o]. }
  rewrite Hprev.
  destruct (dry_run_files_effect fs no_counts db)
    as (names' & rest & Hnames & ->).
  unfold bind in Hret |- *.
  destruct (process_files false fs no_counts db) as [[[t|e] dA'] o] eqn:HA;
    [|discriminate].
  rewrite <- (app_nil_r (flat_map file_category_names fs)) in Hnames.
  destruct (import_files_ahead fs _ _ _ _ _ HA names' rest [] Hnames)
    as (names'' & rest'' & Hnil & HB).
  apply app_eq_nil in Hnil as [-> _]. simpl in HB.
  rewrite with_categories_same in HB. now rewrite HB.
Qed.

(** The second half of C2, where it holds: when the import alone returns,
    the import that follows a dry run of the same files counts and writes
    the same and leaves the same catalog. *)
Lemma dry_run_then_import (folder : Folder) (csv_files : list File)
    (db : Catalog) :
  result_of (handle false folder csv_files db) = Returned tt ->
  handle false folder csv_files
         (catalog_of (handle true folder csv_files db))
  = handle false folder csv_files db.
Proof.
  unfold handle.
  destruct folder as [|p|p e|p folder_csvs].
  - destruct csv_files as [|f fs]; [reflexivity|].
    apply dry_run_then_import_loop.
  - reflexivity.
  - reflexivity.
  - destruct (csv_files ++ folder_csvs) as [|f fs]; [reflexivity|].
    apply dry_run_then_import_loop.
Qed.

(* ===================================================================== *)
(** ** The rows of a reader *)
(* ===================================================================== *)

Lemma getitem_raised (row : Row) (key : string) (e : exn) :
  getitem row key = Raised e -> e = KeyError key.
Proof.
  induction row as [|[k v] row IH]; simpl.
  - intros H. now inversion H.
  - destruct (String.eqb k key); [discriminate|assumption].
Qed.

(** What reading a row can raise. *)
Lemma read_row_raised (row : Row) (e : exn) :
  read_row row = Raised e ->
  (exists key,
     e = KeyError key
     /\ In key ["CATEGORY"; "BOOK CODE"; "BOOK TITLE"; "BOOK AUTHOR";
                "NO. OF COPIES"]
     /\ getitem row key = Raised (KeyError key))
  \/ (exists key,
        e = AttributeError
        /\ In key ["CATEGORY"; "BOOK CODE"; "BOOK TITLE"; "NO. OF COPIES"]
        /\ getitem row key = Returned None).
Proof.
  unfold read_row.
  destruct (getitem row "CATEGORY") as [[s1|]|e1] eqn:H1; simpl.
  2: { intros H. inversion H. right. exists "CATEGORY". simpl. tauto. }
  2: { intros H. inversion H; subst e1.
       pose proof (getitem_raised _ _ _ H1) as ->.
       left. exists "CATEGORY". simpl. tauto. }
  destruct (getitem row "BOOK CODE") as [[s2|]|e2] eqn:H2; simpl.
  2: { intros H. inversion H. right. exists "BOOK CODE". simpl. tauto. }
  2: { intros H. inversion H; subst e2.
       pose proof (getitem_raised _ _ _ H2) as ->.
       left. exists "BOOK CODE". simpl. tauto. }
  destruct (getitem row "BOOK TITLE") as [[s3|]|e3] eqn:H3; simpl.
  2: { intros H. inversion H. right. exists "BOOK TITLE". simpl. tauto. }
  2: { intros H. inversion H; subst e3.
       pose proof (getitem_raised _ _ _ H3) as ->.
       left. exists "BOOK TITLE". simpl. tauto. }
  destruct (getitem row "BOOK AUTHOR") as [a|e4] eqn:H4; simpl.
  2: { intros H. inversion H; subst e4.
       pose proof (getitem_raised _ _ _ H4) as ->.
       left. exists "BOOK AUTHOR". simpl. tauto. }
  destruct (getitem row "NO. OF COPIES") as [[s5|]|e5] eqn:H5; simpl.
  - discriminate.
  - intros H. inversion H. right. exists "NO. OF COPIES". simpl. tauto.
  - intros H. inversion H; subst e5.
    pose proof (getitem_raised _ _ _ H5) as ->.
    left. exists "NO. OF COPIES". simpl. tauto.
Qed.

Lemma getitem_dict_set (key key' : string) (v : option string) (d : Row) :
  getitem (dict_set key v d) key'
  = if String.eqb key key' then Returned v else getitem d key'.
Proof.
  induction d as [|[k v'] d IH]; simpl; [reflexivity|].
  destruct (String.eqb_spec k key) as [->|Hk]; simpl.
  - now destruct (String.eqb key key').
  - rewrite IH.
    destruct (String.eqb_spec k key') as [->|Hk']; [|reflexivity].
    destruct (String.eqb_spec key key') as [->|]; [now elim Hk|reflexivity].
Qed.

(** The keys of a row are the names of the header. *)
Lemma zip_dict_keys (fieldnames : list string) :
  forall (record : list string) (d : Row) (key : string),
    (exists v, getitem (zip_dict fieldnames record d) key = Returned v)
    <-> In key fieldnames \/ exists v, getitem d key = Returned v.
Proof.
  induction fieldnames as [|k fieldnames IH]; intros record d key; simpl.
  - tauto.
  - assert (Hset : forall v0,
               (exists v, getitem (dict_set k v0 d) key = Returned v)
               <-> k = key \/ exists v, getitem d key = Returned v).
    { intros v0. rewrite getitem_dict_set.
      destruct (String.eqb_spec k key) as [->|Hk].
      - split; [now left|]. intros _. now exists v0.
      - split; [now right|]. now intros [?|?]. }
    destruct record as [|cell record]; rewrite IH, Hset; tauto.
Qed.

Lemma dict_row_keys (fieldnames record : list string) (key : string) :
  (exists v, getitem (dict_row fieldnames record) key = Returned v)
  <-> In key fieldnames.
Proof.
  unfold dict_row. rewrite zip_dict_keys. simpl.
  split; [|now left]. intros [H|[v H]]; [assumption|discriminate].
Qed.

Lemma dict_row_KeyError (fieldnames record : list string) (key : string) :
  getitem (dict_row fieldnames record) key = Raised (KeyError key)
  <-> ~ In key fieldnames.
Proof.
  rewrite <- dict_row_keys. split.
  - intros H [v Hv]. rewrite H in Hv. discriminate.
  - intros H.
    destruct (getitem (dict_row fieldnames record) key) as [v|e] eqn:Hg.
    + elim H. now exists v.
    + now rewrite (getitem_raised _ _ _ Hg).
Qed.

(** The cells of a record that is at least as long as the header are all
    there. *)
Lemma getitem_in (d : Row) (key : string) (v : option string) :
  getitem d key = Returned v -> In v (map snd d).
Proof.
  induction d as [|[k v'] d IH]; simpl; [discriminate|].
  destruct (String.eqb k key).
  - intros H. inversion H. now left.
  - intros H. right. now apply IH.
Qed.

Lemma dict_set_values (key : string) (v : option string) (d : Row)
    (x : option string) :
  In x (map snd (dict_set key v d)) -> x = v \/ In x (map snd d).
Proof.
  induction d as [|[k v'] d IH]; simpl.
  - intros [<-|[]]. now left.
  - destruct (String.eqb k key); simpl.
    + intros [<-|H]; [now left|now right; right].
    + intros [<-|H]; [now right; left|].
      destruct (IH H) as [->|H']; [now left|now right; right].
Qed.

Lemma zip_dict_values (fieldnames : list string) :
  forall (record : list string) (d : Row),
    List.length fieldnames <= List.length record ->
    ~ In None (map snd d) ->
    ~ In None (map snd (zip_dict fieldnames record d)).
Proof.
  induction fieldnames as [|k fieldnames IH]; intros record d Hlen Hd; simpl;
    [assumption|].
  destruct record as [|cell record]; simpl in Hlen; [lia|].
  apply IH; [lia|].
  intros H. apply dict_set_values in H as [H|H]; [discriminate|now apply Hd].
Qed.

Lemma dict_row_cell (fieldnames record : list string) (key : string) :
  List.length fieldnames <= List.length record ->
  In key fieldnames ->
  exists cell, getitem (dict_row fieldnames record) key
               = Returned (Some cell).
Proof.
  intros Hlen Hin. apply (dict_row_keys fieldnames record) in Hin as [v Hv].
  destruct v as [cell|]; [now exists cell|].
  apply getitem_in in Hv. elim (zip_dict_values fieldnames record []);
    try assumption. now simpl.
Qed.

(** A row that has been read has the five expected columns. *)
Lemma read_row_returned_keys (row : Row) (l : Locals) (key : string) :
  read_row row = Returned l ->
  In key header ->
  exists v, getitem row key = Returned v.
Proof.
  unfold read_row. intros H Hin.
  destruct (getitem row "CATEGORY") as [v1|] eqn:H1; [|discriminate].
  destruct v1 as [s1|]; [simpl in H|discriminate].
  destruct (getitem row "BOOK CODE") as [v2|] eqn:H2; [|discriminate].
  destruct v2 as [s2|]; [simpl in H|discriminate].
  destruct (getitem row "BOOK TITLE") as [v3|] eqn:H3; [|discriminate].
  destruct v3 as [s3|]; [simpl in H|discriminate].
  destruct (getitem row "BOOK AUTHOR") as [v4|] eqn:H4; [|discriminate].
  simpl in H.
  destruct (getitem row "NO. OF COPIES") as [v5|] eqn:H5; [|discriminate].
  simpl in Hin.
  destruct Hin as [<-|[<-|[<-|[<-|[<-|[]]]]]]; eexists; eassumption.
Qed.

(** A row raises an exception [handle] catches only while it is read,
    before anything is written. *)
Lemma process_row_caught (dry_run : bool) (row : Row) (c : Counts)
    (db db1 : Catalog) (e : exn) (o : list Event) :
  process_row dry_run row c db = (Raised e, db1, o) ->
  uncaught e = false ->
  read_row row = Raised e /\ db1 = db /\ o = [].
Proof.
  intros Hrun He.
  destruct (read_row row) as [l|e0] eqn:Hl.
  - exfalso.
    destruct (String.eqb_spec (row_title l) "") as [Ht|Ht].
    + rewrite (process_row_no_title _ _ _ _ _ Hl Ht) in Hrun. discriminate.
    + destruct dry_run.
      * destruct (dry_run_row_effect row l c db Hl Ht) as [Hraise _].
        cbv zeta in Hraise. rewrite Hrun in Hraise.
        rewrite (Hraise e eq_refl) in He. discriminate.
      * rewrite (import_row_raised _ _ _ _ _ _ _ Hl Ht Hrun) in He.
        discriminate.
  - rewrite (process_row_unread _ _ _ _ _ Hl) in Hrun.
    now inversion Hrun.
Qed.

(** The rows of a reader whose header has the five columns never raise
    [KeyError]. *)
Lemma full_header_no_KeyError (dry_run : bool) (fieldnames : list string)
    (records : list (list string)) :
  (forall key, In key header -> In key fieldnames) ->
  forall (c : Counts) (db : Catalog) (key : string),
    result_of (process_rows dry_run (map (dict_row fieldnames) records) c db)
    <> Raised (KeyError key).
Proof.
  intros Hfull. induction records as [|record records IH]; intros c db key.
  - discriminate.
  - simpl map. rewrite process_rows_cons.
    destruct (process_row dry_run (dict_row fieldnames record) c db)
      as [[[c1|e] d1] o1] eqn:Hrow.
    + unfold after_output, result_of. simpl. apply IH.
    + unfold result_of. simpl. intros H. inversion H; subst e.
      apply process_row_caught in Hrow as (Hread & _ & _); [|reflexivity].
      apply read_row_raised in Hread
        as [(k & Hk & Hin & Hget)|(k & Hk & _)]; [|discriminate].
      inversion Hk; subst k.
      apply dict_row_KeyError in Hget. apply Hget. now apply Hfull.
Qed.

(** [KeyError] comes from the first row of a file, or from none. *)
Lemma read_file_KeyError (dry_run : bool) (f : File) (db db1 : Catalog)
    (key : string) (o1 : list Event) :
  read_file dry_run f db = (Raised (KeyError key), db1, o1) ->
  db1 = db /\ o1 = []
  /\ exists fieldnames records stop,
       opened f = Reads (fieldnames :: records) stop
       /\ In key header /\ ~ In key fieldnames.
Proof.
  destruct (opened f) as [e|records stop] eqn:Hf.
  - unfold read_file. rewrite Hf. now destruct e.
  - rewrite (read_file_reads _ _ _ _ _ Hf).
    destruct records as [|fieldnames records].
    { simpl. now destruct stop as [[]|]. }
    unfold DictReader.
    set (lines := filter _ records).
    destruct lines as [|record lines].
    { simpl. now destruct stop as [[]|]. }
    simpl map. rewrite process_rows_cons.
    destruct (process_row dry_run (dict_row fieldnames record) no_counts db)
      as [[[c1|e] d1] o] eqn:Hrow.
    + assert (Hfull : forall k, In k header -> In k fieldnames).
      { intros k Hk.
        destruct (read_row (dict_row fieldnames record)) as [l|e] eqn:Hl.
        - apply (dict_row_keys fieldnames record).
          now apply (read_row_returned_keys _ l).
        - rewrite (process_row_unread _ _ _ _ _ Hl) in Hrow. discriminate. }
      pose proof (full_header_no_KeyError dry_run fieldnames lines Hfull c1 d1
                    key) as Hno.
      destruct (process_rows dry_run (map (dict_row fieldnames) lines) c1 d1)
        as [[[c2|e] d2] o2]; unfold after_output, result_of in *; simpl in *.
      * now destruct stop as [[]|].
      * intros H. inversion H; subst e. now elim Hno.
    + intros H. inversion H; subst e d1 o.
      apply process_row_caught in Hrow as (Hread & -> & ->); [|reflexivity].
      split; [reflexivity|]. split; [reflexivity|].
      exists fieldnames, records, stop. split; [reflexivity|].
      apply read_row_raised in Hread
        as [(k & Hk & Hin & Hget)|(k & Hk & _)]; [|discriminate].
      inversion Hk; subst k. split; [exact Hin|].
      now apply dict_row_KeyError in Hget.
Qed.

(* ===================================================================== *)
(** ** A file whose header lacks a column *)
(* ===================================================================== *)

Lemma find_filter {A : Type} (p : A -> bool) (l : list A) (x : A) :
  find p l = Some x -> exists l', filter p l = x :: l'.
Proof.
  induction l as [|a l IH]; simpl; [discriminate|].
  destruct (p a) eqn:E.
  - intros H. inversion H; subst. now eexists.
  - exact IH.
Qed.

(** The first row of a file whose header lacks a column, on a line that is
    not short: the lookup of the first missing column raises. *)
Lemma read_row_missing_column (fieldnames record : list string)
    (key : string) :
  List.length fieldnames <= List.length record ->
  missing_column fieldnames = Some key ->
  read_row (dict_row fieldnames record) = Raised (KeyError key).
Proof.
  intros Hlen.
  assert (Hcell : forall k,
             existsb (String.eqb k) fieldnames = true ->
             exists cell, getitem (dict_row fieldnames record) k
                          = Returned (Some cell)).
  { intros k E. apply dict_row_cell; [assumption|].
    apply existsb_exists in E as (x & Hx & Ex).
    apply String.eqb_eq in Ex. now subst. }
  assert (Hmiss : forall k,
             existsb (String.eqb k) fieldnames = false ->
             getitem (dict_row fieldnames record) k = Raised (KeyError k)).
  { intros k E. apply dict_row_KeyError. intros Hin.
    assert (E' : existsb (String.eqb k) fieldnames = true).
    { apply existsb_exists. exists k. split; [assumption|].
      apply String.eqb_refl. }
    congruence. }
  intros Hkey. unfold missing_column, header in Hkey. cbn [find] in Hkey.
  unfold read_row.
  destruct (existsb (String.eqb "CATEGORY") fieldnames) eqn:E1;
    cbn [negb] in Hkey.
  2: { inversion Hkey; subst. now rewrite (Hmiss _ E1). }
  destruct (Hcell _ E1) as [c1 ->]. cbn [obind strip].
  destruct (existsb (String.eqb "BOOK CODE") fieldnames) eqn:E2;
    cbn [negb] in Hkey.
  2: { inversion Hkey; subst. now rewrite (Hmiss _ E2). }
  destruct (Hcell _ E2) as [c2 ->]. cbn [obind strip].
  destruct (existsb (String.eqb "BOOK TITLE") fieldnames) eqn:E3;
    cbn [negb] in Hkey.
  2: { inversion Hkey; subst. now rewrite (Hmiss _ E3). }
  destruct (Hcell _ E3) as [c3 ->]. cbn [obind strip].
  destruct (existsb (String.eqb "BOOK AUTHOR") fieldnames) eqn:E4;
    cbn [negb] in Hkey.
  2: { inversion Hkey; subst. now rewrite (Hmiss _ E4). }
  destruct (Hcell _ E4) as [c4 ->]. cbn [obind strip].
  destruct (existsb (String.eqb "NO. OF COPIES") fieldnames) eqn:E5;
    cbn [negb] in Hkey.
  2: { inversion Hkey; subst. now rewrite (Hmiss _ E5). }
  discriminate.
Qed.

(** C10 (as amended).  A missing column stops a file at its first row.
    When the header of a file lacks one of the five columns and the first
    line after it is not shorter than the header, then in either mode the
    lookup of the first missing column raises [KeyError] before anything is
    written: the catalog is as it was and no row of the file has been
    applied or counted.  The message names the column and the file, no
    summary is written for the file, and the run goes on with the next file
    from the totals it had: the final summary counts nothing of the
    file. *)
Theorem missing_column_drops_the_file (dry_run : bool) (f : File)
    (fieldnames record : list string) (records : list (list string))
    (stop : option ReadError) (key : string) (rest : list File)
    (total : Counts) (db : Catalog) :
  opened f = Reads (fieldnames :: records) stop ->
  find (fun r => match r with [] => false | _ :: _ => true end) records
  = Some record ->
  List.length fieldnames <= List.length record ->
  missing_column fieldnames = Some key ->
  read_file dry_run f db = (Raised (KeyError key), db, [])
  /\ process_files dry_run (f :: rest) total db
     = after_output [ProcessingFile (path f); MissingColumn key (path f)]
         (process_files dry_run rest total db)
  /\ handle dry_run NoFolder (f :: rest) db
     = after_output [ProcessingFile (path f); MissingColumn key (path f)]
         (bind (process_files dry_run rest no_counts)
               (fun t => write (FinalSummary t)) db).
Proof.
  intros Hf Hfirst Hlen Hkey.
  assert (Hread : read_file dry_run f db = (Raised (KeyError key), db, [])).
  { rewrite (read_file_reads _ _ _ _ _ Hf). unfold DictReader.
    destruct (find_filter _ _ _ Hfirst) as [lines ->].
    simpl map. rewrite process_rows_cons.
    rewrite (process_row_unread _ _ _ _ _
               (read_row_missing_column _ _ _ Hlen Hkey)).
    reflexivity. }
  assert (Hloop : forall t,
             process_files dry_run (f :: rest) t db
             = after_output
                 [ProcessingFile (path f); MissingColumn key (path f)]
                 (process_files dry_run rest t db)).
  { intros t. now rewrite process_files_cons, Hread. }
  split; [exact Hread|]. split; [apply Hloop|].
  unfold handle. unfold bind at 1. rewrite Hloop. unfold bind.
  destruct (process_files dry_run rest no_counts db) as [[[t|e] d] o];
    reflexivity.
Qed.

Lemma missing_column_drops_the_file_witness :
  read_file false broken_file dune_catalog
  = (Raised (KeyError "NO. OF COPIES"), dune_catalog, [])
  /\ process_files false [broken_file; file "b.csv" [dune (Some "4")]]
                   no_counts dune_catalog
     = after_output
         [ProcessingFile "broken.csv";
          MissingColumn "NO. OF COPIES" "broken.csv"]
         (process_files false [file "b.csv" [dune (Some "4")]] no_counts
                        dune_catalog)
  /\ handle false NoFolder [broken_file; file "b.csv" [dune (Some "4")]]
            dune_catalog
     = after_output
         [ProcessingFile "broken.csv";
          MissingColumn "NO. OF COPIES" "broken.csv"]
         (bind (process_files false [file "b.csv" [dune (Some "4")]]
                              no_counts)
               (fun t => write (FinalSummary t)) dune_catalog).
Proof.
  apply (missing_column_drops_the_file false broken_file
           ["CATEGORY"; "BOOK CODE"; "BOOK TITLE"; "BOOK AUTHOR"]
           ["Fiction"; "F001"; "Dune"; "Herbert"]
           [["Fiction"; "F001"; "Dune"; "Herbert"];
            ["Fiction"; "F002"; "Emma"; "Austen"]]
           None "NO. OF COPIES");
    [reflexivity|reflexivity|simpl; lia|reflexivity].
Defined.

(** C10 (as stated) describes a file that stops at a missing column after
    some of its rows have been applied.  There is no such file: the rows of
    a reader all have the keys of its header, so whenever the rows of a
    file raise [KeyError], in either mode, the catalog is the one before
    the file and not one row message has been written. *)
Lemma missing_column_is_never_midway :
  ~ exists (dry_run : bool) (f : File) (db db1 : Catalog) (key : string)
           (o1 : list Event),
      read_file dry_run f db = (Raised (KeyError key), db1, o1)
      /\ (db1 <> db \/ o1 <> []).
Proof.
  intros (dry_run & f & db & db1 & key & o1 & Hread & Hdiff).
  apply read_file_KeyError in Hread as (-> & -> & _).
  now destruct Hdiff as [H|H]; apply H.
Qed.

Example broken_file_run :
  handle false NoFolder [broken_file; file "b.csv" [dune (Some "4")]]
         empty_catalog
  = (Returned tt, {| categories := [fiction]; books := [dune_book 4] |},
     [ProcessingFile "broken.csv";
      MissingColumn "NO. OF COPIES" "broken.csv";
      ProcessingFile "b.csv"; AddedNewBook "F001 (Dune)";
      FileSummary "b.csv" (count_added no_counts);
      FinalSummary (count_added no_counts)]).
Proof. reflexivity. Qed.

(* ===================================================================== *)
(** ** The reader and the files, on examples *)
(* ===================================================================== *)

(** Empty records are skipped; a short record leaves [None] under the names
    it does not reach; the cells a long record has left are not looked up;
    a name that occurs twice in the header keeps its place and takes the
    later cell. *)
Example DictReader_examples :
  DictReader [] = []
  /\ DictReader [header] = []
  /\ DictReader [header; []; record (dune (Some "3")); []]
     = [dune (Some "3")]
  /\ DictReader [header; ["Fiction"; "F001"; "Dune"; "Herbert"]]
     = [dune None]
  /\ DictReader [header; ["Fiction"; "F001"]]
     = [csv_row (Some "Fiction") (Some "F001") None None None]
  /\ DictReader [header; ["Fiction"; "F001"; "Dune"; "Herbert"; "3"; "x"]]
     = [dune (Some "3")]
  /\ DictReader [["A"; "B"; "A"]; ["1"; "2"; "3"]; ["1"; "2"]]
     = [[("A", Some "3"); ("B", Some "2")];
        [("A", None); ("B", Some "2")]].
Proof. repeat split; reflexivity. Qed.

(** [int] reads a literal of 4300 digits and rejects one of 4301. *)
Example int_digit_limit :
  Py.int (Nat.iter 4300 (String "1") "") <> None
  /\ Py.int (Nat.iter 4301 (String "1") "") = None
  /\ Py.int (String "-" (Nat.iter 4301 (String "1") "")) = None.
Proof. vm_compute. repeat split. discriminate. Qed.

(** A path that is a directory ends the run when it is opened; a file whose
    bytes stop being UTF-8 ends the run after the rows before them have been
    imported; a file that is not there does not. *)
Example unreadable_files :
  handle false NoFolder
         [missing_file "c.csv"; directory_file "sub.csv";
          file "b.csv" [emma]] empty_catalog
  = (Raised OSError, empty_catalog,
     [ProcessingFile "c.csv"; FileNotFound "c.csv";
      ProcessingFile "sub.csv"])
  /\ handle false NoFolder
            [undecodable_file "a.csv" [dune (Some "3")];
             file "b.csv" [emma]] empty_catalog
     = (Raised UnicodeDecodeError, dune_catalog,
        [ProcessingFile "a.csv"; AddedNewBook "F001 (Dune)"])
  /\ handle false (Unlistable "in" OtherOSError) [file "b.csv" [emma]]
            empty_catalog
     = (Raised OSError, empty_catalog, []).
Proof. repeat split; reflexivity. Qed.

(* ===================================================================== *)
(** ** pluralize *)
(* ===================================================================== *)

Lemma string_length_app (s t : string) :
  String.length (s ++ t) = String.length s + String.length t.
Proof. induction s as [|c s IH]; simpl; [reflexivity|]. now rewrite IH. Qed.

Lemma endswith_app (s suffix : string) : endswith (s ++ suffix) suffix = true.
Proof.
  induction s as [|c s IH].
  - change (endswith suffix suffix = true).
    destruct suffix; cbn [endswith]; now rewrite String.eqb_refl.
  - change (endswith (String c (s ++ suffix)) suffix = true).
    cbn [endswith]. rewrite IH. apply orb_true_r.
Qed.

Lemma endswith_inv (s suffix : string) :
  endswith s suffix = true -> exists stem, s = (stem ++ suffix)%string.
Proof.
  induction s as [|c s IH]; cbn [endswith].
  - rewrite orb_false_r. intros H. apply String.eqb_eq in H. subst.
    now exists "".
  - intros H. apply orb_prop in H as [H|H].
    + apply String.eqb_eq in H. exists "". now rewrite H.
    + destruct (IH H) as [stem ->]. now exists (String c stem).
Qed.

Lemma but_last_app (stem : string) (c : ascii) :
  but_last (stem ++ String c "") = stem.
Proof.
  induction stem as [|a stem IH]; [reflexivity|].
  change (but_last (String a (stem ++ String c ""))
          = String a stem).
  simpl. rewrite IH. now destruct stem.
Qed.

(** X1.  [pluralize] returns the word itself exactly when the count is 1:
    for every other count, zero and the negative ones included, the result
    is another word. *)
Theorem pluralize_same_iff_one (word : string) (count : Z) :
  pluralize word count = word <-> count = 1%Z.
Proof.
  unfold pluralize. destruct (Z.eqb_spec count 1) as [->|Hc].
  - now split.
  - split; [|contradiction]. intros H. exfalso.
    apply (f_equal String.length) in H.
    destruct (endswith word "y") eqn:E.
    + destruct (endswith_inv _ _ E) as [stem ->].
      rewrite but_last_app, !string_length_app in H. simpl in H. lia.
    + rewrite string_length_app in H. simpl in H. lia.
Qed.

(** X2.  For a count other than 1, a word that ends in [y] loses the [y]
    and gets [ies]; every other word, the empty one included, gets [s]. *)
Theorem pluralize_plural (word : string) (count : Z) :
  count <> 1%Z ->
  (forall stem, word = (stem ++ "y")%string ->
                pluralize word count = (stem ++ "ies")%string)
  /\ ((forall stem, word <> (stem ++ "y")%string) ->
      pluralize word count = (word ++ "s")%string).
Proof.
  intros Hc. unfold pluralize.
  destruct (Z.eqb_spec count 1) as [|_]; [contradiction|]. split.
  - intros stem ->. now rewrite endswith_app, but_last_app.
  - intros Hno. destruct (endswith word "y") eqn:E; [|reflexivity].
    destruct (endswith_inv _ _ E) as [stem Hstem]. now elim (Hno stem).
Qed.

Lemma pluralize_plural_witness :
  (forall stem, "copy" = (stem ++ "y")%string ->
                pluralize "copy" 0 = (stem ++ "ies")%string)
  /\ ((forall stem, "copy" <> (stem ++ "y")%string) ->
      pluralize "copy" 0 = "copys").
Proof. apply (pluralize_plural "copy" 0). discriminate. Defined.

Example pluralize_examples :
  [pluralize "copy" 1; pluralize "copy" 3; pluralize "book" 0;
   pluralize "row" 2; pluralize "copy" (-5); pluralize "" 2]
  = ["copy"; "copies"; "books"; "rows"; "copies"; "s"].
Proof. reflexivity. Qed.

(* ===================================================================== *)
(** ** The files of [--folder] *)
(* ===================================================================== *)

Lemma lower_app (s t : string) : lower (s ++ t) = (lower s ++ lower t)%string.
Proof. induction s as [|c s IH]; simpl; [reflexivity|]. now rewrite IH. Qed.

Lemma lower_split (s a b : string) :
  lower s = (a ++ b)%string ->
  exists s1 s2, s = (s1 ++ s2)%string /\ lower s1 = a /\ lower s2 = b.
Proof.
  revert s. induction a as [|c a IH]; intros s H.
  - now exists "", s.
  - destruct s as [|d s]; [discriminate|]. simpl in H.
    inversion H as [[Hc Hs]].
    destruct (IH s Hs) as (s1 & s2 & -> & <- & <-).
    now exists (String d s1), s2.
Qed.

(** X3.  A name of the folder is taken exactly when it ends in [.csv]
    written in any mix of upper and lower case. *)
Theorem is_csv_iff (f : string) :
  is_csv f = true
  <-> exists stem ext, f = (stem ++ ext)%string /\ lower ext = ".csv".
Proof.
  unfold is_csv. split.
  - intros H. destruct (endswith_inv _ _ H) as [pre Hpre].
    destruct (lower_split _ _ _ Hpre) as (s1 & s2 & -> & _ & H2).
    now exists s1, s2.
  - intros (stem & ext & -> & Hext).
    rewrite lower_app, Hext. apply endswith_app.
Qed.

Example is_csv_examples :
  map is_csv ["books.csv"; "BOOKS.CSV"; "b.Csv"; ".csv"; "books.csv.bak";
              "books.txt"; "csv"; ""]
  = [true; true; true; true; false; false; false; false].
Proof. reflexivity. Qed.

Lemma filter_map_fst {A B : Type} (p : A -> bool) (l : list (A * B)) :
  map fst (filter (fun e => p (fst e)) l) = filter p (map fst l).
Proof.
  induction l as [|e l IH]; simpl; [reflexivity|].
  destruct (p (fst e)); simpl; now rewrite IH.
Qed.

(** A run that returns has announced the files it loops over, in order. *)
Lemma handle_files_started (dry_run : bool) (folder : Folder)
    (csv_files : list File) (db : Catalog) :
  result_of (handle dry_run folder csv_files db) = Returned tt ->
  (forall p, folder <> NotADirectory p) ->
  files_started (output_of (handle dry_run folder csv_files db))
  = map path (files_of folder csv_files).
Proof.
  intros Hret Hdir.
  assert (Hloop : forall fs,
             result_of (bind (process_files dry_run fs no_counts)
                             (fun t => write (FinalSummary t)) db)
             = Returned tt ->
             files_started
               (output_of (bind (process_files dry_run fs no_counts)
                                (fun t => write (FinalSummary t)) db))
             = map path fs).
  { intros fs. unfold bind, write.
    destruct (process_files_totals dry_run fs no_counts db) as [_ Htot].
    destruct (process_files dry_run fs no_counts db) as [[[t|e] d] o];
      unfold result_of, output_of in *; simpl in *; [|discriminate].
    intros _. destruct (Htot t eq_refl) as [_ Hst].
    rewrite files_started_app, Hst. simpl. apply app_nil_r. }
  unfold handle, files_of in *.
  destruct folder as [|p|p e|p folder_csvs].
  - destruct csv_files as [|f fs]; [reflexivity|]. now apply Hloop.
  - now elim (Hdir p).
  - discriminate.
  - destruct (csv_files ++ folder_csvs) as [|f fs]; [reflexivity|].
    now apply Hloop.
Qed.

(** X4.  With [--folder]: when the folder is not a directory the command
    stops at once, and the files given on the command line are not read
    either.  Otherwise a run that returns has processed the files given, in
    the order given, and after them the entries of the folder that end in
    [.csv], in the order of the listing, each joined to the folder's
    path. *)
Theorem folder_files_follow_given_files (dry_run : bool)
    (folder_path : string) (csv_files : list File) (db : Catalog) :
  folder_path <> "" ->
  handle dry_run (collect_folder folder_path NotDir) csv_files db
  = (Returned tt, db, [FolderNotFound folder_path])
  /\ forall entries,
       let run := handle dry_run (collect_folder folder_path (Lists entries))
                         csv_files db in
       result_of run = Returned tt ->
       files_started (output_of run)
       = map path csv_files
         ++ map (path_join folder_path) (filter is_csv (map fst entries)).
Proof.
  intros Hp. unfold collect_folder.
  destruct (String.eqb folder_path "") eqn:E;
    [now apply String.eqb_eq in E|].
  split; [reflexivity|].
  intros entries. cbv zeta. intros Hret.
  rewrite (handle_files_started _ _ _ _ Hret) by discriminate.
  simpl. rewrite map_app, map_map. simpl.
  now rewrite <- filter_map_fst, map_map.
Qed.

Lemma folder_files_follow_given_files_witness :
  handle false (collect_folder "in" NotDir) [file "a.csv" [emma]]
         empty_catalog
  = (Returned tt, empty_catalog, [FolderNotFound "in"])
  /\ forall entries,
       let run := handle false (collect_folder "in" (Lists entries))
                         [file "a.csv" [emma]] empty_catalog in
       result_of run = Returned tt ->
       files_started (output_of run)
       = map path [file "a.csv" [emma]]
         ++ map (path_join "in") (filter is_csv (map fst entries)).
Proof.
  apply (folder_files_follow_given_files false "in" [file "a.csv" [emma]]
           empty_catalog).
  discriminate.
Defined.

Example folder_run :
  files_started
    (output_of
       (handle true
          (collect_folder "in/"
             (Lists [("z.CSV", opened (file "z.CSV" [emma]));
                     ("notes.txt", opened (file "notes.txt" []));
                     ("a.csv", opened (file "a.csv" [untitled]))]))
          [file "given.txt" [dune (Some "3")]] empty_catalog))
  = ["given.txt"; "in/z.CSV"; "in/a.csv"].
Proof. reflexivity. Qed.

(* ===================================================================== *)
(** ** What is counted *)
(* ===================================================================== *)

(** The counters after a row, by cases. *)
Lemma process_row_counts (dry_run : bool) (row : Row) (c c' : Counts)
    (db db' : Catalog) (o : list Event) :
  process_row dry_run row c db = (Returned c', db', o) ->
  c' = count_added c
  \/ (exists label, c' = count_updated label c)
  \/ (dry_run = true /\ c' = count_skipped c)
  \/ (dry_run = false /\ exists cat code, c' = count_skipped_row cat code c)
  \/ (dry_run = true /\ exists cat code, c' = count_skipped_row cat code c).
Proof.
  unfold process_row, bind, lift.
  destruct (read_row row) as [l|e]; [|discriminate].
  destruct (String.eqb (row_title l) "").
  - simpl. intros H. inversion H.
    destruct dry_run; [do 4 right|do 3 right; left]; eauto.
  - destruct (get_or_create (row_category_name l) db)
      as [[[[cat cr]|e] d1] og]; [|discriminate].
    simpl. destruct dry_run.
    + unfold dry_run_row, bind, get, related_category, write, ret.
      destruct (find_book (row_book_code l) d1) as [existing|].
      * destruct (find_category_by_id (category existing) d1) as [ec|];
          [|discriminate].
        destruct (changes_of _ _ _ _ _ _); simpl; intros H; inversion H;
          eauto 6.
      * simpl. intros H. inversion H. now left.
    + unfold apply_row, bind.
      destruct (update_or_create _ _ _ _ _ d1) as [[[[obj created]|e] d2] ou];
        [|discriminate].
      destruct created; simpl; intros H; inversion H; eauto.
Qed.

Lemma process_row_counts_once (dry_run : bool) (row : Row) (c c' : Counts)
    (db db' : Catalog) (o : list Event) :
  process_row dry_run row c db = (Returned c', db', o) ->
  rows_counted c' = S (rows_counted c).
Proof.
  intros H. unfold rows_counted.
  destruct (process_row_counts _ _ _ _ _ _ _ H)
    as [->|[[lb ->]|[[_ ->]|[[_ (ca & co & ->)]|[_ (ca & co & ->)]]]]];
    simpl; lia.
Qed.

Lemma process_row_lists (dry_run : bool) (row : Row) (c c' : Counts)
    (db db' : Catalog) (o : list Event) :
  process_row dry_run row c db = (Returned c', db', o) ->
  (lists_agree c -> lists_agree c')
  /\ (dry_run = false ->
      List.length (skipped_rows c) = skipped c ->
      List.length (skipped_rows c') = skipped c').
Proof.
  intros H. unfold lists_agree.
  destruct (process_row_counts _ _ _ _ _ _ _ H)
    as [->|[[lb ->]|[[Hd ->]|[[_ (ca & co & ->)]|[Hd (ca & co & ->)]]]]];
    simpl; rewrite ?length_app; simpl; split; try lia;
    intros Hf; try (rewrite Hd in Hf; discriminate); lia.
Qed.

Lemma process_rows_counts (dry_run : bool) (rows : list Row) :
  forall (c c' : Counts) (db db' : Catalog) (o : list Event),
    process_rows dry_run rows c db = (Returned c', db', o) ->
    rows_counted c' = rows_counted c + List.length rows
    /\ (lists_agree c -> lists_agree c')
    /\ (dry_run = false ->
        List.length (skipped_rows c) = skipped c ->
        List.length (skipped_rows c') = skipped c').
Proof.
  induction rows as [|row rows IH]; intros c c' db db' o H.
  - simpl in H. inversion H; subst. simpl.
    split; [lia|]. split; [now intros|now intros].
  - rewrite process_rows_cons in H.
    destruct (process_row dry_run row c db) as [[[c1|e] d1] o1] eqn:Hrow;
      [|discriminate].
    destruct (process_rows dry_run rows c1 d1) as [[r2 d2] o2] eqn:Hrows.
    unfold after_output, result_of in H. simpl in H.
    inversion H; subst r2. clear H.
    destruct (IH _ _ _ _ _ Hrows) as (Hn & Hl & Hs).
    pose proof (process_row_counts_once _ _ _ _ _ _ _ Hrow) as Hn1.
    destruct (process_row_lists _ _ _ _ _ _ _ Hrow) as [Hl1 Hs1].
    split; [|split].
    + unfold rows_counted in *. simpl. lia.
    + auto.
    + auto.
Qed.

(** A file whose processing returns has been read to its end, and the
    loop over its rows has returned the same. *)
Lemma read_file_returned (dry_run : bool) (f : File) (c : Counts)
    (db db' : Catalog) (o : list Event) :
  read_file dry_run f db = (Returned c, db', o) ->
  (exists records, opened f = Reads records None)
  /\ process_rows dry_run (rows_of f) no_counts db = (Returned c, db', o).
Proof.
  rewrite read_file_rows_of.
  destruct (process_rows dry_run (rows_of f) no_counts db)
    as [[[c1|e] d1] o1]; [|discriminate].
  destruct (opened f) as [e|records [e|]]; try discriminate.
  intros H. split; [now eexists|exact H].
Qed.

(** X5.  When all the rows of a file have been processed, in either mode,
    every row has been counted exactly once: the three counters of the file
    add up to the number of its rows. *)
Theorem every_row_counted_once (dry_run : bool) (f : File) (c : Counts)
    (db db' : Catalog) (o : list Event) :
  read_file dry_run f db = (Returned c, db', o) ->
  added c + updated c + skipped c = List.length (rows_of f).
Proof.
  intros H. apply read_file_returned in H as [_ H].
  destruct (process_rows_counts _ _ _ _ _ _ _ H) as [Hn _].
  exact Hn.
Qed.

Lemma every_row_counted_once_witness :
  1 + 1 + 1
  = List.length
      (rows_of (file "a.csv" [dune (Some "3"); untitled; dune (Some "4")])).
Proof.
  apply (every_row_counted_once false
           (file "a.csv" [dune (Some "3"); untitled; dune (Some "4")])
           {| added := 1; updated := 1; skipped := 1;
              updated_books := ["F001 (Dune)"];
              skipped_rows := [("Poetry", "P001")] |}
           empty_catalog
           {| categories := [fiction]; books := [dune_book 4] |}
           [AddedNewBook "F001 (Dune)"; SkippingRow untitled;
            UpdatedExistingBook "F001 (Dune)"]).
  reflexivity.
Defined.

(** X6.  In the counts of a file whose rows have all been processed, the
    list of updated books has one entry per update.  The list of skipped
    rows has one entry per skip in an import; in a dry run it can be
    shorter, because a row that changes nothing is counted as skipped but
    not listed. *)
Theorem lists_match_counters (dry_run : bool) (f : File) (c : Counts)
    (db db' : Catalog) (o : list Event) :
  read_file dry_run f db = (Returned c, db', o) ->
  List.length (updated_books c) = updated c
  /\ List.length (skipped_rows c) <= skipped c
  /\ (dry_run = false -> List.length (skipped_rows c) = skipped c).
Proof.
  intros H. apply read_file_returned in H as [_ H].
  destruct (process_rows_counts _ _ _ _ _ _ _ H) as (_ & Hl & Hs).
  destruct Hl as [Hu Hk]; [unfold lists_agree; simpl; lia|].
  repeat split; try assumption.
  intros Hd. now apply Hs.
Qed.

Lemma lists_match_counters_witness :
  let c := {| added := 0; updated := 0; skipped := 2;
              updated_books := [];
              skipped_rows := [("Poetry", "P001")] |} in
  List.length (updated_books c) = updated c
  /\ List.length (skipped_rows c) <= skipped c
  /\ (true = false -> List.length (skipped_rows c) = skipped c).
Proof.
  apply (lists_match_counters true
           (file "a.csv" [dune (Some "3"); untitled])
           {| added := 0; updated := 0; skipped := 2;
              updated_books := [];
              skipped_rows := [("Poetry", "P001")] |}
           dune_catalog dune_catalog
           [WouldSkip "F001"; SkippingRow untitled]).
  reflexivity.
Defined.

(* ===================================================================== *)
(** ** What a dry run announces *)
(* ===================================================================== *)

Lemma option_string_eqb_eq (a b : option string) :
  option_string_eqb a b = true <-> a = b.
Proof.
  destruct a as [x|], b as [y|]; simpl; split; intros H;
    try discriminate; try reflexivity.
  - apply String.eqb_eq in H. now subst.
  - inversion H. apply String.eqb_refl.
Qed.

Lemma changes_of_nil (existing : Book) (ec : Category) (ttl : string)
    (auth : option string) (cat : Category) (copies : Z) :
  changes_of existing ec ttl auth cat copies = []
  <-> title existing = ttl /\ authors existing = auth
      /\ name ec = name cat /\ number_of_copies existing = copies.
Proof.
  unfold changes_of.
  destruct (String.eqb_spec (title existing) ttl) as [Ht|Ht];
    [|split; [discriminate|now intros [? _]]].
  destruct (option_string_eqb (authors existing) auth) eqn:Ea.
  - apply option_string_eqb_eq in Ea.
    destruct (String.eqb_spec (name ec) (name cat)) as [Hn|Hn];
      [|split; [discriminate|now intros (_ & _ & ? & _)]].
    destruct (Z.eqb_spec (number_of_copies existing) copies) as [Hc|Hc];
      [|split; [discriminate|now intros (_ & _ & _ & ?)]].
    now split.
  - split; [discriminate|]. intros (_ & Ha & _).
    apply option_string_eqb_eq in Ha. rewrite Ha in Ea. discriminate.
Qed.

Lemma dry_run_comparison (l : Locals) (cat : Category) (copies : Z)
    (c : Counts) (db : Catalog) (existing : Book) (ec : Category) :
  find_book (row_book_code l) db = Some existing ->
  find_category_by_id (category existing) db = Some ec ->
  let same := title existing = row_title l
              /\ authors existing = row_authors l
              /\ name ec = name cat
              /\ number_of_copies existing = copies in
  (same ->
   dry_run_row l cat copies c db
   = (Returned (count_skipped c), db, [WouldSkip (row_book_code l)]))
  /\ (~ same ->
      exists change changes,
        dry_run_row l cat copies c db
        = (Returned (count_updated (row_book_code l) c), db,
           [WouldUpdate (row_book_code l) (change :: changes)])).
Proof.
  intros Hb Hc same. unfold dry_run_row, bind, get, related_category.
  rewrite Hb, Hc. simpl.
  pose proof (changes_of_nil existing ec (row_title l) (row_authors l) cat
                copies) as Hnil.
  split.
  - intros Hsame. apply Hnil in Hsame. now rewrite Hsame.
  - intros Hdiff.
    destruct (changes_of existing ec (row_title l) (row_authors l) cat copies)
      as [|change changes].
    + elim Hdiff. now apply Hnil.
    + now exists change, changes.
Qed.

(** X7.  For a row whose code is in the catalog, the dry run announces a
    skip exactly when title, authors, category name and number of copies
    of the stored Book all equal those of the row; otherwise it announces an
    update and lists at least one difference.  Neither writes anything. *)
Theorem dry_run_skips_iff_same (l : Locals) (cat : Category) (copies : Z)
    (c : Counts) (db : Catalog) (existing : Book) (ec : Category) :
  find_book (row_book_code l) db = Some existing ->
  find_category_by_id (category existing) db = Some ec ->
  let same := title existing = row_title l
              /\ authors existing = row_authors l
              /\ name ec = name cat
              /\ number_of_copies existing = copies in
  (same ->
   dry_run_row l cat copies c db
   = (Returned (count_skipped c), db, [WouldSkip (row_book_code l)]))
  /\ (~ same ->
      exists change changes,
        dry_run_row l cat copies c db
        = (Returned (count_updated (row_book_code l) c), db,
           [WouldUpdate (row_book_code l) (change :: changes)])).
Proof. apply dry_run_comparison. Qed.

Lemma dry_run_skips_iff_same_witness :
  let l := {| row_category_name := "Fiction"; row_book_code := "F001";
              row_title := "Dune"; row_authors := Some "Herbert";
              row_number_of_copies := "5" |} in
  let same := title (dune_book 3) = row_title l
              /\ authors (dune_book 3) = row_authors l
              /\ name fiction = name fiction
              /\ number_of_copies (dune_book 3) = 5%Z in
  (same ->
   dry_run_row l fiction 5 no_counts dune_catalog
   = (Returned (count_skipped no_counts), dune_catalog, [WouldSkip "F001"]))
  /\ (~ same ->
      exists change changes,
        dry_run_row l fiction 5 no_counts dune_catalog
        = (Returned (count_updated "F001" no_counts), dune_catalog,
           [WouldUpdate "F001" (change :: changes)])).
Proof.
  apply (dry_run_skips_iff_same
           {| row_category_name := "Fiction"; row_book_code := "F001";
              row_title := "Dune"; row_authors := Some "Herbert";
              row_number_of_copies := "5" |}
           fiction 5 no_counts dune_catalog (dune_book 3) fiction);
    reflexivity.
Defined.

Lemma dry_run_rows_keep_books (rows : list Row) (c : Counts) (db : Catalog) :
  books (catalog_of (process_rows true rows c db)) = books db.
Proof.
  apply (process_rows_preserves (fun d => books d = books db) true);
    try reflexivity.
  - intros nm. apply (get_or_create_preserves_books (fun bs => bs = books db)).
  - discriminate.
Qed.

(** X8.  A dry run judges every row against the Book table as it was
    before the run: a row whose code is not in the catalog is announced and
    counted as an addition, also when rows before it in the same run carry
    the same code (rows the import would count as one addition followed by
    updates). *)
Theorem dry_run_counts_repeated_code_as_added (before : list Row) (row : Row)
    (l : Locals) (c0 c1 : Counts) (db db1 : Catalog) (o1 : list Event) :
  read_row row = Returned l ->
  row_title l <> "" ->
  CharField 100 (row_category_name l) = true ->
  find_book (row_book_code l) db = None ->
  process_rows true before c0 db = (Returned c1, db1, o1) ->
  exists db2,
    process_row true row c1 db1
    = (Returned (count_added c1), db2,
       [WouldAdd (row_book_code l) (row_title l) (row_authors l)
                 (parse_copies (row_number_of_copies l))
                 (row_category_name l)])
    /\ books db2 = books db.
Proof.
  intros Hl Ht Hfit Hnew Hbefore.
  pose proof (dry_run_rows_keep_books before c0 db) as Hbooks.
  rewrite Hbefore in Hbooks. unfold catalog_of in Hbooks. simpl in Hbooks.
  destruct (get_or_create_fits _ db1 Hfit) as (cat & created & d2 & Hcat).
  destruct (get_or_create_returned _ _ _ _ _ _ Hcat) as (_ & Hn & _ & Hb).
  exists d2. split; [|now rewrite Hb].
  unfold process_row, bind, lift. rewrite Hl.
  destruct (String.eqb (row_title l) "") eqn:E;
    [now apply String.eqb_eq in E|].
  rewrite Hcat. simpl. unfold dry_run_row, bind, get.
  unfold find_book in *. rewrite Hb, Hbooks, Hnew. simpl. now rewrite Hn.
Qed.

Lemma dry_run_counts_repeated_code_as_added_witness :
  exists db2,
    process_row true (dune (Some "4")) (count_added no_counts)
                {| categories := [fiction]; books := [] |}
    = (Returned (count_added (count_added no_counts)), db2,
       [WouldAdd "F001" "Dune" (Some "Herbert") 4 "Fiction"])
    /\ books db2 = books empty_catalog.
Proof.
  apply (dry_run_counts_repeated_code_as_added [dune (Some "3")]
           (dune (Some "4"))
           {| row_category_name := "Fiction"; row_book_code := "F001";
              row_title := "Dune"; row_authors := Some "Herbert";
              row_number_of_copies := "4" |}
           no_counts (count_added no_counts) empty_catalog
           {| categories := [fiction]; books := [] |}
           [WouldAdd "F001" "Dune" (Some "Herbert") 3 "Fiction"]);
    [reflexivity|discriminate|reflexivity|reflexivity|reflexivity].
Defined.

Example repeated_code_dry_run_and_import :
  let rows := [dune (Some "3"); dune (Some "4")] in
  result_of (process_rows true rows no_counts empty_catalog)
  = Returned {| added := 2; updated := 0; skipped := 0;
                updated_books := []; skipped_rows := [] |}
  /\ result_of (process_rows false rows no_counts empty_catalog)
     = Returned {| added := 1; updated := 1; skipped := 0;
                   updated_books := ["F001 (Dune)"]; skipped_rows := [] |}.
Proof. split; reflexivity. Qed.

(* ===================================================================== *)
(** ** The Category table only grows *)
(* ===================================================================== *)

Lemma get_or_create_extends (nm : string) (db : Catalog) :
  exists ext,
    categories (catalog_of (get_or_create nm db)) = categories db ++ ext.
Proof.
  unfold get_or_create. destruct (find_category nm db).
  - exists []. simpl. now rewrite app_nil_r.
  - destruct (Category_fits _).
    + now eexists.
    + exists []. simpl. now rewrite app_nil_r.
Qed.

Lemma update_or_create_categories (code : string) (cat : Category)
    (ttl : string) (auth : option string) (copies : Z) (db : Catalog) :
  categories (catalog_of (update_or_create code cat ttl auth copies db))
  = categories db.
Proof.
  unfold update_or_create.
  destruct (find_book code db); now destruct (Book_fits _).
Qed.

(** X9.  No run, in either mode and however it ends, deletes, renames or
    renumbers a Category: the table afterwards is the table before with new
    rows appended, so a name or a primary key that was found is found
    again, with the same row. *)
Theorem categories_only_grow (dry_run : bool) (folder : Folder)
    (csv_files : list File) (db : Catalog) :
  let db' := catalog_of (handle dry_run folder csv_files db) in
  (exists ext, categories db' = categories db ++ ext)
  /\ (forall nm cat, find_category nm db = Some cat ->
                     find_category nm db' = Some cat)
  /\ (forall i cat, find_category_by_id i db = Some cat ->
                    find_category_by_id i db' = Some cat).
Proof.
  cbv zeta.
  assert (H : exists ext,
             categories (catalog_of (handle dry_run folder csv_files db))
             = categories db ++ ext).
  { apply (handle_preserves
             (fun d => exists ext, categories d = categories db ++ ext)).
    - intros nm d [ext Hd].
      destruct (get_or_create_extends nm d) as [ext' ->].
      exists (ext ++ ext'). now rewrite Hd, app_assoc.
    - intros _ code cat ttl auth copies d Hd.
      now rewrite update_or_create_categories.
    - exists []. now rewrite app_nil_r. }
  split; [exact H|].
  destruct H as [ext H]. unfold find_category, find_category_by_id.
  rewrite H. split; intros ? cat Hf; now apply find_app_old.
Qed.

(* ===================================================================== *)
(** ** Well-formed catalogs stay well-formed *)
(* ===================================================================== *)

Lemma distinct_NoDup {A : Type} (eqb : A -> A -> bool) (l : list A) :
  (forall x y, eqb x y = true <-> x = y) ->
  distinct eqb l = true <-> NoDup l.
Proof.
  intros Heqb. induction l as [|x l IH]; simpl.
  - split; [constructor|reflexivity].
  - rewrite andb_true_iff, negb_true_iff, IH. split.
    + intros [Hx Hl]. constructor; [|assumption].
      intros Hin. apply not_true_iff_false in Hx. apply Hx.
      apply existsb_exists. exists x. split; [assumption|now apply Heqb].
    + intros H. inversion H as [|? ? Hx Hl]; subst. split; [|assumption].
      apply not_true_iff_false. intros He.
      apply existsb_exists in He as (y & Hy & He).
      apply Heqb in He. now subst.
Qed.

Lemma NoDup_snoc {A : Type} (l : list A) (x : A) :
  NoDup l -> ~ In x l -> NoDup (l ++ [x]).
Proof.
  intros Hl Hx. apply NoDup_app; [assumption| |].
  - constructor; [now auto|constructor].
  - intros y Hy [<-|[]]. now apply Hx.
Qed.

(** [well_formed], spelled out. *)
Lemma well_formed_iff (db : Catalog) :
  well_formed db = true
  <-> NoDup (map category_id (categories db))
      /\ NoDup (map name (categories db))
      /\ NoDup (map book_id (books db))
      /\ NoDup (map book_code (books db))
      /\ references_ok db = true
      /\ forallb Category_fits (categories db) = true
      /\ forallb Book_fits (books db) = true.
Proof.
  unfold well_formed. rewrite !andb_true_iff.
  rewrite !(distinct_NoDup Nat.eqb) by apply Nat.eqb_eq.
  rewrite !(distinct_NoDup String.eqb) by apply String.eqb_eq.
  tauto.
Qed.

Lemma find_category_none_not_in (nm : string) (cs : list Category) :
  find (fun c => String.eqb (name c) nm) cs = None ->
  ~ In nm (map name cs).
Proof.
  induction cs as [|x cs IH]; simpl; [now auto|].
  destruct (String.eqb (name x) nm) eqn:E; [discriminate|].
  intros H [Hx|Hin]; [|now apply IH].
  apply String.eqb_neq in E. now apply E.
Qed.

Lemma references_ok_extend (cs ext : list Category) (bs : list Book) :
  references_ok {| categories := cs; books := bs |} = true ->
  references_ok {| categories := cs ++ ext; books := bs |} = true.
Proof.
  unfold references_ok, find_category_by_id. simpl.
  rewrite !forallb_forall. intros H b Hb. specialize (H b Hb).
  destruct (find _ cs) as [c|] eqn:Hf; [|discriminate].
  now rewrite (find_app_old _ _ _ _ Hf).
Qed.

(** [get_or_create] keeps a catalog well-formed, and the Category it
    returns is in the table under its primary key. *)
Lemma get_or_create_well_formed (nm : string) (db : Catalog) :
  well_formed db = true ->
  well_formed (catalog_of (get_or_create nm db)) = true
  /\ forall cat created,
       result_of (get_or_create nm db) = Returned (cat, created) ->
       find_category_by_id (category_id cat) (catalog_of (get_or_create nm db))
       <> None.
Proof.
  intros Hwf. unfold get_or_create.
  destruct (find_category nm db) as [c|] eqn:Hf.
  - unfold catalog_of, result_of. simpl. split; [assumption|].
    intros cat created H. inversion H; subst.
    unfold find_category in Hf. apply find_some in Hf as [Hin _].
    unfold find_category_by_id.
    destruct (find _ (categories db)) eqn:Hn; [discriminate|].
    apply (find_none _ _ Hn) in Hin. simpl in Hin.
    now rewrite Nat.eqb_refl in Hin.
  - destruct (Category_fits _) eqn:Hfits;
      unfold catalog_of, result_of; simpl;
      [|split; [assumption|discriminate]].
    apply well_formed_iff in Hwf
      as (Hci & Hcn & Hbi & Hbc & Href & Hcf & Hbf).
    split.
    + apply well_formed_iff. simpl. rewrite !map_app. simpl.
      repeat split; try assumption.
      * apply NoDup_snoc; [assumption|apply next_id_fresh].
      * apply NoDup_snoc; [assumption|].
        now apply find_category_none_not_in.
      * destruct db as [cs bs]. now apply references_ok_extend.
      * rewrite forallb_app, Hcf. simpl. now rewrite Hfits.
    + intros cat created H. inversion H; subst.
      unfold find_category_by_id. simpl.
      destruct (find _ (categories db ++ _)) eqn:Hn; [discriminate|].
      assert (Hin : In {| category_id := next_id (map category_id
                                                     (categories db));
                          name := nm |}
                       (categories db ++
                        [{| category_id := next_id (map category_id
                                                      (categories db));
                            name := nm |}]))
        by (apply in_or_app; right; now left).
      apply (find_none _ _ Hn) in Hin. simpl in Hin.
      now rewrite Nat.eqb_refl in Hin.
Qed.

Lemma replace_book_absent (obj : Book) (bs : list Book) :
  ~ In (book_code obj) (map book_code bs) -> replace_book obj bs = bs.
Proof.
  induction bs as [|x bs IH]; simpl; [reflexivity|].
  intros H.
  destruct (String.eqb (book_code x) (book_code obj)) eqn:E.
  - apply String.eqb_eq in E. elim H. now left.
  - rewrite IH; [reflexivity|]. intros Hin. apply H. now right.
Qed.

(** With unique codes, an update changes neither the primary key nor the
    code of any row. *)
Lemma replace_book_keys (obj b : Book) (bs : list Book) :
  NoDup (map book_code bs) ->
  find (fun x => String.eqb (book_code x) (book_code obj)) bs = Some b ->
  book_id obj = book_id b ->
  map (fun x => (book_id x, book_code x)) (replace_book obj bs)
  = map (fun x => (book_id x, book_code x)) bs.
Proof.
  intros Hnd. induction bs as [|x bs IH]; simpl; [discriminate|].
  inversion Hnd as [|? ? Hx Hbs]; subst.
  destruct (String.eqb (book_code x) (book_code obj)) eqn:E.
  - intros H Hid. inversion H; subst x. apply String.eqb_eq in E.
    rewrite replace_book_absent by now rewrite <- E.
    now rewrite Hid, E.
  - intros H Hid. now rewrite (IH Hbs H Hid).
Qed.

Lemma references_ok_replace (obj : Book) (cs : list Category)
    (bs : list Book) :
  find_category_by_id (category obj) {| categories := cs; books := bs |}
  <> None ->
  references_ok {| categories := cs; books := bs |} = true ->
  references_ok {| categories := cs; books := replace_book obj bs |} = true.
Proof.
  unfold references_ok, find_category_by_id. simpl. intros Hobj.
  rewrite !forallb_forall. intros H b Hb.
  unfold replace_book in Hb. apply in_map_iff in Hb as (x & Hx & Hin).
  destruct (String.eqb (book_code x) (book_code obj)).
  - subst b. now destruct (find _ cs).
  - subst b. now apply H.
Qed.

Lemma forallb_replace_book (p : Book -> bool) (obj : Book) (bs : list Book) :
  p obj = true -> forallb p bs = true ->
  forallb p (replace_book obj bs) = true.
Proof.
  intros Hobj. rewrite !forallb_forall. intros H b Hb.
  unfold replace_book in Hb. apply in_map_iff in Hb as (x & Hx & Hin).
  destruct (String.eqb (book_code x) (book_code obj)); subst b; auto.
Qed.

(** [update_or_create] with a Category of the catalog keeps the catalog
    well-formed; the rows of the Book table keep their primary keys and
    codes, a new row comes last. *)
Lemma update_or_create_well_formed (code : string) (cat : Category)
    (ttl : string) (auth : option string) (copies : Z) (db : Catalog) :
  well_formed db = true ->
  find_category_by_id (category_id cat) db <> None ->
  let db' := catalog_of (update_or_create code cat ttl auth copies db) in
  well_formed db' = true
  /\ exists ext,
       map (fun x => (book_id x, book_code x)) (books db')
       = map (fun x => (book_id x, book_code x)) (books db) ++ ext.
Proof.
  intros Hwf Hcat. cbv zeta. unfold update_or_create.
  pose proof Hwf as Hwf0.
  apply well_formed_iff in Hwf as (Hci & Hcn & Hbi & Hbc & Href & Hcf & Hbf).
  destruct (find_book code db) as [b|] eqn:Hf.
  - match goal with |- context [Book_fits ?x] => set (obj := x) end.
    destruct (Book_fits obj) eqn:Hfits; unfold catalog_of; simpl;
      [|split; [assumption|exists []; now rewrite app_nil_r]].
    assert (Hcode : book_code b = code).
    { unfold find_book in Hf. apply find_some in Hf as [_ Hf].
      now apply String.eqb_eq in Hf. }
    assert (Hfind : find (fun x => String.eqb (book_code x) (book_code obj))
                         (books db) = Some b).
    { unfold find_book in Hf. simpl. now rewrite Hcode. }
    pose proof (replace_book_keys obj b (books db) Hbc Hfind eq_refl) as Hk.
    split.
    + apply well_formed_iff. simpl. repeat split; try assumption.
      * apply (f_equal (map fst)) in Hk. rewrite !map_map in Hk. simpl in Hk.
        assert (Hids : map book_id (replace_book obj (books db))
                       = map book_id (books db)) by exact Hk.
        now rewrite Hids.
      * now rewrite replace_book_codes.
      * destruct db as [cs bs]. now apply references_ok_replace.
      * now apply forallb_replace_book.
    + exists []. now rewrite app_nil_r.
  - match goal with |- context [Book_fits ?x] => set (obj := x) end.
    destruct (Book_fits obj) eqn:Hfits; unfold catalog_of; simpl;
      [|split; [assumption|exists []; now rewrite app_nil_r]].
    split.
    + apply well_formed_iff. simpl. rewrite !map_app. simpl.
      repeat split; try assumption.
      * apply NoDup_snoc; [assumption|apply next_id_fresh].
      * apply NoDup_snoc; [assumption|].
        now apply (find_none_not_in code).
      * unfold references_ok, find_category_by_id in *. simpl.
        rewrite forallb_app, Href. simpl.
        now destruct (find _ (categories db)).
      * rewrite forallb_app, Hbf. simpl. now rewrite Hfits.
    + rewrite map_app. now eexists.
Qed.

(** One row, in either mode. *)
Lemma process_row_well_formed (dry_run : bool) (row : Row) (c : Counts)
    (db0 : Catalog) :
  preserves
    (fun d => well_formed d = true
              /\ exists ext,
                   map (fun x => (book_id x, book_code x)) (books d)
                   = map (fun x => (book_id x, book_code x)) (books db0)
                     ++ ext)
    (process_row dry_run row c).
Proof.
  intros db [Hwf [ext Hext]]. unfold process_row, bind, lift.
  destruct (read_row row) as [l|e]; [|now eauto].
  destruct (String.eqb (row_title l) ""); [now eauto|].
  destruct (get_or_create_well_formed (row_category_name l) db Hwf)
    as [Hwf1 Hcat1].
  pose proof (get_or_create_books (row_category_name l) db) as Hb1.
  destruct (get_or_create (row_category_name l) db)
    as [[[[cat cr]|e] d1] og]; unfold catalog_of, result_of in *;
    simpl in *; [|rewrite Hb1; now eauto].
  specialize (Hcat1 cat cr eq_refl).
  destruct dry_run.
  - unfold dry_run_row, bind, get, related_category, write, ret.
    destruct (find_book (row_book_code l) d1) as [existing|]; simpl;
      [|rewrite Hb1; now eauto].
    destruct (find_category_by_id (category existing) d1); simpl;
      [|rewrite Hb1; now eauto].
    destruct (changes_of _ _ _ _ _ _); simpl; rewrite Hb1; now eauto.
  - unfold apply_row, bind.
    destruct (update_or_create_well_formed (row_book_code l) cat
                (row_title l) (row_authors l)
                (parse_copies (row_number_of_copies l)) d1 Hwf1 Hcat1)
      as [Hwf2 [ext2 Hext2]].
    destruct (update_or_create _ _ _ _ _ d1) as [[[[obj created]|e] d2] ou];
      unfold catalog_of in *; simpl in *.
    + assert (Hgoal : well_formed d2 = true
                      /\ exists ext0,
                           map (fun x => (book_id x, book_code x)) (books d2)
                           = map (fun x => (book_id x, book_code x))
                                 (books db0) ++ ext0).
      { split; [assumption|]. exists (ext ++ ext2).
        now rewrite Hext2, Hb1, Hext, app_assoc. }
      now destruct created.
    + split; [assumption|]. exists (ext ++ ext2).
      now rewrite Hext2, Hb1, Hext, app_assoc.
Qed.

Section RowInvariant.
Variable P : Catalog -> Prop.
Variable dry_run : bool.
Hypothesis P_row : forall row c, preserves P (process_row dry_run row c).

Lemma process_rows_keep (rows : list Row) (c : Counts) :
  preserves P (process_rows dry_run rows c).
Proof.
  revert c. induction rows as [|row rows IH]; intros c; simpl.
  - preserves_step.
  - preserves_step; [apply P_row|apply IH].
Qed.

Lemma read_file_keeps (f : File) : preserves P (read_file dry_run f).
Proof.
  unfold read_file. destruct (opened f) as [e|records stop].
  - preserves_step.
  - preserves_step; [apply process_rows_keep|].
    destruct stop; preserves_step.
Qed.

Lemma process_files_keep (csv_files : list File) (total : Counts) :
  preserves P (process_files dry_run csv_files total).
Proof.
  revert total. induction csv_files as [|f rest IH]; intros total; simpl.
  - preserves_step.
  - preserves_step; [preserves_step|].
    preserves_step; [preserves_step; apply read_file_keeps|].
    destruct a0 as [c|[]]; repeat preserves_step; apply IH.
Qed.

Lemma handle_keeps (folder : Folder) (csv_files : list File) :
  preserves P (handle dry_run folder csv_files).
Proof.
  unfold handle.
  destruct folder as [|p|p e|p folder_csvs];
    [|preserves_step|preserves_step|].
  - destruct csv_files; [preserves_step|].
    preserves_step; [apply process_files_keep|preserves_step].
  - destruct (csv_files ++ folder_csvs); [preserves_step|].
    preserves_step; [apply process_files_keep|preserves_step].
Qed.
End RowInvariant.

Lemma handle_well_formed (dry_run : bool) (folder : Folder)
    (csv_files : list File) (db : Catalog) :
  well_formed db = true ->
  let db' := catalog_of (handle dry_run folder csv_files db) in
  well_formed db' = true
  /\ exists ext,
       map (fun x => (book_id x, book_code x)) (books db')
       = map (fun x => (book_id x, book_code x)) (books db) ++ ext.
Proof.
  intros Hwf.
  apply (handle_keeps
           (fun d => well_formed d = true
                     /\ exists ext,
                          map (fun x => (book_id x, book_code x)) (books d)
                          = map (fun x => (book_id x, book_code x)) (books db)
                            ++ ext)).
  - intros row c. apply process_row_well_formed.
  - split; [assumption|]. exists []. now rewrite app_nil_r.
Qed.

(** X10.  From a well-formed catalog, no run, in either mode and however it
    ends, deletes a Book or changes the primary key or the code of one: the
    Book table afterwards has the same rows by key and code, in the same
    places, and the new ones after them. *)
Theorem books_keep_id_and_code (dry_run : bool) (folder : Folder)
    (csv_files : list File) (db : Catalog) :
  well_formed db = true ->
  exists ext,
    map (fun x => (book_id x, book_code x))
        (books (catalog_of (handle dry_run folder csv_files db)))
    = map (fun x => (book_id x, book_code x)) (books db) ++ ext.
Proof. intros Hwf. now apply handle_well_formed. Qed.

Lemma books_keep_id_and_code_witness :
  exists ext,
    map (fun x => (book_id x, book_code x))
        (books (catalog_of (handle false NoFolder four_files dune_catalog)))
    = map (fun x => (book_id x, book_code x)) (books dune_catalog) ++ ext.
Proof.
  apply (books_keep_id_and_code false NoFolder four_files dune_catalog).
  reflexivity.
Defined.

(** [consistent], spelled out. *)
Lemma consistent_iff (db : Catalog) :
  consistent db = true
  <-> NoDup (map category_id (categories db))
      /\ NoDup (map name (categories db))
      /\ NoDup (map book_id (books db))
      /\ NoDup (map book_code (books db))
      /\ references_ok db = true.
Proof.
  unfold consistent. rewrite !andb_true_iff.
  rewrite !(distinct_NoDup Nat.eqb) by apply Nat.eqb_eq.
  rewrite !(distinct_NoDup String.eqb) by apply String.eqb_eq.
  tauto.
Qed.

(** [get_or_create] keeps a catalog consistent, whether it accepts the name
    or not, and the Category it returns is in the table under its primary
    key. *)
Lemma get_or_create_consistent (nm : string) (db : Catalog) :
  consistent db = true ->
  consistent (catalog_of (get_or_create nm db)) = true
  /\ forall cat created,
       result_of (get_or_create nm db) = Returned (cat, created) ->
       find_category_by_id (category_id cat) (catalog_of (get_or_create nm db))
       <> None.
Proof.
  intros Hok. unfold get_or_create.
  destruct (find_category nm db) as [c|] eqn:Hf.
  - unfold catalog_of, result_of. simpl. split; [assumption|].
    intros cat created H. inversion H; subst.
    unfold find_category in Hf. apply find_some in Hf as [Hin _].
    unfold find_category_by_id.
    destruct (find _ (categories db)) eqn:Hn; [discriminate|].
    apply (find_none _ _ Hn) in Hin. simpl in Hin.
    now rewrite Nat.eqb_refl in Hin.
  - destruct (Category_fits _);
      unfold catalog_of, result_of; simpl;
      [|split; [assumption|discriminate]].
    apply consistent_iff in Hok as (Hci & Hcn & Hbi & Hbc & Href).
    split.
    + apply consistent_iff. simpl. rewrite !map_app. simpl.
      repeat split; try assumption.
      * apply NoDup_snoc; [assumption|apply next_id_fresh].
      * apply NoDup_snoc; [assumption|].
        now apply find_category_none_not_in.
      * destruct db as [cs bs]. now apply references_ok_extend.
    + intros cat created H. inversion H; subst.
      unfold find_category_by_id. simpl.
      destruct (find _ (categories db ++ _)) eqn:Hn; [discriminate|].
      assert (Hin : In {| category_id := next_id (map category_id
                                                     (categories db));
                          name := nm |}
                       (categories db ++
                        [{| category_id := next_id (map category_id
                                                      (categories db));
                            name := nm |}]))
        by (apply in_or_app; right; now left).
      apply (find_none _ _ Hn) in Hin. simpl in Hin.
      now rewrite Nat.eqb_refl in Hin.
Qed.

(** [update_or_create] with a Category of the catalog keeps the catalog
    consistent, whether it accepts the values or not. *)
Lemma update_or_create_consistent (code : string) (cat : Category)
    (ttl : string) (auth : option string) (copies : Z) (db : Catalog) :
  consistent db = true ->
  find_category_by_id (category_id cat) db <> None ->
  consistent (catalog_of (update_or_create code cat ttl auth copies db))
  = true.
Proof.
  intros Hok Hcat. unfold update_or_create.
  pose proof Hok as Hok0.
  apply consistent_iff in Hok as (Hci & Hcn & Hbi & Hbc & Href).
  destruct (find_book code db) as [b|] eqn:Hf.
  - match goal with |- context [Book_fits ?x] => set (obj := x) end.
    destruct (Book_fits obj); unfold catalog_of; simpl; [|assumption].
    assert (Hcode : book_code b = code).
    { unfold find_book in Hf. apply find_some in Hf as [_ Hf].
      now apply String.eqb_eq in Hf. }
    assert (Hfind : find (fun x => String.eqb (book_code x) (book_code obj))
                         (books db) = Some b).
    { unfold find_book in Hf. simpl. now rewrite Hcode. }
    pose proof (replace_book_keys obj b (books db) Hbc Hfind eq_refl) as Hk.
    apply consistent_iff. simpl. repeat split; try assumption.
    + apply (f_equal (map fst)) in Hk. rewrite !map_map in Hk. simpl in Hk.
      assert (Hids : map book_id (replace_book obj (books db))
                     = map book_id (books db)) by exact Hk.
      now rewrite Hids.
    + now rewrite replace_book_codes.
    + destruct db as [cs bs]. now apply references_ok_replace.
  - match goal with |- context [Book_fits ?x] => set (obj := x) end.
    destruct (Book_fits obj); unfold catalog_of; simpl; [|assumption].
    apply consistent_iff. simpl. rewrite !map_app. simpl.
    repeat split; try assumption.
    + apply NoDup_snoc; [assumption|apply next_id_fresh].
    + apply NoDup_snoc; [assumption|].
      now apply (find_none_not_in code).
    + unfold references_ok, find_category_by_id in *. simpl.
      rewrite forallb_app, Href. simpl.
      now destruct (find _ (categories db)).
Qed.

Lemma process_row_consistent (dry_run : bool) (row : Row) (c : Counts) :
  preserves (fun d => consistent d = true) (process_row dry_run row c).
Proof.
  intros db Hok. unfold process_row, bind, lift.
  destruct (read_row row) as [l|e]; [|assumption].
  destruct (String.eqb (row_title l) ""); [assumption|].
  destruct (get_or_create_consistent (row_category_name l) db Hok)
    as [Hok1 Hcat1].
  destruct (get_or_create (row_category_name l) db)
    as [[[[cat cr]|e] d1] og]; unfold catalog_of, result_of in *;
    simpl in *; [|assumption].
  specialize (Hcat1 cat cr eq_refl).
  destruct dry_run.
  - unfold dry_run_row, bind, get, related_category, write, ret.
    destruct (find_book (row_book_code l) d1) as [existing|]; simpl;
      [|assumption].
    destruct (find_category_by_id (category existing) d1); simpl;
      [|assumption].
    now destruct (changes_of _ _ _ _ _ _).
  - unfold apply_row, bind.
    pose proof (update_or_create_consistent (row_book_code l) cat
                  (row_title l) (row_authors l)
                  (parse_copies (row_number_of_copies l)) d1 Hok1 Hcat1)
      as Hok2.
    destruct (update_or_create _ _ _ _ _ d1) as [[[[obj created]|e] d2] ou];
      unfold catalog_of in *; simpl in *; [|assumption].
    now destruct created.
Qed.

(** X11.  A catalog whose primary keys, category names and book codes are
    unique and whose Books all refer to a Category of the catalog is still
    such a catalog after any run, in either mode and however the run ends,
    whether the values of the rows are accepted by the columns or not. *)
Theorem catalog_stays_consistent (dry_run : bool) (folder : Folder)
    (csv_files : list File) (db : Catalog) :
  consistent db = true ->
  consistent (catalog_of (handle dry_run folder csv_files db)) = true.
Proof.
  apply (handle_keeps (fun d => consistent d = true)).
  intros row c. apply process_row_consistent.
Qed.

Lemma catalog_stays_consistent_witness :
  consistent
    (catalog_of
       (handle false NoFolder
          [file "books.csv" [emma; dune (Some "-5"); dune (Some "7")];
           undecodable_file "more.csv" [untitled]]
          dune_catalog))
  = true.
Proof.
  apply (catalog_stays_consistent false NoFolder
           [file "books.csv" [emma; dune (Some "-5"); dune (Some "7")];
            undecodable_file "more.csv" [untitled]]
           dune_catalog).
  reflexivity.
Defined.

(* ===================================================================== *)
(** ** Runs that return *)
(* ===================================================================== *)

Section GoesOn.
Variable P : Catalog -> Prop.
Variable ok : Row -> bool.
Variable dry_run : bool.
Hypothesis P_row : forall row c, preserves P (process_row dry_run row c).
Hypothesis ok_row :
  forall row c d,
    P d -> ok row = true ->
    goes_on (result_of (process_row dry_run row c d)) = true.



End GoesOn.







(* ===================================================================== *)
(** ** The last row of a code wins *)
(* ===================================================================== *)

Lemma find_replace_book_other (code : string) (obj : Book) (bs : list Book) :
  book_code obj <> code ->
  find (fun x => String.eqb (book_code x) code) (replace_book obj bs)
  = find (fun x => String.eqb (book_code x) code) bs.
Proof.
  intros Hne. induction bs as [|x bs IH]; simpl; [reflexivity|].
  destruct (String.eqb (book_code x) (book_code obj)) eqn:E.
  - apply String.eqb_eq in E.
    assert (E1 : String.eqb (book_code obj) code = false)
      by now apply String.eqb_neq.
    assert (E2 : String.eqb (book_code x) code = false)
      by (rewrite E; exact E1).
    now rewrite E1, E2.
  - now rewrite IH.
Qed.

Lemma find_app_other {A : Type} (p : A -> bool) (l : list A) (x : A) :
  p x = false -> find p (l ++ [x]) = find p l.
Proof.
  intros Hx. induction l as [|a l IH]; simpl.
  - now rewrite Hx.
  - now rewrite IH.
Qed.

(** A write to another code leaves the Book of [code] as it is. *)
Lemma update_or_create_other (code code' : string) (cat : Category)
    (ttl : string) (auth : option string) (copies : Z) (db : Catalog) :
  code' <> code ->
  find_book code (catalog_of (update_or_create code' cat ttl auth copies db))
  = find_book code db.
Proof.
  intros Hne. unfold update_or_create.
  destruct (find_book code' db) as [b|] eqn:Hf.
  - destruct (Book_fits _); [|reflexivity].
    unfold catalog_of, find_book. simpl.
    apply find_replace_book_other. simpl.
    unfold find_book in Hf. apply find_some in Hf as [_ Hf].
    apply String.eqb_eq in Hf. now rewrite Hf.
  - destruct (Book_fits _); [|reflexivity].
    unfold catalog_of, find_book. simpl.
    apply find_app_other. simpl. now apply String.eqb_neq.
Qed.

(** What the import of one row with a title leaves under its code. *)
Lemma import_row_stored (row : Row) (l : Locals) (c c' : Counts)
    (db db' : Catalog) (o : list Event) :
  read_row row = Returned l ->
  row_title l <> "" ->
  process_row false row c db = (Returned c', db', o) ->
  exists b cat,
    find_book (row_book_code l) db' = Some b
    /\ find_category (row_category_name l) db' = Some cat
    /\ category b = category_id cat
    /\ title b = row_title l
    /\ authors b = row_authors l
    /\ number_of_copies b = parse_copies (row_number_of_copies l).
Proof.
  intros Hl Ht. unfold process_row, bind, lift. rewrite Hl.
  destruct (String.eqb (row_title l) "") eqn:E;
    [now apply String.eqb_eq in E|].
  destruct (get_or_create (row_category_name l) db)
    as [[[[cat created]|e] d1] o1] eqn:Hg; [|discriminate].
  destruct (get_or_create_returned _ _ _ _ _ _ Hg) as (Hcat & _ & _ & _).
  simpl. unfold apply_row, bind.
  destruct (update_or_create _ _ _ _ _ d1) as [[[[obj cr]|e] d2] o2] eqn:Hu;
    [|discriminate].
  destruct (update_or_create_returned _ _ _ _ _ _ _ _ _ _ Hu)
    as (Hfind & _ & _ & Hc & Hti & Ha & Hn & Hcs).
  assert (Hdb : db' = d2 -> exists b cat0,
             find_book (row_book_code l) db' = Some b
             /\ find_category (row_category_name l) db' = Some cat0
             /\ category b = category_id cat0
             /\ title b = row_title l
             /\ authors b = row_authors l
             /\ number_of_copies b = parse_copies (row_number_of_copies l)).
  { intros ->. exists obj, cat. repeat split; try assumption.
    unfold find_category in *. now rewrite Hcs. }
  destruct cr; simpl; intros H; apply Hdb; now inversion H.
Qed.

(** Rows of other codes leave the Book of [code] as it is. *)
Lemma import_rows_other_codes (code : string) (rows : list Row) :
  forall (c c' : Counts) (db db' : Catalog) (o : list Event),
    process_rows false rows c db = (Returned c', db', o) ->
    last_with_code code rows = None ->
    find_book code db' = find_book code db.
Proof.
  induction rows as [|row rows IH]; intros c c' db db' o Hrun Hlast.
  - simpl in Hrun. now inversion Hrun.
  - rewrite process_rows_cons in Hrun. simpl in Hlast.
    destruct (last_with_code code rows) eqn:Hrest; [discriminate|].
    destruct (process_row false row c db) as [[[c1|e] d1] o1] eqn:Hrow;
      [|discriminate].
    destruct (process_rows false rows c1 d1) as [[r2 d2] o2] eqn:Hrows.
    unfold after_output, result_of, catalog_of in Hrun. simpl in Hrun.
    inversion Hrun; subst r2 d2. clear Hrun.
    rewrite (IH _ _ _ _ _ Hrows eq_refl).
    revert Hrow. unfold process_row, bind, lift.
    destruct (read_row row) as [l|e]; [|discriminate].
    destruct (String.eqb (row_title l) "") eqn:E.
    + simpl. intros H. now inversion H.
    + simpl in Hlast.
      destruct (String.eqb (row_book_code l) code) eqn:Ec; [discriminate|].
      apply String.eqb_neq in Ec.
      pose proof (get_or_create_books (row_category_name l) db) as Hb.
      destruct (get_or_create (row_category_name l) db)
        as [[[[cat created]|e] d0] o0]; [|discriminate].
      unfold catalog_of in Hb. simpl in *. unfold apply_row, bind.
      pose proof (update_or_create_other code (row_book_code l) cat
                    (row_title l) (row_authors l)
                    (parse_copies (row_number_of_copies l)) d0 Ec) as Hu.
      destruct (update_or_create _ _ _ _ _ d0) as [[[[obj cr]|e] d2] o2'];
        [|discriminate].
      unfold catalog_of in Hu. simpl in Hu.
      assert (Hd : d1 = d2 -> find_book code d1 = find_book code db).
      { intros ->. rewrite Hu. unfold find_book. now rewrite Hb. }
      destruct cr; simpl; intros H; apply Hd; now inversion H.
Qed.

Lemma import_rows_keep_category (nm : string) (cat : Category)
    (rows : list Row) (c : Counts) (db : Catalog) :
  find_category nm db = Some cat ->
  find_category nm (catalog_of (process_rows false rows c db)) = Some cat.
Proof.
  apply (process_rows_preserves (fun d => find_category nm d = Some cat)).
  - intros nm' d Hd. unfold find_category in *.
    destruct (get_or_create_extends nm' d) as [ext ->].
    now apply find_app_old.
  - intros _ code cat' ttl auth copies d Hd. unfold find_category in *.
    now rewrite update_or_create_categories.
Qed.

Lemma last_row_stored (rows : list Row) :
  forall (c c' : Counts) (db db' : Catalog) (o : list Event) (code : string)
         (l : Locals),
    process_rows false rows c db = (Returned c', db', o) ->
    last_with_code code rows = Some l ->
    exists b cat,
      find_book code db' = Some b
      /\ find_category (row_category_name l) db' = Some cat
      /\ category b = category_id cat
      /\ title b = row_title l
      /\ authors b = row_authors l
      /\ number_of_copies b = parse_copies (row_number_of_copies l).
Proof.
  induction rows as [|row rows IH]; intros c c' db db' o code l Hrun Hlast;
    [discriminate|].
  rewrite process_rows_cons in Hrun. simpl in Hlast.
  destruct (process_row false row c db) as [[[c1|e] d1] o1] eqn:Hrow;
    [|discriminate].
  destruct (process_rows false rows c1 d1) as [[r2 d2] o2] eqn:Hrows.
  unfold after_output, result_of, catalog_of in Hrun. simpl in Hrun.
  inversion Hrun; subst r2 d2. clear Hrun.
  destruct (last_with_code code rows) as [l'|] eqn:Hrest.
  - inversion Hlast; subst l'. now apply (IH _ _ _ _ _ _ _ Hrows Hrest).
  - destruct (read_row row) as [l0|e] eqn:Hl; [|discriminate].
    destruct (String.eqb (row_title l0) "") eqn:E; [discriminate|].
    destruct (String.eqb (row_book_code l0) code) eqn:Ec; [|discriminate].
    simpl in Hlast. inversion Hlast; subst l0. clear Hlast.
    apply String.eqb_neq in E. apply String.eqb_eq in Ec. subst code.
    destruct (import_row_stored _ _ _ _ _ _ _ Hl E Hrow)
      as (b & cat & Hb & Hcat & Hrest').
    exists b, cat.
    rewrite (import_rows_other_codes _ _ _ _ _ _ _ Hrows Hrest).
    split; [exact Hb|]. split; [|exact Hrest'].
    pose proof (import_rows_keep_category _ _ rows c1 d1 Hcat) as Hk.
    now rewrite Hrows in Hk.
Qed.

(** X14.  When the rows of a file have all been imported, the Book stored
    under a code carries the title, authors, category and number of copies
    of the last row with a title that has this code: later rows override
    earlier ones. *)
Theorem last_row_wins (rows : list Row) (c c' : Counts) (db db' : Catalog)
    (o : list Event) (code : string) (l : Locals) :
  process_rows false rows c db = (Returned c', db', o) ->
  last_with_code code rows = Some l ->
  exists b cat,
    find_book code db' = Some b
    /\ find_category (row_category_name l) db' = Some cat
    /\ category b = category_id cat
    /\ title b = row_title l
    /\ authors b = row_authors l
    /\ number_of_copies b = parse_copies (row_number_of_copies l).
Proof. apply last_row_stored. Qed.

Lemma last_row_wins_witness :
  exists b cat,
    find_book "F001" {| categories := [fiction]; books := [dune_book 4] |}
    = Some b
    /\ find_category "Fiction"
         {| categories := [fiction]; books := [dune_book 4] |} = Some cat
    /\ category b = category_id cat
    /\ title b = "Dune"
    /\ authors b = Some "Herbert"
    /\ number_of_copies b = parse_copies "4".
Proof.
  apply (last_row_wins [dune (Some "3"); untitled; dune (Some "4")]
           no_counts
           {| added := 1; updated := 1; skipped := 1;
              updated_books := ["F001 (Dune)"];
              skipped_rows := [("Poetry", "P001")] |}
           empty_catalog
           {| categories := [fiction]; books := [dune_book 4] |}
           [AddedNewBook "F001 (Dune)"; SkippingRow untitled;
            UpdatedExistingBook "F001 (Dune)"]
           "F001"
           {| row_category_name := "Fiction"; row_book_code := "F001";
              row_title := "Dune"; row_authors := Some "Herbert";
              row_number_of_copies := "4" |});
    reflexivity.
Defined.

(* ===================================================================== *)
(** ** Reading a row *)
(* ===================================================================== *)

(** X15.  What reading a row can raise: a [KeyError], and then for one of
    the five expected columns, which the row does lack; or an
    [AttributeError], and then the cell of CATEGORY, BOOK CODE, BOOK TITLE
    or NO. OF COPIES is [None].  A BOOK AUTHOR cell that is [None] raises
    nothing. *)
Theorem read_row_raises (row : Row) (e : exn) :
  read_row row = Raised e ->
  (exists key,
     e = KeyError key
     /\ In key ["CATEGORY"; "BOOK CODE"; "BOOK TITLE"; "BOOK AUTHOR";
                "NO. OF COPIES"]
     /\ getitem row key = Raised (KeyError key))
  \/ (exists key,
        e = AttributeError
        /\ In key ["CATEGORY"; "BOOK CODE"; "BOOK TITLE"; "NO. OF COPIES"]
        /\ getitem row key = Returned None).
Proof. apply read_row_raised. Qed.

Lemma read_row_raises_witness :
  (exists key,
     KeyError "NO. OF COPIES" = KeyError key
     /\ In key ["CATEGORY"; "BOOK CODE"; "BOOK TITLE"; "BOOK AUTHOR";
                "NO. OF COPIES"]
     /\ getitem no_copies_column key = Raised (KeyError key))
  \/ (exists key,
        KeyError "NO. OF COPIES" = AttributeError
        /\ In key ["CATEGORY"; "BOOK CODE"; "BOOK TITLE"; "NO. OF COPIES"]
        /\ getitem no_copies_column key = Returned None).
Proof.
  apply (read_row_raises no_copies_column (KeyError "NO. OF COPIES")).
  reflexivity.
Defined.

(** X16.  The authors of a row that has been read are [None] exactly when
    the BOOK AUTHOR cell is [None] or the empty string.  A cell of white
    space only is not empty: it gives the empty string as authors, not
    [None]. *)
Theorem authors_of_row (row : Row) (l : Locals) :
  read_row row = Returned l ->
  exists cell,
    getitem row "BOOK AUTHOR" = Returned cell
    /\ (row_authors l = None <-> cell = None \/ cell = Some "")
    /\ (forall s, cell = Some s -> s <> "" ->
                  row_authors l = Some (Py.strip s))
    /\ (forall s, cell = Some s -> s <> "" -> blank s = true ->
                  row_authors l = Some "").
Proof.
  unfold read_row. intros H.
  destruct (obind (getitem row "CATEGORY") strip); simpl in H; [|discriminate].
  destruct (obind (getitem row "BOOK CODE") strip); simpl in H; [|discriminate].
  destruct (obind (getitem row "BOOK TITLE") strip); simpl in H;
    [|discriminate].
  destruct (getitem row "BOOK AUTHOR") as [cell|]; simpl in H; [|discriminate].
  destruct (obind (getitem row "NO. OF COPIES") strip); simpl in H;
    [|discriminate].
  inversion H; subst l. clear H. simpl. exists cell.
  split; [reflexivity|].
  destruct cell as [[|ch s]|].
  - split; [split; [now right|reflexivity]|].
    split; intros s Hs Hne; inversion Hs; subst; now elim Hne.
  - split; [split; [discriminate|intros [H|H]; discriminate]|].
    split.
    + intros s0 Hs _. now inversion Hs.
    + intros s0 Hs _ Hb. inversion Hs; subst s0.
      apply strip_empty_iff in Hb. now rewrite Hb.
  - split; [split; [now left|reflexivity]|].
    split; intros s Hs; discriminate.
Qed.

Lemma authors_of_row_witness :
  exists cell,
    getitem (csv_row (Some "Fiction") (Some "F009") (Some "Ulysses")
                     (Some "  ") (Some "1")) "BOOK AUTHOR" = Returned cell
    /\ (Some "" = None <-> cell = None \/ cell = Some "")
    /\ (forall s, cell = Some s -> s <> "" -> Some "" = Some (Py.strip s))
    /\ (forall s, cell = Some s -> s <> "" -> blank s = true ->
                  Some "" = Some "").
Proof.
  apply (authors_of_row
           (csv_row (Some "Fiction") (Some "F009") (Some "Ulysses")
                    (Some "  ") (Some "1"))
           {| row_category_name := "Fiction"; row_book_code := "F009";
              row_title := "Ulysses"; row_authors := Some "";
              row_number_of_copies := "1" |}).
  reflexivity.
Defined.

Lemma rstrip_idempotent (s : string) : Py.rstrip (Py.rstrip s) = Py.rstrip s.
Proof.
  induction s as [|c s IH]; [reflexivity|].
  cbn [Py.rstrip].
  destruct (Py.rstrip s) as [|a r] eqn:Hr.
  - destruct (Py.isspace c) eqn:Hc; [reflexivity|].
    cbn [Py.rstrip]. now rewrite Hc.
  - cbn [Py.rstrip]. cbn [Py.rstrip] in IH.
    destruct (Py.rstrip r) as [|a' r'] eqn:Hr'.
    + destruct (Py.isspace a); [discriminate|]. now inversion IH.
    + now inversion IH.
Qed.

Lemma strip_idempotent (s : string) : Py.strip (Py.strip s) = Py.strip s.
Proof.
  unfold Py.strip.
  assert (H : Py.lstrip s = ""
              \/ exists c t, Py.lstrip s = String c t
                             /\ Py.isspace c = false).
  { induction s as [|c s IH]; simpl; [now left|].
    destruct (Py.isspace c) eqn:Hc; [assumption|].
    right. now exists c, s. }
  destruct H as [->|(c & t & -> & Hc)]; [reflexivity|].
  assert (Hhead : exists r, Py.rstrip (String c t) = String c r).
  { cbn [Py.rstrip]. destruct (Py.rstrip t); rewrite ?Hc; now eexists. }
  destruct Hhead as [r Hr].
  rewrite Hr. cbn [Py.lstrip]. rewrite Hc, <- Hr.
  apply rstrip_idempotent.
Qed.

(** X17.  The values read from a row carry no white space at either end:
    stripping the category name, the code, the title, the number of copies
    or the authors of a row that has been read changes nothing. *)
Theorem row_values_are_stripped (row : Row) (l : Locals) :
  read_row row = Returned l ->
  Py.strip (row_category_name l) = row_category_name l
  /\ Py.strip (row_book_code l) = row_book_code l
  /\ Py.strip (row_title l) = row_title l
  /\ Py.strip (row_number_of_copies l) = row_number_of_copies l
  /\ forall a, row_authors l = Some a -> Py.strip a = a.
Proof.
  unfold read_row. intros H.
  destruct (getitem row "CATEGORY") as [[s1|]|]; simpl in H;
    try discriminate.
  destruct (getitem row "BOOK CODE") as [[s2|]|]; simpl in H;
    try discriminate.
  destruct (getitem row "BOOK TITLE") as [[s3|]|]; simpl in H;
    try discriminate.
  destruct (getitem row "BOOK AUTHOR") as [cell|]; simpl in H;
    try discriminate.
  destruct (getitem row "NO. OF COPIES") as [[s5|]|]; simpl in H;
    try discriminate.
  inversion H; subst l. clear H. cbn [row_category_name row_book_code
    row_title row_number_of_copies row_authors].
  repeat split; try apply strip_idempotent.
  intros a Ha. destruct cell as [[|ch s]|]; try discriminate.
  inversion Ha. apply strip_idempotent.
Qed.

Lemma row_values_are_stripped_witness :
  let l := {| row_category_name := "Sci Fi"; row_book_code := "F010";
              row_title := "Solaris"; row_authors := Some "Lem";
              row_number_of_copies := "2" |} in
  Py.strip (row_category_name l) = row_category_name l
  /\ Py.strip (row_book_code l) = row_book_code l
  /\ Py.strip (row_title l) = row_title l
  /\ Py.strip (row_number_of_copies l) = row_number_of_copies l
  /\ forall a, row_authors l = Some a -> Py.strip a = a.
Proof.
  apply (row_values_are_stripped
           (csv_row (Some "  Sci Fi ") (Some "F010 ") (Some " Solaris")
                    (Some " Lem ") (Some " 2 "))).
  reflexivity.
Defined.

(* ===================================================================== *)
(** ** Values the Book table refuses *)
(* ===================================================================== *)

(** X18.  A row with a title whose NO. OF COPIES reads as a negative
    number is never imported: the import raises a database error, which
    ends the run, and no Book is written or changed. *)
Theorem negative_copies_are_refused (row : Row) (l : Locals) (c : Counts)
    (db : Catalog) :
  read_row row = Returned l ->
  row_title l <> "" ->
  (parse_copies (row_number_of_copies l) < 0)%Z ->
  exists db',
    process_row false row c db = (Raised DatabaseError, db', [])
    /\ books db' = books db.
Proof. apply negative_copies_refused. Qed.

Lemma negative_copies_are_refused_witness :
  exists db',
    process_row false (dune (Some "-5")) no_counts dune_catalog
    = (Raised DatabaseError, db', [])
    /\ books db' = books dune_catalog.
Proof.
  apply (negative_copies_are_refused (dune (Some "-5"))
           {| row_category_name := "Fiction"; row_book_code := "F001";
              row_title := "Dune"; row_authors := Some "Herbert";
              row_number_of_copies := "-5" |});
    [reflexivity|discriminate|reflexivity].
Defined.

(** X19.  [available] of a stored Book: in a catalog where no number of
    copies is negative, and so after any run that started from such a
    catalog, a Book is unavailable exactly when it has no copies. *)
Theorem unavailable_iff_no_copies (dry_run : bool) (folder : Folder)
    (csv_files : list File) (db : Catalog) (b : Book) :
  copies_nonnegative db = true ->
  In b (books (catalog_of (handle dry_run folder csv_files db))) ->
  (available b = false <-> number_of_copies b = 0%Z).
Proof.
  intros Hdb Hin.
  assert (H : copies_nonnegative
                (catalog_of (handle dry_run folder csv_files db)) = true).
  { revert Hdb.
    apply (handle_preserves (fun d => copies_nonnegative d = true)).
    - intros nm.
      apply (get_or_create_preserves_books
               (fun bs => forallb (fun b => (0 <=? number_of_copies b)%Z) bs
                          = true)).
    - intros _. apply update_or_create_nonnegative. }
  unfold copies_nonnegative in H. rewrite forallb_forall in H.
  specialize (H b Hin). apply Z.leb_le in H.
  unfold available. rewrite Z.ltb_ge. lia.
Qed.

Lemma unavailable_iff_no_copies_witness :
  available (dune_book 0) = false <-> number_of_copies (dune_book 0) = 0%Z.
Proof.
  apply (unavailable_iff_no_copies false NoFolder
           [file "books.csv" [dune (Some "0")]] dune_catalog (dune_book 0)).
  - reflexivity.
  - vm_compute. now left.
Defined.

(* ===================================================================== *)
(** ** Importing the same row again *)
(* ===================================================================== *)

(** After [update_or_create] has returned a Book, it is the only Book of
    its code. *)
Lemma update_or_create_only (code : string) (cat : Category) (ttl : string)
    (auth : option string) (copies : Z) (db db1 : Catalog) (obj : Book)
    (created : bool) (o : list Event) :
  update_or_create code cat ttl auth copies db
  = (Returned (obj, created), db1, o) ->
  forall x, In x (books db1) -> book_code x = book_code obj -> x = obj.
Proof.
  unfold update_or_create, find_book.
  destruct (find _ (books db)) as [b|] eqn:Hf.
  - match goal with |- context [Book_fits ?y] => set (new := y) end.
    destruct (Book_fits new); [|discriminate].
    intros H. inversion H; subst obj created db1 o. clear H. simpl.
    intros x Hx Hcode. unfold replace_book in Hx.
    apply in_map_iff in Hx as (y & Hy & _).
    destruct (String.eqb (book_code y) (book_code new)) eqn:E;
      [now symmetry|].
    rewrite <- Hy in Hcode. apply String.eqb_neq in E. now elim E.
  - match goal with |- context [Book_fits ?y] => set (new := y) end.
    destruct (Book_fits new); [|discriminate].
    intros H. inversion H; subst obj created db1 o. clear H. simpl.
    intros x Hx Hcode. apply in_app_or in Hx as [Hx|[Hx|[]]];
      [|now symmetry].
    apply (find_none _ _ Hf) in Hx. simpl in *.
    rewrite Hcode, String.eqb_refl in Hx. discriminate.
Qed.

Lemma replace_book_fix (obj : Book) (bs : list Book) :
  (forall x, In x bs -> book_code x = book_code obj -> x = obj) ->
  replace_book obj bs = bs.
Proof.
  intros H. unfold replace_book. rewrite <- (map_id bs) at 2.
  apply map_ext_in. intros x Hx.
  destruct (String.eqb (book_code x) (book_code obj)) eqn:E; [|reflexivity].
  apply String.eqb_eq in E. symmetry. now apply H.
Qed.

(** The import of a row whose values are those of the only Book of its
    code. *)
Lemma import_stored_row (row : Row) (l : Locals) (c : Counts) (db : Catalog)
    (cat : Category) (obj : Book) :
  read_row row = Returned l ->
  row_title l <> "" ->
  find_category (row_category_name l) db = Some cat ->
  find_book (row_book_code l) db = Some obj ->
  Book_fits obj = true ->
  category obj = category_id cat ->
  title obj = row_title l ->
  authors obj = row_authors l ->
  number_of_copies obj = parse_copies (row_number_of_copies l) ->
  (forall x, In x (books db) -> book_code x = book_code obj -> x = obj) ->
  process_row false row c db
  = (Returned (count_updated (Book_str obj) c), db,
     [UpdatedExistingBook (Book_str obj)]).
Proof.
  intros Hl Ht Hcat Hfind Hfits Hc Hti Ha Hn Honly.
  unfold process_row, bind, lift. rewrite Hl.
  destruct (String.eqb (row_title l) "") eqn:E;
    [now apply String.eqb_eq in E|].
  rewrite (get_or_create_present _ _ _ Hcat). simpl.
  unfold apply_row, bind, update_or_create. rewrite Hfind.
  assert (Hobj : {| book_id := book_id obj; category := category_id cat;
                    book_code := book_code obj; title := row_title l;
                    authors := row_authors l;
                    number_of_copies :=
                      parse_copies (row_number_of_copies l) |} = obj).
  { rewrite <- Hc, <- Hti, <- Ha, <- Hn. now destruct obj. }
  rewrite Hobj, Hfits, (replace_book_fix obj (books db) Honly). simpl.
  now destruct db.
Qed.

(** X20.  Importing a row a second time, right after it has been imported,
    changes nothing in the catalog; the row is counted as updated, with the
    Book as its label. *)
Theorem reimport_changes_nothing (row : Row) (l : Locals) (c c1 c2 : Counts)
    (db d1 : Catalog) (o1 : list Event) :
  read_row row = Returned l ->
  row_title l <> "" ->
  process_row false row c db = (Returned c1, d1, o1) ->
  exists b,
    find_book (row_book_code l) d1 = Some b
    /\ process_row false row c2 d1
       = (Returned (count_updated (Book_str b) c2), d1,
          [UpdatedExistingBook (Book_str b)]).
Proof.
  intros Hl Ht Hrun.
  assert (Hfirst : exists cat obj,
             find_category (row_category_name l) d1 = Some cat
             /\ find_book (row_book_code l) d1 = Some obj
             /\ Book_fits obj = true
             /\ category obj = category_id cat
             /\ title obj = row_title l
             /\ authors obj = row_authors l
             /\ number_of_copies obj = parse_copies (row_number_of_copies l)
             /\ forall x, In x (books d1) ->
                          book_code x = book_code obj -> x = obj).
  { revert Hrun. unfold process_row, bind, lift. rewrite Hl.
    destruct (String.eqb (row_title l) "") eqn:E;
      [now apply String.eqb_eq in E|].
    destruct (get_or_create (row_category_name l) db)
      as [[[[cat created]|e] d0] og] eqn:Hg; [|discriminate].
    destruct (get_or_create_returned _ _ _ _ _ _ Hg) as (Hcat & _ & _ & _).
    simpl. unfold apply_row, bind.
    destruct (update_or_create _ _ _ _ _ d0) as [[[[obj cr]|e] d2] o2]
      eqn:Hu; [|discriminate].
    destruct (update_or_create_returned _ _ _ _ _ _ _ _ _ _ Hu)
      as (Hfind & Hfits & _ & Hc & Hti & Ha & Hn & Hcs).
    pose proof (update_or_create_only _ _ _ _ _ _ _ _ _ _ Hu) as Honly.
    assert (Hd : d1 = d2 -> exists cat0 obj0,
               find_category (row_category_name l) d1 = Some cat0
               /\ find_book (row_book_code l) d1 = Some obj0
               /\ Book_fits obj0 = true
               /\ category obj0 = category_id cat0
               /\ title obj0 = row_title l
               /\ authors obj0 = row_authors l
               /\ number_of_copies obj0
                  = parse_copies (row_number_of_copies l)
               /\ forall x, In x (books d1) ->
                            book_code x = book_code obj0 -> x = obj0).
    { intros ->. exists cat, obj. repeat split; try assumption.
      unfold find_category in *. now rewrite Hcs. }
    destruct cr; simpl; intros H; apply Hd; now inversion H. }
  destruct Hfirst
    as (cat & obj & Hcat & Hfind & Hfits & Hc & Hti & Ha & Hn & Honly).
  exists obj. split; [exact Hfind|].
  now apply (import_stored_row row l c2 d1 cat obj).
Qed.

Lemma reimport_changes_nothing_witness :
  exists b,
    find_book "F001" {| categories := [fiction]; books := [dune_book 5] |}
    = Some b
    /\ process_row false (dune (Some "5")) no_counts
                   {| categories := [fiction]; books := [dune_book 5] |}
       = (Returned (count_updated (Book_str b) no_counts),
          {| categories := [fiction]; books := [dune_book 5] |},
          [UpdatedExistingBook (Book_str b)]).
Proof.
  apply (reimport_changes_nothing (dune (Some "5"))
           {| row_category_name := "Fiction"; row_book_code := "F001";
              row_title := "Dune"; row_authors := Some "Herbert";
              row_number_of_copies := "5" |}
           no_counts (count_updated "F001 (Dune)" no_counts) no_counts
           dune_catalog
           {| categories := [fiction]; books := [dune_book 5] |}
           [UpdatedExistingBook "F001 (Dune)"]);
    [reflexivity|discriminate|reflexivity].
Defined.

(* ===================================================================== *)
(** ** Importing the same rows again *)
(* ===================================================================== *)

Lemma last_with_code_code (code : string) (rows : list Row) (l : Locals) :
  last_with_code code rows = Some l ->
  row_book_code l = code /\ row_title l <> "".
Proof.
  induction rows as [|row rows IH]; simpl; [discriminate|].
  destruct (last_with_code code rows) as [l'|].
  - intros H. inversion H; subst. now apply IH.
  - destruct (read_row row) as [l0|]; [|discriminate].
    destruct (String.eqb (row_title l0) "") eqn:E; [discriminate|].
    destruct (String.eqb (row_book_code l0) code) eqn:Ec; [|discriminate].
    simpl. intros H. inversion H; subst.
    split; [now apply String.eqb_eq|now apply String.eqb_neq].
Qed.

Lemma last_with_code_snoc (code : string) (p : list Row) (row : Row) :
  last_with_code code (p ++ [row])
  = match read_row row with
    | Returned l =>
        if negb (String.eqb (row_title l) "")
           && String.eqb (row_book_code l) code
        then Some l else last_with_code code p
    | Raised _ => last_with_code code p
    end.
Proof.
  induction p as [|x p IH]; simpl.
  - now destruct (read_row row) as [l|];
      [destruct (negb _ && _)|].
  - rewrite IH.
    destruct (read_row row) as [l|]; [|reflexivity].
    destruct (negb (String.eqb (row_title l) "")
              && String.eqb (row_book_code l) code); [reflexivity|].
    reflexivity.
Qed.

Lemma rewritten_key (db : Catalog) (rows : list Row) (b : Book) :
  book_id (rewritten db rows b) = book_id b
  /\ book_code (rewritten db rows b) = book_code b.
Proof.
  unfold rewritten.
  destruct (last_with_code (book_code b) rows) as [l|] eqn:Hl; [|now split].
  destruct (find_category (row_category_name l) db); [|now split].
  simpl. split; [reflexivity|]. now apply last_with_code_code in Hl.
Qed.

Lemma find_map_code (F : Book -> Book) (code : string) (bs : list Book) :
  (forall b, book_code (F b) = book_code b) ->
  find (fun x => String.eqb (book_code x) code) (map F bs)
  = option_map F (find (fun x => String.eqb (book_code x) code) bs).
Proof.
  intros HF. induction bs as [|b bs IH]; simpl; [reflexivity|].
  rewrite HF. now destruct (String.eqb (book_code b) code).
Qed.

Lemma unique_by_code (bs : list Book) (b b' : Book) :
  NoDup (map book_code bs) ->
  find (fun x => String.eqb (book_code x) (book_code b)) bs = Some b' ->
  In b bs ->
  b' = b.
Proof.
  intros Hnd. induction bs as [|x bs IH]; simpl; [contradiction|].
  inversion Hnd as [|? ? Hx Hbs]; subst.
  destruct (String.eqb (book_code x) (book_code b)) eqn:E.
  - intros H [->|Hin]; [now inversion H|].
    apply String.eqb_eq in E. elim Hx. rewrite E. now apply in_map.
  - intros H [->|Hin]; [now rewrite String.eqb_refl in E|].
    now apply IH.
Qed.

(** The values of a row fit the columns or not, whatever the primary key
    and the category. *)
Lemma Book_fits_fields (b b' : Book) :
  book_code b = book_code b' -> title b = title b' ->
  authors b = authors b' -> number_of_copies b = number_of_copies b' ->
  Book_fits b = Book_fits b'.
Proof. unfold Book_fits. now intros -> -> -> ->. Qed.

(** What the import of a row with a title establishes. *)
Lemma import_row_facts (row : Row) (l : Locals) (c c' : Counts)
    (db db' : Catalog) (o : list Event) :
  read_row row = Returned l ->
  row_title l <> "" ->
  process_row false row c db = (Returned c', db', o) ->
  (exists cat, find_category (row_category_name l) db' = Some cat)
  /\ find_book (row_book_code l) db' <> None
  /\ forall i cat, Book_fits (book_of_row i cat l) = true.
Proof.
  intros Hl Ht. unfold process_row, bind, lift. rewrite Hl.
  destruct (String.eqb (row_title l) "") eqn:E;
    [now apply String.eqb_eq in E|].
  destruct (get_or_create (row_category_name l) db)
    as [[[[cat created]|e] d0] og] eqn:Hg; [|discriminate].
  destruct (get_or_create_returned _ _ _ _ _ _ Hg) as (Hcat & _ & _ & _).
  simpl. unfold apply_row, bind.
  destruct (update_or_create _ _ _ _ _ d0) as [[[[obj cr]|e] d2] o2] eqn:Hu;
    [|discriminate].
  destruct (update_or_create_returned _ _ _ _ _ _ _ _ _ _ Hu)
    as (Hfind & Hfits & Hcode & _ & Hti & Ha & Hn & Hcs).
  assert (Hd : db' = d2 ->
               (exists cat0, find_category (row_category_name l) db'
                             = Some cat0)
               /\ find_book (row_book_code l) db' <> None
               /\ forall i cat0, Book_fits (book_of_row i cat0 l) = true).
  { intros ->. split; [|split].
    - exists cat. unfold find_category in *. now rewrite Hcs.
    - now rewrite Hfind.
    - intros i cat0. rewrite <- Hfits. now apply Book_fits_fields. }
  destruct cr; simpl; intros H; apply Hd; now inversion H.
Qed.

Lemma import_rows_keep_code (code : string) (rows : list Row) (c : Counts)
    (db : Catalog) :
  find_book code db <> None ->
  find_book code (catalog_of (process_rows false rows c db)) <> None.
Proof.
  apply (process_rows_preserves (fun d => find_book code d <> None)).
  - intros nm.
    apply (get_or_create_preserves_books
             (fun bs => find (fun x => String.eqb (book_code x) code) bs
                        <> None)).
  - intros _ code' cat ttl auth copies. apply update_or_create_keeps_codes.
Qed.

(** After the rows have been imported, every one of them can be read, and
    for each with a title the catalog holds its category and a Book of its
    code, and its values fit the columns. *)
Lemma import_rows_facts (rows : list Row) :
  forall (c c1 : Counts) (db d1 : Catalog) (o1 : list Event),
    process_rows false rows c db = (Returned c1, d1, o1) ->
    forall row, In row rows ->
      exists l,
        read_row row = Returned l
        /\ (row_title l <> "" ->
            (exists cat, find_category (row_category_name l) d1 = Some cat)
            /\ find_book (row_book_code l) d1 <> None
            /\ forall i cat, Book_fits (book_of_row i cat l) = true).
Proof.
  induction rows as [|r rows IH]; intros c c1 db d1 o1 Hrun row Hin;
    [contradiction|].
  rewrite process_rows_cons in Hrun.
  destruct (process_row false r c db) as [[[c'|e] d'] o'] eqn:Hrow;
    [|discriminate].
  destruct (process_rows false rows c' d') as [[r2 d2] o2] eqn:Hrows.
  unfold after_output, result_of, catalog_of in Hrun. simpl in Hrun.
  inversion Hrun; subst r2 d2. clear Hrun.
  destruct Hin as [->|Hin]; [|now apply (IH _ _ _ _ _ Hrows)].
  destruct (read_row row) as [l|e] eqn:Hl.
  - exists l. split; [reflexivity|]. intros Ht.
    destruct (import_row_facts _ _ _ _ _ _ _ Hl Ht Hrow)
      as ([cat Hcat] & Hbook & Hfits).
    split; [|split; [|exact Hfits]].
    + exists cat.
      pose proof (import_rows_keep_category _ _ rows c' d' Hcat) as Hk.
      now rewrite Hrows in Hk.
    + pose proof (import_rows_keep_code _ rows c' d' Hbook) as Hk.
      now rewrite Hrows in Hk.
  - rewrite (process_row_unread _ _ _ _ _ Hl) in Hrow. discriminate.
Qed.

Lemma reimported_nil (db : Catalog) : reimported db [] = db.
Proof.
  unfold reimported, rewritten. simpl. rewrite map_id. now destruct db.
Qed.

Lemma reimported_blank (db : Catalog) (p : list Row) (row : Row)
    (l : Locals) :
  read_row row = Returned l ->
  row_title l = "" ->
  reimported db (p ++ [row]) = reimported db p.
Proof.
  intros Hl Ht. unfold reimported. f_equal. apply map_ext. intros b.
  unfold rewritten. now rewrite last_with_code_snoc, Hl, Ht.
Qed.

(** One more row with a title, imported again. *)
Lemma reimport_row (d1 : Catalog) (p : list Row) (row : Row) (l : Locals)
    (c : Counts) :
  NoDup (map book_code (books d1)) ->
  read_row row = Returned l ->
  row_title l <> "" ->
  (exists cat, find_category (row_category_name l) d1 = Some cat) ->
  find_book (row_book_code l) d1 <> None ->
  (forall i cat, Book_fits (book_of_row i cat l) = true) ->
  exists c' o',
    process_row false row c (reimported d1 p)
    = (Returned c', reimported d1 (p ++ [row]), o').
Proof.
  intros Hnd Hl Ht [cat Hcat] Hbook Hfits.
  destruct (find_book (row_book_code l) d1) as [bk|] eqn:Hbk;
    [clear Hbook|now elim Hbook].
  assert (Hcode : book_code bk = row_book_code l).
  { unfold find_book in Hbk. apply find_some in Hbk as [_ Hbk].
    now apply String.eqb_eq in Hbk. }
  unfold process_row, bind, lift. rewrite Hl.
  destruct (String.eqb (row_title l) "") eqn:E;
    [now apply String.eqb_eq in E|].
  assert (Hcat' : find_category (row_category_name l) (reimported d1 p)
                  = Some cat) by exact Hcat.
  rewrite (get_or_create_present _ _ _ Hcat'). simpl.
  unfold apply_row, bind, update_or_create.
  assert (Hfind : find_book (row_book_code l) (reimported d1 p)
                  = Some (rewritten d1 p bk)).
  { unfold find_book, reimported. simpl.
    rewrite find_map_code by (intros b; apply rewritten_key).
    unfold find_book in Hbk. now rewrite Hbk. }
  rewrite Hfind.
  destruct (rewritten_key d1 p bk) as [Hid Hco].
  rewrite Hid, Hco, Hcode.
  fold (book_of_row (book_id bk) cat l). rewrite Hfits.
  assert (Hbooks : replace_book (book_of_row (book_id bk) cat l)
                     (books (reimported d1 p))
                   = books (reimported d1 (p ++ [row]))).
  { unfold reimported, replace_book. simpl. rewrite map_map.
    apply map_ext_in. intros b Hb.
    destruct (rewritten_key d1 p b) as [_ ->].
    destruct (String.eqb (book_code b) (row_book_code l)) eqn:Eb.
    - apply String.eqb_eq in Eb.
      assert (b = bk).
      { symmetry. apply (unique_by_code (books d1)); try assumption.
        unfold find_book in Hbk. now rewrite Eb. }
      subst b. unfold rewritten.
      rewrite last_with_code_snoc, Hl, E, Hcode, String.eqb_refl. simpl.
      now rewrite Hcat.
    - unfold rewritten. rewrite last_with_code_snoc, Hl, E.
      rewrite String.eqb_sym, Eb. reflexivity. }
  simpl. do 2 eexists. f_equal. f_equal.
  unfold reimported in *. simpl in *. now rewrite Hbooks.
Qed.

Lemma reimport_rows (d1 : Catalog) (q : list Row) :
  NoDup (map book_code (books d1)) ->
  forall (p : list Row) (c : Counts),
    (forall row, In row q ->
       exists l,
         read_row row = Returned l
         /\ (row_title l <> "" ->
             (exists cat, find_category (row_category_name l) d1 = Some cat)
             /\ find_book (row_book_code l) d1 <> None
             /\ forall i cat, Book_fits (book_of_row i cat l) = true)) ->
    exists c' o',
      process_rows false q c (reimported d1 p)
      = (Returned c', reimported d1 (p ++ q), o').
Proof.
  intros Hnd. induction q as [|row q IH]; intros p c Hfacts.
  - rewrite app_nil_r. simpl. now do 2 eexists.
  - destruct (Hfacts row (or_introl eq_refl)) as (l & Hl & Hrow).
    assert (Hstep : exists c' o',
               process_row false row c (reimported d1 p)
               = (Returned c', reimported d1 (p ++ [row]), o')).
    { destruct (String.eqb (row_title l) "") eqn:E.
      - apply String.eqb_eq in E.
        rewrite (process_row_no_title _ _ _ _ _ Hl E).
        rewrite (reimported_blank _ _ _ _ Hl E). now do 2 eexists.
      - apply String.eqb_neq in E.
        destruct (Hrow E) as (Hcat & Hbook & Hfits).
        now apply (reimport_row d1 p row l c). }
    destruct Hstep as (c1 & o1 & Hstep).
    destruct (IH (p ++ [row]) c1) as (c2 & o2 & Hrest).
    { intros r Hr. apply Hfacts. now right. }
    rewrite <- app_assoc in Hrest. simpl in Hrest.
    rewrite process_rows_cons, Hstep, Hrest.
    unfold after_output, result_of, catalog_of, output_of. simpl.
    now do 2 eexists.
Qed.

(** Every Book is what the rows imported before make of it. *)
Lemma reimported_all (rows : list Row) (c c1 : Counts) (db d1 : Catalog)
    (o1 : list Event) :
  NoDup (map book_code (books d1)) ->
  process_rows false rows c db = (Returned c1, d1, o1) ->
  reimported d1 rows = d1.
Proof.
  intros Hnd Hrun. unfold reimported.
  assert (H : map (rewritten d1 rows) (books d1) = books d1).
  { rewrite <- (map_id (books d1)) at 2. apply map_ext_in. intros b Hb.
    unfold rewritten.
    destruct (last_with_code (book_code b) rows) as [l|] eqn:Hlast;
      [|reflexivity].
    destruct (last_row_stored rows _ _ _ _ _ _ _ Hrun Hlast)
      as (b' & cat & Hb' & Hcat & Hc & Hti & Ha & Hn).
    rewrite Hcat.
    assert (b' = b) by now apply (unique_by_code (books d1)).
    subst b'. apply last_with_code_code in Hlast as [Hcode _].
    unfold book_of_row. rewrite <- Hc, <- Hti, <- Ha, <- Hn, Hcode.
    now destruct b. }
  rewrite H. now destruct d1.
Qed.

(** Importing the rows of a file again, right after they have all
    been imported into a well-formed catalog, returns and leaves the
    catalog exactly as the first import left it. *)
Theorem reimport_rows_changes_nothing (rows : list Row) (c c1 c2 : Counts)
    (db d1 : Catalog) (o1 : list Event) :
  well_formed db = true ->
  process_rows false rows c db = (Returned c1, d1, o1) ->
  exists c3 o3, process_rows false rows c2 d1 = (Returned c3, d1, o3).
Proof.
  intros Hwf Hrun.
  assert (Hwf1 : well_formed d1 = true).
  { pose proof (process_rows_keep (fun d => well_formed d = true) false)
      as Hk.
    assert (Hrow : forall row c0,
               preserves (fun d => well_formed d = true)
                         (process_row false row c0)).
    { intros row c0 d Hd.
      destruct (process_row_well_formed false row c0 d d) as [H _];
        [|exact H].
      split; [assumption|]. exists []. now rewrite app_nil_r. }
    specialize (Hk Hrow rows c db Hwf). now rewrite Hrun in Hk. }
  apply well_formed_iff in Hwf1 as (_ & _ & _ & Hnd & _).
  destruct (reimport_rows d1 rows Hnd [] c2
              (import_rows_facts rows _ _ _ _ _ Hrun))
    as (c3 & o3 & H).
  rewrite reimported_nil in H. simpl in H.
  rewrite (reimported_all rows _ _ _ _ _ Hnd Hrun) in H.
  now exists c3, o3.
Qed.

Lemma reimport_rows_changes_nothing_witness :
  exists c3 o3,
    process_rows false [dune (Some "3"); untitled; dune (Some "4")]
                 no_counts
                 {| categories := [fiction]; books := [dune_book 4] |}
    = (Returned c3, {| categories := [fiction]; books := [dune_book 4] |},
       o3).
Proof.
  apply (reimport_rows_changes_nothing
           [dune (Some "3"); untitled; dune (Some "4")]
           no_counts
           {| added := 1; updated := 1; skipped := 1;
              updated_books := ["F001 (Dune)"];
              skipped_rows := [("Poetry", "P001")] |}
           no_counts empty_catalog
           {| categories := [fiction]; books := [dune_book 4] |}
           [AddedNewBook "F001 (Dune)"; SkippingRow untitled;
            UpdatedExistingBook "F001 (Dune)"]);
    reflexivity.
Defined.

(* ===================================================================== *)
(** ** Running the same import again *)
(* ===================================================================== *)

(** The counters a row starts from change neither what it does to the
    catalog nor what it writes. *)
Lemma process_row_any_counts (row : Row) (c c0 c1 : Counts) (d d1 : Catalog)
    (o : list Event) :
  process_row false row c d = (Returned c1, d1, o) ->
  exists c2, process_row false row c0 d = (Returned c2, d1, o).
Proof.
  unfold process_row, bind, lift.
  destruct (read_row row) as [l|e]; [|discriminate].
  destruct (String.eqb (row_title l) "").
  - simpl. intros H. inversion H. now eexists.
  - destruct (get_or_create (row_category_name l) d)
      as [[[[cat cr]|e] d0] og]; [|discriminate].
    simpl. unfold apply_row, bind.
    destruct (update_or_create _ _ _ _ _ d0) as [[[[obj created]|e] d2] ou];
      [|discriminate].
    destruct created; simpl; intros H; inversion H; now eexists.
Qed.

Lemma process_rows_any_counts (rows : list Row) :
  forall (c c0 c1 : Counts) (d d1 : Catalog) (o : list Event),
    process_rows false rows c d = (Returned c1, d1, o) ->
    exists c2, process_rows false rows c0 d = (Returned c2, d1, o).
Proof.
  induction rows as [|row rows IH]; intros c c0 c1 d d1 o H.
  - simpl in *. inversion H. now eexists.
  - rewrite process_rows_cons in H. rewrite process_rows_cons.
    destruct (process_row false row c d) as [[[c'|e] d'] o'] eqn:Hrow;
      [|discriminate].
    destruct (process_row_any_counts row c c0 c' d d' o' Hrow) as [c0' ->].
    destruct (process_rows false rows c' d') as [[r2 d2] o2] eqn:Hrows.
    unfold after_output, result_of, catalog_of, output_of in H. simpl in H.
    inversion H; subst r2 d2 o. clear H.
    destruct (IH c' c0' c1 d' d1 o2 Hrows) as [c2 ->].
    now eexists.
Qed.

(** The rows of a file after which the loop over the files goes on: the
    rows up to the first that cannot be read have been imported, and that
    row, if there is one, raised an exception [handle] catches. *)
Lemma rows_to_readable (rows : list Row) :
  forall (c : Counts) (d d1 : Catalog) (r : outcome Counts) (o : list Event),
    process_rows false rows c d = (r, d1, o) ->
    goes_on r = true ->
    stops_quietly rows = true
    /\ exists c', process_rows false (readable_rows rows) c d
                  = (Returned c', d1, o).
Proof.
  induction rows as [|row rows IH]; intros c d d1 r o H Hgo.
  - simpl in *. inversion H. split; [reflexivity|now eexists].
  - rewrite process_rows_cons in H. simpl.
    destruct (read_row row) as [l|e] eqn:Hl.
    + rewrite process_rows_cons.
      destruct (process_row false row c d) as [[[c'|e] d'] o'] eqn:Hrow.
      * destruct (process_rows false rows c' d') as [[r2 d2] o2] eqn:Hrows.
        unfold after_output, result_of, catalog_of, output_of in H.
        simpl in H. inversion H; subst r2 d2 o. clear H.
        destruct (IH _ _ _ _ _ Hrows Hgo) as [Hq [c2 ->]].
        split; [assumption|now eexists].
      * inversion H; subst r d1 o. exfalso.
        destruct (String.eqb (row_title l) "") eqn:E.
        -- apply String.eqb_eq in E.
           rewrite (process_row_no_title _ _ _ _ _ Hl E) in Hrow.
           discriminate.
        -- apply String.eqb_neq in E. simpl in Hgo.
           rewrite (import_row_raised _ _ _ _ _ _ _ Hl E Hrow) in Hgo.
           discriminate.
    + rewrite (process_row_unread _ _ _ _ _ Hl) in H.
      inversion H; subst r d1 o. simpl in Hgo.
      split; [assumption|]. simpl. now eexists.
Qed.

Lemma readable_to_rows (rows : list Row) :
  forall (c c' : Counts) (d d1 : Catalog) (o : list Event),
    stops_quietly rows = true ->
    process_rows false (readable_rows rows) c d = (Returned c', d1, o) ->
    exists r, process_rows false rows c d = (r, d1, o) /\ goes_on r = true
              /\ (forall c0, r = Returned c0 -> readable_rows rows = rows).
Proof.
  induction rows as [|row rows IH]; intros c c' d d1 o Hq H.
  - simpl in *. inversion H. now eexists.
  - simpl in Hq, H. rewrite process_rows_cons. simpl readable_rows.
    destruct (read_row row) as [l|e] eqn:Hl.
    + rewrite process_rows_cons in H.
      destruct (process_row false row c d) as [[[c1|e] d'] o'] eqn:Hrow;
        [|discriminate].
      destruct (process_rows false (readable_rows rows) c1 d')
        as [[r2 d2] o2] eqn:Hrows.
      unfold after_output, result_of, catalog_of, output_of in H.
      simpl in H. inversion H; subst r2 d2 o. clear H.
      destruct (IH _ _ _ _ _ Hq Hrows) as (r & -> & Hgo & Hall).
      exists r. split; [reflexivity|]. split; [assumption|].
      intros c0 Hr. now rewrite (Hall c0 Hr).
    + rewrite (process_row_unread _ _ _ _ _ Hl).
      simpl in H. inversion H; subst. exists (Raised e).
      split; [reflexivity|]. split; [assumption|discriminate].
Qed.

(** A file after which the import goes on: its rows stop quietly, and when
    they can all be read its reading ends quietly; the rows up to the first
    that cannot be read have been imported. *)
Lemma read_file_quiet (f : File) (c : Counts) (db d1 : Catalog)
    (r : outcome Counts) (o : list Event) :
  read_file false f db = (r, d1, o) ->
  goes_on r = true ->
  stops_quietly (rows_of f) = true
  /\ (readable_rows (rows_of f) = rows_of f -> ends_quietly f = true)
  /\ exists c2, process_rows false (readable_rows (rows_of f)) c db
                = (Returned c2, d1, o).
Proof.
  rewrite read_file_rows_of.
  destruct (process_rows false (rows_of f) no_counts db) as [[rA dA] oA]
    eqn:HA.
  intros H Hgo.
  assert (HgoA : goes_on rA = true).
  { destruct rA as [cA|e]; [reflexivity|]. now inversion H; subst. }
  destruct (rows_to_readable _ _ _ _ _ _ HA HgoA) as [Hq [c' Hr]].
  assert (Hd : dA = d1 /\ oA = o).
  { destruct rA as [cA|e]; [|now inversion H].
    destruct (opened f) as [e|records [e|]]; now inversion H. }
  destruct Hd as [-> ->].
  split; [assumption|]. split.
  - intros Hall. rewrite Hall, HA in Hr. inversion Hr; subst rA.
    unfold ends_quietly.
    destruct (opened f) as [[|]|records [e|]]; try reflexivity;
      inversion H; subst r; try discriminate; now destruct e.
  - destruct (process_rows_any_counts _ _ c _ _ _ _ Hr) as [c2 Hc2].
    now exists c2.
Qed.

(** A run that returns has done to the catalog what the import of its rows,
    taken as one list, does. *)
Lemma files_to_rows (csv_files : list File) :
  forall (total total1 c : Counts) (db d1 : Catalog) (o1 : list Event),
    process_files false csv_files total db = (Returned total1, d1, o1) ->
    (forall f, In f csv_files ->
               stops_quietly (rows_of f) = true
               /\ (readable_rows (rows_of f) = rows_of f ->
                   ends_quietly f = true))
    /\ exists c1 o',
         process_rows false (rows_of_files csv_files) c db
         = (Returned c1, d1, o').
Proof.
  induction csv_files as [|f fs IH]; intros total total1 c db d1 o1 H.
  - simpl in *. inversion H. split; [contradiction|now do 2 eexists].
  - rewrite process_files_cons in H.
    destruct (read_file false f db) as [[r1 d'] o'] eqn:Hfile.
    assert (Hgo : goes_on r1 = true).
    { destruct r1 as [c0|[]]; try reflexivity; discriminate. }
    assert (Hrest : exists t, process_files false fs t d'
                              = (Returned total1, d1,
                                 output_of (process_files false fs t d'))).
    { destruct r1 as [c0|[]]; try discriminate;
        match type of H with
        | after_output _ (process_files false fs ?t d') = _ =>
            exists t; destruct (process_files false fs t d')
              as [[r2 d2] o2]
        end;
        unfold after_output, result_of, catalog_of, output_of in *;
        simpl in *; now inversion H. }
    destruct Hrest as [t Hrest].
    destruct (read_file_quiet f c _ _ _ _ Hfile Hgo)
      as (Hq & Hend & c2 & Hp).
    destruct (IH _ _ c2 _ _ _ Hrest) as [Hqs (c3 & o3 & Hr)].
    split.
    + intros f0 [<-|Hin]; [now split|now apply (Hqs f0)].
    + unfold rows_of_files. simpl. rewrite process_rows_app, Hp.
      unfold rows_of_files in Hr. rewrite Hr.
      unfold after_output. simpl. now do 2 eexists.
Qed.

(** The files of a run, imported again. *)
Lemma reimport_files (d1 : Catalog) (csv_files : list File) :
  NoDup (map book_code (books d1)) ->
  forall (p : list Row) (total : Counts),
    (forall f, In f csv_files ->
               stops_quietly (rows_of f) = true
               /\ (readable_rows (rows_of f) = rows_of f ->
                   ends_quietly f = true)) ->
    (forall row, In row (rows_of_files csv_files) ->
       exists l,
         read_row row = Returned l
         /\ (row_title l <> "" ->
             (exists cat, find_category (row_category_name l) d1 = Some cat)
             /\ find_book (row_book_code l) d1 <> None
             /\ forall i cat, Book_fits (book_of_row i cat l) = true)) ->
    exists total' o',
      process_files false csv_files total (reimported d1 p)
      = (Returned total', reimported d1 (p ++ rows_of_files csv_files), o').
Proof.
  intros Hnd. induction csv_files as [|f fs IH]; intros p total Hq Hfacts.
  - unfold rows_of_files. simpl. rewrite app_nil_r. now do 2 eexists.
  - rewrite process_files_cons.
    assert (Hfile : exists r o1,
               read_file false f (reimported d1 p)
               = (r, reimported d1 (p ++ readable_rows (rows_of f)), o1)
               /\ goes_on r = true).
    { destruct (Hq f (or_introl eq_refl)) as [Hstop Hend].
      destruct (reimport_rows d1 (readable_rows (rows_of f)) Hnd p no_counts)
        as (c' & o' & Hr).
      { intros row Hrow. apply Hfacts. unfold rows_of_files. simpl.
        apply in_or_app. now left. }
      destruct (readable_to_rows (rows_of f) _ _ _ _ _ Hstop Hr)
        as (r & Hrun & Hgo & Hall).
      rewrite read_file_rows_of, Hrun.
      destruct r as [c|e]; [|now exists (Raised e), o'].
      specialize (Hend (Hall c eq_refl)). unfold ends_quietly in Hend.
      destruct (opened f) as [[|]|records [e|]]; try discriminate.
      - now exists (Raised FileNotFoundError), o'.
      - now exists (Returned c), o'. }
    destruct Hfile as (r & o1 & -> & Hgo).
    assert (Hnext : forall t,
               exists total' o',
                 process_files false fs t
                   (reimported d1 (p ++ readable_rows (rows_of f)))
                 = (Returned total',
                    reimported d1 (p ++ rows_of_files (f :: fs)), o')).
    { intros t.
      destruct (IH (p ++ readable_rows (rows_of f)) t) as (t' & o' & Hr).
      - intros f0 Hin. apply Hq. now right.
      - intros row Hrow. apply Hfacts. unfold rows_of_files. simpl.
        apply in_or_app. now right.
      - exists t', o'. rewrite Hr. unfold rows_of_files. simpl.
        now rewrite app_assoc. }
    destruct r as [c|[]]; try discriminate;
      match goal with
      | |- context [process_files false fs ?t _] =>
          destruct (Hnext t) as (t' & o' & ->)
      end;
      unfold after_output, result_of, catalog_of, output_of; simpl;
      now do 2 eexists.
Qed.

Lemma import_loop_twice (fs : list File) (db : Catalog) :
  well_formed db = true ->
  let import := bind (process_files false fs no_counts)
                     (fun total => write (FinalSummary total)) in
  result_of (import db) = Returned tt ->
  result_of (import (catalog_of (import db))) = Returned tt
  /\ catalog_of (import (catalog_of (import db))) = catalog_of (import db).
Proof.
  intros Hwf. cbv zeta. unfold bind, write.
  pose proof (process_files_keep (fun d => well_formed d = true) false)
    as Hk.
  assert (Hrow : forall row c0,
             preserves (fun d => well_formed d = true)
                       (process_row false row c0)).
  { intros row c0 d Hd.
    destruct (process_row_well_formed false row c0 d d) as [H _];
      [|exact H].
    split; [assumption|]. exists []. now rewrite app_nil_r. }
  specialize (Hk Hrow fs no_counts db Hwf).
  destruct (process_files false fs no_counts db) as [[[t1|e] d1] o1] eqn:H1;
    unfold result_of, catalog_of in *; simpl in *; [|discriminate].
  intros _.
  apply well_formed_iff in Hk as (_ & _ & _ & Hnd & _).
  destruct (files_to_rows fs _ _ no_counts _ _ _ H1)
    as [Hq (c1 & o' & Hflat)].
  destruct (reimport_files d1 fs Hnd [] no_counts Hq
              (import_rows_facts _ _ _ _ _ _ Hflat))
    as (t' & o2 & H2).
  rewrite reimported_nil in H2. simpl in H2.
  rewrite (reimported_all _ _ _ _ _ _ Hnd Hflat) in H2.
  rewrite H2. simpl. now split.
Qed.

(** X21.  Running the same import again: when an import over a well-formed
    catalog has returned, importing the same files once more returns too
    and leaves the catalog exactly as the first run left it, whatever the
    files repeat, skip or lack. *)
Theorem import_twice_changes_nothing (folder : Folder)
    (csv_files : list File) (db : Catalog) :
  well_formed db = true ->
  result_of (handle false folder csv_files db) = Returned tt ->
  let db1 := catalog_of (handle false folder csv_files db) in
  result_of (handle false folder csv_files db1) = Returned tt
  /\ catalog_of (handle false folder csv_files db1) = db1.
Proof.
  intros Hwf. unfold handle.
  destruct folder as [|p|p e|p folder_csvs].
  - destruct csv_files as [|f fs]; [now split|].
    now apply import_loop_twice.
  - now split.
  - discriminate.
  - destruct (csv_files ++ folder_csvs) as [|f fs]; [now split|].
    now apply import_loop_twice.
Qed.

Lemma import_twice_changes_nothing_witness :
  let db1 := catalog_of
               (handle false NoFolder (broken_file :: four_files)
                       dune_catalog) in
  result_of (handle false NoFolder (broken_file :: four_files) db1)
  = Returned tt
  /\ catalog_of (handle false NoFolder (broken_file :: four_files) db1)
     = db1.
Proof.
  apply (import_twice_changes_nothing NoFolder (broken_file :: four_files)
           dune_catalog);
    reflexivity.
Defined.

(* ===================================================================== *)
(** ** What the dry run announces is what the import does *)
(* ===================================================================== *)

Lemma NoDup_map_eq {A B : Type} (f : A -> B) (l : list A) (x y : A) :
  NoDup (map f l) -> In x l -> In y l -> f x = f y -> x = y.
Proof.
  induction l as [|a l IH]; simpl; [contradiction|].
  intros Hnd Hx Hy Hf. inversion Hnd as [|? ? Ha Hl]; subst.
  destruct Hx as [->|Hx], Hy as [->|Hy]; try reflexivity.
  - elim Ha. rewrite Hf. now apply in_map.
  - elim Ha. rewrite <- Hf. now apply in_map.
  - now apply IH.
Qed.

(** X22.  The dry run of a row tells what the import of that row does to
    the Book table.  On a well-formed catalog, for a row with a title whose
    values fit the columns, the dry run returns and announces one of three
    things: an addition, and then the code is not in the catalog and the
    import appends one Book; a skip, and then the import leaves the catalog
    as it is; an update, and then the import replaces the Book of that code
    by a different one. *)
Theorem dry_run_is_accurate (row : Row) (l : Locals) (c : Counts)
    (db : Catalog) :
  well_formed db = true ->
  read_row row = Returned l ->
  row_title l <> "" ->
  row_fits l = true ->
  let dry := process_row true row c db in
  let import := process_row false row c db in
  (exists c', result_of dry = Returned c')
  /\ ((exists ttl auth copies cat b,
         output_of dry = [WouldAdd (row_book_code l) ttl auth copies cat]
         /\ find_book (row_book_code l) db = None
         /\ books (catalog_of import) = books db ++ [b])
      \/ (output_of dry = [WouldSkip (row_book_code l)]
          /\ catalog_of import = db)
      \/ (exists changes b b',
            output_of dry = [WouldUpdate (row_book_code l) changes]
            /\ find_book (row_book_code l) db = Some b
            /\ find_book (row_book_code l) (catalog_of import) = Some b'
            /\ b' <> b)).
Proof.
  intros Hwf Hl Ht Hfits. cbv zeta.
  destruct (get_or_create_fits _ db (row_fits_category l Hfits))
    as (cat & created & d1 & Hg).
  destruct (get_or_create_returned _ _ _ _ _ _ Hg) as (Hcat & Hname & _ & Hb).
  destruct (get_or_create_well_formed (row_category_name l) db Hwf)
    as [Hwf1 _].
  rewrite Hg in Hwf1. unfold catalog_of in Hwf1. simpl in Hwf1.
  pose proof Hwf1 as Hwf1'.
  apply well_formed_iff in Hwf1' as (Hci & Hcn & _ & _ & Href & _ & _).
  assert (Hdry : process_row true row c db
                 = dry_run_row l cat (parse_copies (row_number_of_copies l)) c
                               d1).
  { unfold process_row, bind, lift. rewrite Hl.
    destruct (String.eqb (row_title l) "") eqn:E;
      [now apply String.eqb_eq in E|].
    rewrite Hg. simpl.
    now destruct (dry_run_row l cat _ c d1) as [[r d] o]. }
  rewrite Hdry.
  destruct (find_book (row_book_code l) db) as [existing|] eqn:Hfind.
  - assert (Hfind1 : find_book (row_book_code l) d1 = Some existing).
    { unfold find_book in *. now rewrite Hb. }
    assert (Hin : In existing (books d1)).
    { unfold find_book in Hfind1. now apply find_some in Hfind1. }
    unfold references_ok in Href. rewrite forallb_forall in Href.
    specialize (Href existing Hin).
    destruct (find_category_by_id (category existing) d1) as [ec|] eqn:Hec;
      [clear Href|discriminate].
    destruct (dry_run_comparison l cat
                (parse_copies (row_number_of_copies l)) c d1 existing ec
                Hfind1 Hec) as [Hskip Hupd].
    destruct (apply_existing_row row l c db existing Hl Ht Hfits Hfind)
      as (cat' & db1' & Hcat' & _ & Hcs' & Himp).
    cbv zeta in Himp. rewrite Hg in Hcs'. unfold catalog_of in Hcs'.
    simpl in Hcs'.
    assert (cat' = cat).
    { unfold find_category in *. rewrite Hcs', Hcat in Hcat'.
      now inversion Hcat'. }
    subst cat'.
    assert (Hec_in : In ec (categories d1)
                     /\ category_id ec = category existing).
    { unfold find_category_by_id in Hec. apply find_some in Hec as [H1 H2].
      split; [assumption|now apply Nat.eqb_eq]. }
    assert (Hcat_in : In cat (categories d1)).
    { unfold find_category in Hcat. now apply find_some in Hcat. }
    destruct (changes_of existing ec (row_title l) (row_authors l) cat
                (parse_copies (row_number_of_copies l))) as [|ch chs] eqn:Hch.
    + apply changes_of_nil in Hch as (Hti & Ha & Hn & Hco).
      rewrite (Hskip (conj Hti (conj Ha (conj Hn Hco)))).
      split; [now eexists|]. right. left. split; [reflexivity|].
      assert (ec = cat)
        by now apply (NoDup_map_eq name (categories d1)).
      subst ec.
      assert (Hcatdb : find_category (row_category_name l) db = Some cat).
      { apply well_formed_iff in Hwf as (_ & _ & _ & _ & Href0 & _).
        unfold references_ok in Href0. rewrite forallb_forall in Href0.
        assert (Hin0 : In existing (books db)) by now rewrite <- Hb.
        specialize (Href0 existing Hin0).
        destruct (find_category_by_id (category existing) db) as [c0|] eqn:H0;
          [|discriminate].
        assert (c0 = cat).
        { destruct (get_or_create_extends (row_category_name l) db)
            as [ext Hext].
          rewrite Hg in Hext. unfold catalog_of in Hext. simpl in Hext.
          unfold find_category_by_id in H0, Hec.
          rewrite Hext, (find_app_old _ _ _ _ H0) in Hec. now inversion Hec. }
        subst c0. unfold find_category_by_id in H0.
        apply find_some in H0 as [Hin1 _].
        unfold find_category.
        destruct (find (fun c0 => String.eqb (name c0) (row_category_name l))
                       (categories db)) as [c1|] eqn:Hf1.
        - f_equal. pose proof Hf1 as Hf2. apply find_some in Hf2 as [Hc1 Hn1].
          apply String.eqb_eq in Hn1.
          apply well_formed_iff in Hwf1 as (_ & Hcn1 & _).
          destruct (get_or_create_extends (row_category_name l) db)
            as [ext Hext].
          rewrite Hg in Hext. unfold catalog_of in Hext. simpl in Hext.
          apply (NoDup_map_eq name (categories d1)); try assumption.
          + rewrite Hext. apply in_or_app. now left.
          + now rewrite Hn1.
        - apply (find_none _ _ Hf1) in Hin1. simpl in Hin1.
          rewrite Hname, String.eqb_refl in Hin1. discriminate. }
      rewrite (import_stored_row row l c db cat existing); try assumption.
      * reflexivity.
      * apply well_formed_iff in Hwf as (_ & _ & _ & _ & _ & _ & Hbf).
        rewrite forallb_forall in Hbf. apply Hbf. now rewrite <- Hb.
      * now destruct Hec_in.
      * apply well_formed_iff in Hwf as (_ & _ & _ & Hbc & _).
        intros x Hx Hcode. apply (NoDup_map_eq book_code (books db));
          try assumption. now rewrite <- Hb.
    + destruct Hupd as (ch' & chs' & Hrun).
      { intros (Hti & Ha & Hn & Hco).
        assert (Hnil : changes_of existing ec (row_title l) (row_authors l)
                         cat (parse_copies (row_number_of_copies l)) = [])
          by now apply changes_of_nil.
        rewrite Hnil in Hch. discriminate. }
      rewrite Hrun. split; [now eexists|]. right. right.
      exists (ch' :: chs'), existing,
             (book_of_row (book_id existing) cat l).
      split; [reflexivity|]. split; [reflexivity|].
      rewrite Himp. unfold catalog_of. simpl. split.
      * unfold find_book in *. simpl.
        change (row_book_code l)
          with (book_code (book_of_row (book_id existing) cat l))
          in Hfind |- * at 1.
        now apply (find_replace_book _ existing).
      * intros Heq.
        assert (Hnil : changes_of existing ec (row_title l) (row_authors l)
                         cat (parse_copies (row_number_of_copies l)) = []).
        { apply changes_of_nil. rewrite <- Heq. simpl.
          repeat split; try reflexivity.
          assert (ec = cat); [|now subst].
          destruct Hec_in as [Hi He].
          apply (NoDup_map_eq category_id (categories d1)); try assumption.
          rewrite He, <- Heq. reflexivity. }
        rewrite Hnil in Hch. discriminate.
  - assert (Hfind1 : find_book (row_book_code l) d1 = None).
    { unfold find_book in *. now rewrite Hb. }
    unfold dry_run_row, bind, get. rewrite Hfind1. simpl.
    unfold result_of, output_of. simpl.
    split; [now eexists|]. left.
    destruct (apply_new_row row l c db Hl Ht Hfits Hfind)
      as (cat' & db1' & _ & _ & _ & Himp).
    cbv zeta in Himp. rewrite Himp. unfold catalog_of. simpl.
    do 5 eexists. split; [reflexivity|]. split; reflexivity.
Qed.

Lemma dry_run_is_accurate_witness :
  let row := dune (Some "5") in
  let dry := process_row true row no_counts dune_catalog in
  let import := process_row false row no_counts dune_catalog in
  (exists c', result_of dry = Returned c')
  /\ ((exists ttl auth copies cat b,
         output_of dry = [WouldAdd "F001" ttl auth copies cat]
         /\ find_book "F001" dune_catalog = None
         /\ books (catalog_of import) = books dune_catalog ++ [b])
      \/ (output_of dry = [WouldSkip "F001"]
          /\ catalog_of import = dune_catalog)
      \/ (exists changes b b',
            output_of dry = [WouldUpdate "F001" changes]
            /\ find_book "F001" dune_catalog = Some b
            /\ find_book "F001" (catalog_of import) = Some b'
            /\ b' <> b)).
Proof.
  apply (dry_run_is_accurate (dune (Some "5"))
           {| row_category_name := "Fiction"; row_book_code := "F001";
              row_title := "Dune"; row_authors := Some "Herbert";
              row_number_of_copies := "5" |}
           no_counts dune_catalog);
    [reflexivity|reflexivity|discriminate|reflexivity].
Defined.

(* ===================================================================== *)
(** ** The dry run and the import that follows it *)
(* ===================================================================== *)

(** X23.  A dry run never writes to the Book table: whatever the folder,
    the files and the catalog, and whether the run returns or raises, the
    Books after it are the Books before it. *)
Theorem dry_run_writes_no_book (folder : Folder) (csv_files : list File)
    (db : Catalog) :
  books (catalog_of (handle true folder csv_files db)) = books db.
Proof. apply dry_run_keeps_books. Qed.

(** X24.  A dry run does not change what the import does: when the import
    of some files returns, the import run after a dry run of the same files
    returns the same, writes the same messages and leaves the same catalog
    as the import run alone. *)
Theorem import_after_dry_run (folder : Folder) (csv_files : list File)
    (db : Catalog) :
  result_of (handle false folder csv_files db) = Returned tt ->
  handle false folder csv_files
         (catalog_of (handle true folder csv_files db))
  = handle false folder csv_files db.
Proof. apply dry_run_then_import. Qed.

Lemma import_after_dry_run_witness :
  handle false NoFolder (broken_file :: four_files)
         (catalog_of (handle true NoFolder (broken_file :: four_files)
                             empty_catalog))
  = handle false NoFolder (broken_file :: four_files) empty_catalog.
Proof.
  apply (import_after_dry_run NoFolder (broken_file :: four_files)
           empty_catalog).
  reflexivity.
Defined.

(** X25.  A copies cell that holds a string [int] rejects (the empty one,
    letters, a decimal point) does not stop the row: the row is imported
    and its Book is stored with one copy. *)
Theorem unparsable_copies_become_one (row : Row) (l : Locals) (c : Counts)
    (db : Catalog) :
  read_row row = Returned l ->
  row_title l <> "" ->
  row_fits l = true ->
  Py.int (row_number_of_copies l) = None ->
  exists c' db' o b,
    process_row false row c db = (Returned c', db', o)
    /\ find_book (row_book_code l) db' = Some b
    /\ number_of_copies b = 1%Z.
Proof. apply unparsable_copies_stored_as_one. Qed.

Lemma unparsable_copies_become_one_witness :
  exists c' db' o b,
    process_row false emma no_counts dune_catalog = (Returned c', db', o)
    /\ find_book "F002" db' = Some b
    /\ number_of_copies b = 1%Z.
Proof.
  apply (unparsable_copies_become_one emma
           {| row_category_name := "Fiction"; row_book_code := "F002";
              row_title := "Emma"; row_authors := Some "Austen";
              row_number_of_copies := "abc" |}
           no_counts dune_catalog);
    [reflexivity|discriminate|reflexivity|reflexivity].
Defined.
